(** * Hexagon-marker pipeline: detection, extraction, validation, mapping

    A shallow embedding of the Python sources
      - DCNE.py                        (annotation and detection record)
      - extract_hexagons.py            (extractor)
      - extract_hexagon_info.py        (validation wrapper)
      - enhanced_hexagon_processor.py  (instance reconciler / mapper)
      - hexagon_detection_app.py       (orchestrator)
    together with the properties stated about them.

    Python [float] is IEEE binary64 and is modelled by Rocq's primitive
    [float], so that every product, comparison and truncation below is
    the one Python computes; Python [int] is [Z]; [str] is [string], one
    [ascii] per character, with [\d], [isspace] and [lower] restricted to
    ASCII.  A raised exception is [None] in the option monad, up to the
    handler that catches it.  A dictionary read from JSON is a record
    with one field per key, the fields that [get] reads with a default
    being options.

    The remote providers, the JSON parser, [os.path], the file system and
    the imaging library are outside the sources.  They enter as inputs:
    what the detector answered, what the endpoint replied for each
    artifact, the size of the opened image and which of the library calls
    applied to it return.  A crop, a drawing or a saved file is
    represented by the values handed to the library call. *)

From Stdlib Require Import PrimFloat FloatOps SpecFloat FloatAxioms.
From Stdlib Require Import Bool List String Ascii Lia DecimalString DecimalPos.
From Stdlib Require Import ZArith.
Import ListNotations.

Open Scope Z_scope.

Set Warnings "-inexact-float".

(** ** The exception monad on [option] *)

Definition bind {A B : Type} (m : option A) (k : A -> option B) : option B :=
  match m with
  | Some a => k a
  | None => None
  end.

Notation "x <- m ;; k" := (bind m (fun x => k))
  (at level 61, m at next level, right associativity).

Notation "' p <- m ;; k" := (bind m (fun x => match x with p => k end))
  (at level 61, p pattern, m at next level, right associativity).

(** ** Python floats *)

Module PyFloat.

(** [x >= y]; false as soon as one side is a NaN. *)
Definition ge (x y : float) : bool := PrimFloat.leb y x.

(** [x > y]. *)
Definition gt (x y : float) : bool := PrimFloat.ltb y x.

(** [int(x)]: truncation toward zero; [ValueError] on a NaN and
    [OverflowError] on an infinity. *)
Definition to_int (x : float) : option Z :=
  match Prim2SF x with
  | S754_zero _ => Some 0
  | S754_infinity _ => None
  | S754_nan => None
  | S754_finite s m e =>
      let mag := if 0 <=? e then Z.shiftl (Zpos m) e
                 else Z.shiftr (Zpos m) (- e) in
      Some (if s then - mag else mag)
  end.

(** [float(n)] for an [int]: correctly rounded; [OverflowError] when the
    integer is beyond the largest double. *)
Definition of_int (n : Z) : option float :=
  let f := SF2Prim (binary_normalize prec emax n 0 false) in
  if is_infinity f then None else Some f.

(** [x * n] with [x] a float and [n] an int. *)
Definition mul_int (x : float) (n : Z) : option float :=
  f <- of_int n ;; Some (x * f)%float.

(** C's [fmod]: the exact remainder, with the sign of [x]. *)
Definition fmod (x y : float) : float :=
  match Prim2SF x, Prim2SF y with
  | S754_nan, _ | _, S754_nan => PrimFloat.nan
  | S754_infinity _, _ => PrimFloat.nan
  | _, S754_zero _ => PrimFloat.nan
  | S754_zero _, _ => x
  | S754_finite _ _ _, S754_infinity _ => x
  | S754_finite sx mx ex, S754_finite _ my ey =>
      let e := Z.min ex ey in
      let a := Z.shiftl (Zpos mx) (ex - e) in
      let b := Z.shiftl (Zpos my) (ey - e) in
      match a mod b with
      | Zpos r => SF2Prim (S754_finite sx r e)
      | _ => if sx then PrimFloat.neg_zero else PrimFloat.zero
      end
  end.

(** [x % y] on floats (CPython's [float_rem]): [ZeroDivisionError] on a
    zero divisor; the result takes the sign of the divisor. *)
Definition mod_ (x y : float) : option float :=
  if (y =? 0)%float then None
  else
    let m := fmod x y in
    if is_nan m then Some m
    else if (m =? 0)%float then Some (if get_sign y then PrimFloat.neg_zero else PrimFloat.zero)
    else if Bool.eqb (y <? 0)%float (m <? 0)%float then Some m
    else Some (m + y)%float.

(** The integer nearest to a finite float, ties to even: the digits
    that the format [.0f] prints. *)
Definition round_half_even (x : float) : option (bool * Z) :=
  match Prim2SF x with
  | S754_zero s => Some (s, 0)
  | S754_infinity _ => None
  | S754_nan => None
  | S754_finite s m e =>
      if 0 <=? e then Some (s, Z.shiftl (Zpos m) e)
      else
        let d := Z.shiftl 1 (- e) in
        let q := Zpos m / d in
        let r := Zpos m mod d in
        Some (s, match 2 * r ?= d with
                 | Lt => q
                 | Gt => q + 1
                 | Eq => if Z.even q then q else q + 1
                 end)
  end.

End PyFloat.

(** ** Python strings *)

Module PyStr.

Open Scope string_scope.

(** The ASCII digits, the ones [\d] is modelled for. *)
Definition is_digit (c : ascii) : bool :=
  let n := N_of_ascii c in ((48 <=? n) && (n <=? 57))%N.

(** The ASCII characters for which [str.isspace] holds. *)
Definition is_space (c : ascii) : bool :=
  let n := N_of_ascii c in
  (((9 <=? n) && (n <=? 13)) || ((28 <=? n) && (n <=? 32)))%N.

Fixpoint drop (n : nat) (s : string) : string :=
  match n, s with
  | O, _ => s
  | S _, "" => ""
  | S n', String _ s' => drop n' s'
  end.

Fixpoint take_digits (s : string) : string :=
  match s with
  | "" => ""
  | String c s' => if is_digit c then String c (take_digits s') else ""
  end.

(** [int(s)] on a run of ASCII digits. *)
Definition int_of_digits (s : string) : option Z :=
  option_map Z.of_uint (NilEmpty.uint_of_string s).

(** [str(n)] for an [int]. *)
Definition str_of_int (n : Z) : string :=
  NilZero.string_of_int (Z.to_int n).

Fixpoint zeros (n : nat) : string :=
  match n with
  | O => ""
  | S n' => String "0" (zeros n')
  end.

(** [format(n, '03d')]: sign first, then zeros up to width 3. *)
Definition format_03d (n : Z) : string :=
  let digits := str_of_int (Z.abs n) in
  if (n <? 0)%Z then "-" ++ zeros (2 - length digits)%nat ++ digits
  else zeros (3 - length digits)%nat ++ digits.

(** [s.find(sub)]: the first index of [sub], or [-1]. *)
Fixpoint find_from (sub s : string) (i : Z) : Z :=
  if prefix sub s then i
  else match s with
       | "" => -1
       | String _ s' => find_from sub s' (i + 1)
       end.

Definition find (s sub : string) : Z := find_from sub s 0.

(** [s.rfind(sub)]: the last index of [sub], or [-1]. *)
Fixpoint rfind_from (sub s : string) (i last : Z) : Z :=
  let last' := if prefix sub s then i else last in
  match s with
  | "" => last'
  | String _ s' => rfind_from sub s' (i + 1) last'
  end.

Definition rfind (s sub : string) : Z := rfind_from sub s 0 (-1).

(** [sub in s]. *)
Definition contains (sub s : string) : bool := (0 <=? find s sub)%Z.

(** [s[start:stop]] for non-negative indices. *)
Definition slice (s : string) (start stop : Z) : string :=
  substring (Z.to_nat start) (Z.to_nat (stop - start)) s.

Fixpoint lstrip (s : string) : string :=
  match s with
  | "" => ""
  | String c s' => if is_space c then lstrip s' else s
  end.

Fixpoint rstrip (s : string) : string :=
  match s with
  | "" => ""
  | String c s' =>
      let r := rstrip s' in
      if is_space c && (r =? "") then "" else String c r
  end.

(** [s.strip()]. *)
Definition strip (s : string) : string := rstrip (lstrip s).

(** [s.split(sep)] for a non-empty separator. *)
Fixpoint split_fuel (fuel : nat) (sep s : string) : list string :=
  match fuel with
  | O => [s]
  | S fuel' =>
      let i := find s sep in
      if (i <? 0)%Z then [s]
      else slice s 0 i
             :: split_fuel fuel' sep (drop (Z.to_nat i + length sep)%nat s)
  end.

Definition split (s sep : string) : list string :=
  split_fuel (length s) sep s.

(** [s.replace(old, new)] for a non-empty [old]. *)
Definition replace (s old new : string) : string :=
  concat new (split s old).

Definition lower_char (c : ascii) : ascii :=
  let n := N_of_ascii c in
  if ((65 <=? n) && (n <=? 90))%N then ascii_of_N (n + 32) else c.

(** [s.lower()] on ASCII letters. *)
Fixpoint lower (s : string) : string :=
  match s with
  | "" => ""
  | String c s' => String (lower_char c) (lower s')
  end.

(** [s.endswith(suffix)]. *)
Definition endswith (s suffix : string) : bool :=
  (length suffix <=? length s)%nat
  && (drop (length s - length suffix)%nat s =? suffix).

(** [os.path.join] and [os.path.basename] on POSIX paths. *)
Definition posix_join (folder filename : string) : string :=
  if prefix "/" filename then filename
  else if (folder =? "") || endswith folder "/" then folder ++ filename
  else folder ++ "/" ++ filename.

Definition posix_basename (path : string) : string :=
  drop (Z.to_nat (rfind path "/" + 1)) path.

(** [sorted] on strings: insertion into a list kept in code-point
    order. *)
Fixpoint insert_sorted (s : string) (l : list string) : list string :=
  match l with
  | [] => [s]
  | x :: l' => if String.leb s x then s :: l else x :: insert_sorted s l'
  end.

Definition sort (l : list string) : list string :=
  fold_right insert_sorted [] l.

End PyStr.

(** [format(p, '.0%')]: the float is scaled by 100 in double arithmetic
    and printed without decimals. *)
Definition format_percent0 (p : float) : string :=
  let x := (p * 100)%float in
  match PyFloat.round_half_even x with
  | Some (s, n) => ((if s then "-" else "") ++ PyStr.str_of_int n ++ "%")%string
  | None => if is_nan x then "nan%"%string
            else if (x <? 0)%float then "-inf%"%string else "inf%"%string
  end.

(** ** Data exchanged between the stages *)

(** A box in image-relative coordinates, as the detection provider
    returns it under the key [boundingBox]. *)
Record BoundingBox := {
  left : float;
  top : float;
  width : float;
  height : float
}.

(** One entry of the provider's [predictions] list. *)
Record Prediction := {
  tagName : string;
  probability : float;
  boundingBox : BoundingBox
}.

(** The provider's response dictionary: the [predictions] list when the
    key is present, and the names of the other top-level keys. *)
Record Response := {
  other_keys : list string;
  predictions : option (list Prediction)
}.

(** [len(response)], the number of top-level keys. *)
Definition response_len (r : Response) : Z :=
  Z.of_nat (List.length (other_keys r))
  + match predictions r with Some _ => 1 | None => 0 end.

(** [d.get('predictions', [])]. *)
Definition get_predictions (r : Response) : list Prediction :=
  match predictions r with
  | Some l => l
  | None => []
  end.

(** A judgment dictionary of the validation stage.  Each field is a key
    of the dictionary, [None] when the key is absent. *)
Record Hexagon := {
  is_hexagon : option bool;
  upper_line : option string;
  lower_line : option string;
  reason : option string;
  image_file : option string;
  confidence : option string;
  raw_response : option string
}.

(** [d.get(key, default)]. *)
Definition get {A : Type} (field : option A) (default : A) : A :=
  match field with
  | Some v => v
  | None => default
  end.

(** An opened image, as far as the scripts depend on it: its [size], and
    which of the library calls they apply to it return, the others
    raising.  This depends on the mode of the image, on its size and on
    the fonts at hand. *)
Record Image := {
  size : Z * Z;
  (* extractor: [save(path, 'PNG')] of a crop that is not empty; a CMYK
     image is not written as PNG *)
  png : bool;
  (* annotation: [resize], the [SHARPEN] filter, the two enhancers and,
     after the conversion of an RGBA image, [save(path, 'JPEG')]; a
     palette image is not filtered *)
  enhanced_jpeg : bool;
  (* annotation: [draw.rectangle] of these corners with an RGB tuple as
     outline; a greyscale image takes none *)
  rgb_ink : float * float * float * float -> bool;
  (* reconciler: [draw.rectangle] of these corners in a named colour and
     the drawing of the label of that text *)
  labels : Z * Z * Z * Z -> string -> bool;
  (* reconciler: [save(path, 'JPEG')] of the image in its own mode; an
     RGBA or a palette image is not written as JPEG *)
  jpeg : bool
}.

(** An RGB image of moderate size, with fonts for every label: every
    call returns. *)
Definition rgb_image (image_width image_height : Z) : Image :=
  {| size := (image_width, image_height);
     png := true;
     enhanced_jpeg := true;
     rgb_ink := fun _ => true;
     labels := fun _ _ => true;
     jpeg := true |}.

(** [enumerate(l, start)]. *)
Fixpoint enumerate {A : Type} (l : list A) (start : Z) : list (Z * A) :=
  match l with
  | [] => []
  | x :: l' => (start, x) :: enumerate l' (start + 1)
  end.

(** ** DCNE.py: annotation and the detection record *)

Module DCNE.

Inductive Color := Green | Red.

Definition get_color_by_confidence (confidence : float) : Color :=
  if PyFloat.ge confidence 0.70 then Green else Red.

(** One call of [draw.rectangle]. *)
Record Rectangle := {
  xy : float * float * float * float;
  outline : Color;
  line_width : Z
}.

(** The document written next to the annotated image. *)
Record DetectionRecord := {
  image_path : string;
  record_predictions : Response;
  total_detections : Z
}.

(** What a call leaves on disk: the rectangles on the saved image and
    the detection record. *)
Record Output := {
  annotated : list Rectangle;
  detection_record : DetectionRecord
}.

(** The size the image is resized to. *)
Definition upscale (image_size : Z * Z) (upscale_factor : float)
    : option (Z * Z) :=
  let '(original_width, original_height) := image_size in
  if PyFloat.gt upscale_factor 1.0 then
    w <- PyFloat.of_int original_width ;;
    h <- PyFloat.of_int original_height ;;
    new_width <- PyFloat.to_int (w * upscale_factor)%float ;;
    new_height <- PyFloat.to_int (h * upscale_factor)%float ;;
    Some (new_width, new_height)
  else Some image_size.

Definition draw_prediction (img_width img_height : Z) (upscale_factor : float)
    (prediction : Prediction) : option Rectangle :=
  let bbox := boundingBox prediction in
  left_ <- PyFloat.mul_int (left bbox) img_width ;;
  top_ <- PyFloat.mul_int (top bbox) img_height ;;
  width_ <- PyFloat.mul_int (width bbox) img_width ;;
  height_ <- PyFloat.mul_int (height bbox) img_height ;;
  let color := get_color_by_confidence (probability prediction) in
  w <- PyFloat.to_int (3 * upscale_factor)%float ;;
  Some {| xy := (left_, top_, (left_ + width_)%float, (top_ + height_)%float);
          outline := color;
          line_width := Z.max 3 w |}.

(** The loop over the predictions: only those at or above the threshold
    are processed; [ink] tells whether [draw.rectangle] returns. *)
Fixpoint draw_loop (ink : float * float * float * float -> bool)
    (img_width img_height : Z)
    (upscale_factor confidence_threshold : float)
    (preds : list Prediction) : option (list Rectangle) :=
  match preds with
  | [] => Some []
  | prediction :: rest =>
      if PyFloat.ge (probability prediction) confidence_threshold then
        r <- draw_prediction img_width img_height upscale_factor prediction ;;
        if ink (xy r) then
          rs <- draw_loop ink img_width img_height upscale_factor
                  confidence_threshold rest ;;
          Some (r :: rs)
        else None
      else draw_loop ink img_width img_height upscale_factor
             confidence_threshold rest
  end.

(** [visualize_detections], as the application calls it, with the
    enhancement on: [None] when an exception reaches the handler, in
    which case nothing has been saved.  The pixels the enhancement chain
    computes do not enter the record and are left out. *)
Definition visualize_detections (image : option Image) (path : string)
    (response : Response) (confidence_threshold upscale_factor : float)
    : option Output :=
  opened <- image ;;
  '(img_width, img_height) <- upscale (size opened) upscale_factor ;;
  rects <- draw_loop (rgb_ink opened) img_width img_height upscale_factor
             confidence_threshold (get_predictions response) ;;
  if enhanced_jpeg opened then
    Some {| annotated := rects;
            detection_record :=
              {| image_path := path;
                 record_predictions := response;
                 total_detections := response_len response |} |}
  else None.

(** [object_counts[tag_name] = object_counts.get(tag_name, 0) + 1] on a
    dictionary that keeps the order in which its keys were first seen. *)
Fixpoint count_tag (tag_name : string) (object_counts : list (string * Z))
    : list (string * Z) :=
  match object_counts with
  | [] => [(tag_name, 0 + 1)]
  | (t, n) :: rest =>
      if (t =? tag_name)%string then (t, n + 1) :: rest
      else (t, n) :: count_tag tag_name rest
  end.

(** The counting loop of [print_detection_summary]. *)
Fixpoint summary_loop (confidence_threshold : float) (preds : list Prediction)
    (object_counts : list (string * Z)) (total_objects : Z)
    : list (string * Z) * Z :=
  match preds with
  | [] => (object_counts, total_objects)
  | prediction :: rest =>
      if PyFloat.ge (probability prediction) confidence_threshold then
        summary_loop confidence_threshold rest
          (count_tag (tagName prediction) object_counts) (total_objects + 1)
      else summary_loop confidence_threshold rest object_counts total_objects
  end.

(** What [print_detection_summary] prints. *)
Inductive Summary :=
| NoPredictionsFound
| NothingAboveThreshold
| Breakdown (total_objects : Z) (object_counts : list (string * Z)).

(** [print_detection_summary]: the total and the breakdown by object
    type.  The listing by decreasing confidence printed after them is a
    view of the same detections and is not part of this value. *)
Definition print_detection_summary (response : option Response)
    (confidence_threshold : float) : Summary :=
  match response with
  | None => NoPredictionsFound
  | Some r =>
      match predictions r with
      | None => NoPredictionsFound
      | Some preds =>
          let '(object_counts, total_objects) :=
            summary_loop confidence_threshold preds [] 0 in
          if total_objects =? 0 then NothingAboveThreshold
          else Breakdown total_objects object_counts
      end
  end.

End DCNE.

(** ** extract_hexagons.py: the extractor *)

Module Extractor.

(** One saved crop: the index [i+1] that names it, its file name and the
    region handed to [image.crop]. *)
Record Artifact := {
  sequence_index : Z;
  hexagon_filename : string;
  crop : Z * Z * Z * Z
}.

(** The predictions kept for extraction. *)
Definition high_confidence_predictions (preds : list Prediction)
    (confidence_threshold : float) : list Prediction :=
  filter (fun pred => PyFloat.ge (probability pred) confidence_threshold) preds.

(** The padded region, clamped to the image. *)
Definition crop_coordinates (img_width img_height left_ top_ width_ height_
    padding_x padding_y : Z) : Z * Z * Z * Z :=
  let crop_left := Z.max 0 (left_ - padding_x) in
  let crop_top := Z.max 0 (top_ - padding_y) in
  let crop_right := Z.min img_width (left_ + width_ + padding_x) in
  let crop_bottom := Z.min img_height (top_ + height_ + padding_y) in
  (crop_left, crop_top, crop_right, crop_bottom).

(** Relative box to pixels, 10% padding, clamping. *)
Definition crop_region (img_width img_height : Z) (bbox : BoundingBox)
    : option (Z * Z * Z * Z) :=
  left_ <- (f <- PyFloat.mul_int (left bbox) img_width ;; PyFloat.to_int f) ;;
  top_ <- (f <- PyFloat.mul_int (top bbox) img_height ;; PyFloat.to_int f) ;;
  width_ <- (f <- PyFloat.mul_int (width bbox) img_width ;; PyFloat.to_int f) ;;
  height_ <- (f <- PyFloat.mul_int (height bbox) img_height ;; PyFloat.to_int f) ;;
  padding_x <- (f <- PyFloat.of_int width_ ;; PyFloat.to_int (f * 0.1)%float) ;;
  padding_y <- (f <- PyFloat.of_int height_ ;; PyFloat.to_int (f * 0.1)%float) ;;
  Some (crop_coordinates img_width img_height left_ top_ width_ height_
          padding_x padding_y).

Definition filename_of (i : Z) (p : float) : string :=
  ("hexagon_" ++ PyStr.format_03d (i + 1) ++ "_conf_"
     ++ format_percent0 p ++ ".png")%string.

(** A region with pixels in it.  The library saves no empty crop, and
    either crops no region whose right or lower side comes first or
    returns an empty crop for it. *)
Definition has_pixels (region : Z * Z * Z * Z) : bool :=
  let '(crop_left, crop_top, crop_right, crop_bottom) := region in
  (crop_left <? crop_right) && (crop_top <? crop_bottom).

(** The loop over [enumerate(high_confidence_predictions)], from index
    [i]: the artifacts saved, and whether the loop ran to its end
    ([false]: an exception left it, raised by a conversion to pixels or
    by the crop and its saving as PNG, which [saves] tells to return for
    this image). *)
Fixpoint extract_loop (saves : bool) (img_width img_height : Z) (i : Z)
    (preds : list Prediction) : list Artifact * bool :=
  match preds with
  | [] => ([], true)
  | prediction :: rest =>
      match crop_region img_width img_height (boundingBox prediction) with
      | None => ([], false)
      | Some region =>
          if saves && has_pixels region then
            let a := {| sequence_index := i + 1;
                        hexagon_filename :=
                          filename_of i (probability prediction);
                        crop := region |} in
            let '(saved, finished) :=
              extract_loop saves img_width img_height (i + 1) rest in
            (a :: saved, finished)
          else ([], false)
      end
  end.

(** How a call of [extract_hexagons] ends. *)
Inductive Outcome :=
| NoPredictions
| Raised (saved : list Artifact)
| Extracted (saved : list Artifact).

Definition saved_artifacts (o : Outcome) : list Artifact :=
  match o with
  | NoPredictions => []
  | Raised saved => saved
  | Extracted saved => saved
  end.

(** [extract_hexagons], given what the detector returned for the image
    ([None]: the request failed) and the image itself ([None]: it cannot
    be opened). *)
Definition extract_hexagons (image : option Image)
    (response : option Response) (confidence_threshold : float) : Outcome :=
  match response with
  | None => NoPredictions
  | Some r =>
      match predictions r with
      | None => NoPredictions
      | Some preds =>
          match image with
          | None => Raised []
          | Some opened =>
              let '(img_width, img_height) := size opened in
              let '(saved, finished) :=
                extract_loop (png opened) img_width img_height 0
                  (high_confidence_predictions preds confidence_threshold) in
              if finished then Extracted saved else Raised saved
          end
      end
  end.

End Extractor.

(** ** extract_hexagon_info.py: the validation wrapper *)

Module Validator.

(** What the vision-language endpoint did for one image. *)
Inductive Reply :=
| RequestFailed              (* any exception of the request or of the decoding *)
| NoChoices                  (* a response without [choices] *)
| Content (content : string) (* [choices[0].message.content] *).

(** The surroundings of one call: the base64 text of the image file
    ([None]: the file cannot be read) and the endpoint's reply. *)
Record Call := {
  encoded : option string;
  reply : Reply
}.

(** How a call of [process_hexagon_folder] ends. *)
Inductive Outcome :=
| NoPngFiles
| NothingExtracted
| Saved (results true_hexagons : list Hexagon).

Section Wrapper.

(** [os.path.basename] and [os.path.join]. *)
Variable basename : string -> string.
Variable join : string -> string -> string.

(** [json.loads] on the text of an object; [None] is
    [JSONDecodeError]. *)
Variable json_loads : string -> option Hexagon.

Definition extract_confidence_from_filename (image_path : string) : string :=
  let filename := basename image_path in
  if PyStr.contains "conf_" filename then
    match PyStr.split filename "conf_" with
    | _ :: part :: _ =>
        match PyStr.split part "." with
        | conf_part :: _ => conf_part
        | [] => "unknown"%string
        end
    | _ => "unknown"%string
    end
  else "unknown"%string.

(** The dictionary built when no JSON object is found or parsed. *)
Definition raw_judgment (image_path content : string) : Hexagon :=
  {| is_hexagon := None;
     upper_line := Some (PyStr.strip content);
     lower_line := Some ""%string;
     reason := None;
     image_file := Some (basename image_path);
     confidence := Some (extract_confidence_from_filename image_path);
     raw_response := Some content |}.

(** [extract_info_from_hexagon]; [None] is the Python [None]. *)
Definition extract_info_from_hexagon (image_path : string) (call : Call)
    : option Hexagon :=
  match encoded call with
  | None => None
  | Some ""%string => None
  | Some _ =>
      match reply call with
      | RequestFailed => None
      | NoChoices => None
      | Content content =>
          let start_idx := PyStr.find content "{" in
          let end_idx := PyStr.rfind content "}" + 1 in
          if negb (start_idx =? -1) && negb (end_idx =? 0) then
            let json_str := PyStr.slice content start_idx end_idx in
            match json_loads json_str with
            | Some extracted_info =>
                Some {| is_hexagon := is_hexagon extracted_info;
                        upper_line := upper_line extracted_info;
                        lower_line := lower_line extracted_info;
                        reason := reason extracted_info;
                        image_file := Some (basename image_path);
                        confidence :=
                          Some (extract_confidence_from_filename image_path);
                        raw_response := raw_response extracted_info |}
            | None => Some (raw_judgment image_path content)
            end
          else Some (raw_judgment image_path content)
      end
  end.

(** The loop over the sorted image paths: the judgments appended to
    [results]. *)
Fixpoint process_loop (calls : string -> Call) (hexagon_files : list string)
    : list Hexagon :=
  match hexagon_files with
  | [] => []
  | hexagon_path :: rest =>
      match extract_info_from_hexagon hexagon_path (calls hexagon_path) with
      | Some extracted_info => extracted_info :: process_loop calls rest
      | None => process_loop calls rest
      end
  end.

(** The PNG files of the folder, as sorted paths. *)
Definition hexagon_files (hexagon_folder : string) (listing : list string)
    : list string :=
  PyStr.sort
    (map (join hexagon_folder)
       (filter (fun filename => PyStr.endswith (PyStr.lower filename) ".png")
          listing)).

(** The judgments written to the file of the true hexagons. *)
Definition true_hexagons_of (results : list Hexagon) : list Hexagon :=
  filter (fun result => get (is_hexagon result) false) results.

(** [process_hexagon_folder], given the names [os.listdir] returns and
    the surroundings of each call. *)
Definition process_hexagon_folder (hexagon_folder : string)
    (listing : list string) (calls : string -> Call) : Outcome :=
  match hexagon_files hexagon_folder listing with
  | [] => NoPngFiles
  | files =>
      match process_loop calls files with
      | [] => NothingExtracted
      | results => Saved results (true_hexagons_of results)
      end
  end.

End Wrapper.

End Validator.

(** ** enhanced_hexagon_processor.py: the instance reconciler *)

Module Mapper.

(** [re.search(r'hexagon_(\d+)', filename)], the digits of the leftmost
    match. *)
Fixpoint search_hexagon_digits (filename : string) : option string :=
  match filename with
  | ""%string => None
  | String _ rest =>
      if prefix "hexagon_" filename then
        match PyStr.take_digits (PyStr.drop 8 filename) with
        | ""%string => search_hexagon_digits rest
        | digits => Some digits
        end
      else search_hexagon_digits rest
  end.

Definition extract_hexagon_number (filename : string) : option Z :=
  digits <- search_hexagon_digits filename ;; PyStr.int_of_digits digits.

(** The grouping key. *)
Definition key_of (hexagon : Hexagon) : string :=
  (get (upper_line hexagon) "" ++ "/" ++ get (lower_line hexagon) "")%string.

(** [hexagon_counts[key].append(hexagon)] on a dictionary that keeps the
    order in which its keys were first seen. *)
Fixpoint append_to (key : string) (hexagon : Hexagon)
    (hexagon_counts : list (string * list Hexagon))
    : list (string * list Hexagon) :=
  match hexagon_counts with
  | [] => [(key, [hexagon])]
  | (k, hexagons) :: rest =>
      if (k =? key)%string then (k, hexagons ++ [hexagon]) :: rest
      else (k, hexagons) :: append_to key hexagon rest
  end.

Definition group_hexagons (true_hexagons : list Hexagon)
    : list (string * list Hexagon) :=
  fold_left (fun hexagon_counts hexagon =>
               append_to (key_of hexagon) hexagon hexagon_counts)
    true_hexagons [].

Record Instance := {
  count : Z;
  hexagons : list Hexagon
}.

Definition instance_of (hexagons : list Hexagon) : Instance :=
  {| count := Z.of_nat (List.length hexagons); hexagons := hexagons |}.

Definition all_instances_of (hexagon_counts : list (string * list Hexagon))
    : list (string * Instance) :=
  map (fun '(key, hexagons) => (key, instance_of hexagons)) hexagon_counts.

Definition duplicates_of (hexagon_counts : list (string * list Hexagon))
    : list (string * Instance) :=
  all_instances_of
    (filter (fun '(_, hexagons) => 1 <? Z.of_nat (List.length hexagons))
       hexagon_counts).

(** [count_duplicate_hexagons]; [None] as input is a file that cannot be
    read, for which the handler returns the empty dictionary. *)
Definition count_duplicate_hexagons (true_hexagons_json : option (list Hexagon))
    : list (string * Instance) :=
  match true_hexagons_json with
  | Some true_hexagons => duplicates_of (group_hexagons true_hexagons)
  | None => []
  end.

(** The dictionary [detections]: position in the record, from 1, to
    box. *)
Definition detections_of (detection_json : option DCNE.DetectionRecord)
    : list (Z * BoundingBox) :=
  match detection_json with
  | Some detection_data =>
      enumerate
        (map boundingBox
           (get_predictions (DCNE.record_predictions detection_data))) 1
  | None => []
  end.

Fixpoint lookup (detections : list (Z * BoundingBox)) (hexagon_number : Z)
    : option BoundingBox :=
  match detections with
  | [] => None
  | (i, bbox) :: rest =>
      if i =? hexagon_number then Some bbox else lookup rest hexagon_number
  end.

(** The placement used when the number is not a key of [detections]. *)
Definition simplified_positioning (hexagon_number : Z) : option BoundingBox :=
  n <- PyFloat.of_int hexagon_number ;;
  l <- PyFloat.mod_ (n * 0.05)%float 0.8 ;;
  t <- PyFloat.mod_ (n * 0.03)%float 0.8 ;;
  Some {| left := (0.1 + l)%float; top := (0.1 + t)%float;
          width := 0.04; height := 0.04 |}.

Definition resolve_bbox (detections : list (Z * BoundingBox))
    (hexagon_number : Z) : option BoundingBox :=
  match lookup detections hexagon_number with
  | Some bbox => Some bbox
  | None => simplified_positioning hexagon_number
  end.

(** Relative box to the pixel corners of the rectangle. *)
Definition pixel_box (original_width original_height : Z) (bbox : BoundingBox)
    : option (Z * Z * Z * Z) :=
  w <- PyFloat.of_int original_width ;;
  h <- PyFloat.of_int original_height ;;
  x1 <- PyFloat.to_int (left bbox * w)%float ;;
  y1 <- PyFloat.to_int (top bbox * h)%float ;;
  x2 <- PyFloat.to_int ((left bbox + width bbox) * w)%float ;;
  y2 <- PyFloat.to_int ((top bbox + height bbox) * h)%float ;;
  Some (x1, y1, x2, y2).

(** One green rectangle with its label. *)
Record Drawn := {
  rectangle : Z * Z * Z * Z;
  label_text : string
}.

Definition label_of (hexagon_number : Z) (hexagon_data : Hexagon) : string :=
  let upper_text := get (upper_line hexagon_data) ""%string in
  let lower_text := get (lower_line hexagon_data) ""%string in
  let label := ("#" ++ PyStr.str_of_int hexagon_number)%string in
  if negb (upper_text =? "")%string || negb (lower_text =? "")%string
  then (label ++ " (" ++ upper_text ++ "/" ++ lower_text ++ ")")%string
  else label.

(** The loop over [true_hexagons]: what is drawn, in order.  A file name
    without a number is skipped; an exception ends the call; [ink] tells
    whether the drawing of a rectangle and of its label returns. *)
Fixpoint map_loop (ink : Z * Z * Z * Z -> string -> bool)
    (original_width original_height : Z)
    (detections : list (Z * BoundingBox)) (true_hexagons : list Hexagon)
    : option (list Drawn) :=
  match true_hexagons with
  | [] => Some []
  | hexagon_data :: rest =>
      match extract_hexagon_number (get (image_file hexagon_data) ""%string) with
      | None => map_loop ink original_width original_height detections rest
      | Some hexagon_number =>
          bbox <- resolve_bbox detections hexagon_number ;;
          box <- pixel_box original_width original_height bbox ;;
          if ink box (label_of hexagon_number hexagon_data) then
            drawn <- map_loop ink original_width original_height detections
                       rest ;;
            Some ({| rectangle := box;
                     label_text := label_of hexagon_number hexagon_data |}
                    :: drawn)
          else None
      end
  end.

(** The instance report. *)
Record Report := {
  total_hexagons : Z;
  unique_combinations : Z;
  all_instances : list (string * Instance);
  duplicates : list (string * Instance);
  summary : list (string * Z)
}.

Definition report_of (true_hexagons : list Hexagon) : Report :=
  let hexagon_counts := group_hexagons true_hexagons in
  {| total_hexagons := Z.of_nat (List.length true_hexagons);
     unique_combinations :=
       Z.of_nat (List.length (nodup string_dec (map key_of true_hexagons)));
     all_instances := all_instances_of hexagon_counts;
     duplicates := duplicates_of hexagon_counts;
     summary := map (fun '(key, info) => (key, count info))
                  (all_instances_of hexagon_counts) |}.

(** What a successful call hands to its two writes, and the count it
    prints. *)
Record Written := {
  annotated_image : list Drawn;
  mapped_count : Z;
  duplicate_analysis : Report
}.

(** [map_true_hexagons_to_image]: [Some] is the return value [True],
    [None] is [False], reached from the handler before anything is
    saved: the image or one of the two documents cannot be read, a
    conversion fails, or the library raises while it draws or while it
    saves the annotated copy as JPEG.  What is written does not depend on
    [output_image_path]; where it is written does, see [writes]. *)
Definition map_true_hexagons_to_image (original_image : option Image)
    (true_hexagons_json : option (list Hexagon))
    (detection_json : option DCNE.DetectionRecord) : option Written :=
  opened <- original_image ;;
  let '(original_width, original_height) := size opened in
  true_hexagons <- true_hexagons_json ;;
  drawn <- map_loop (labels opened) original_width original_height
             (detections_of detection_json) true_hexagons ;;
  if jpeg opened then
    Some {| annotated_image := drawn;
            mapped_count := Z.of_nat (List.length drawn);
            duplicate_analysis := report_of true_hexagons |}
  else None.





End Mapper.

(** ** hexagon_detection_app.py: the orchestrator *)

Module Orchestrator.

Inductive Step := Detection | Extraction | Validation | Mapping.

(** The position of a step in [step_names], the number kept in
    [completed_steps]. *)
Definition step_number (step : Step) : Z :=
  match step with
  | Detection => 0
  | Extraction => 1
  | Validation => 2
  | Mapping => 3
  end.

Definition step_eqb (a b : Step) : bool := step_number a =? step_number b.

(** One entry of [processing_status]. *)
Record StepStatus := {
  completed : bool;
  time : float
}.

(** The dictionary [processing_status], one entry per step name. *)
Record ProcessingStatus := {
  status_Detection : StepStatus;
  status_Extraction : StepStatus;
  status_Validation : StepStatus;
  status_Mapping : StepStatus
}.

Definition initial_status : ProcessingStatus :=
  let entry := {| completed := false; time := 0 |} in
  {| status_Detection := entry; status_Extraction := entry;
     status_Validation := entry; status_Mapping := entry |}.

Definition get_status (status : ProcessingStatus) (step : Step) : StepStatus :=
  match step with
  | Detection => status_Detection status
  | Extraction => status_Extraction status
  | Validation => status_Validation status
  | Mapping => status_Mapping status
  end.

Definition set_status (status : ProcessingStatus) (step : Step)
    (entry : StepStatus) : ProcessingStatus :=
  {| status_Detection :=
       if step_eqb step Detection then entry else status_Detection status;
     status_Extraction :=
       if step_eqb step Extraction then entry else status_Extraction status;
     status_Validation :=
       if step_eqb step Validation then entry else status_Validation status;
     status_Mapping :=
       if step_eqb step Mapping then entry else status_Mapping status |}.

(** What a stage runner returns: the dictionary with [success] true and
    its payload, or the one with the error message. *)
Inductive Result (P : Type) :=
| Success (payload : P)
| Failure (error : string).

Arguments Success {P} payload.
Arguments Failure {P} error.

Definition success {P : Type} (r : Result P) : bool :=
  match r with
  | Success _ => true
  | Failure _ => false
  end.

(** How one execution of the script ends: [st.rerun()], an uncaught
    exception, or its last line. *)
Inductive Exit := Rerun | Crashed | Finished.

(** The widget that was clicked to trigger the execution, if any. *)
Inductive Click := NoClick | StartProcessing | StopProcessing | StartAgain.

Section Script.

(** The payloads of the four result dictionaries. *)
Variables D E V M : Type.

(** The bundle stored under [processing_results]. *)
Record Results := {
  res_detection : Result D;
  res_extraction : Result E;
  res_validation : Result V;
  res_mapping : Result M
}.

(** [st.session_state]; a key that is read with a default before it is
    set holds that default. *)
Record SessionState := {
  processing_started : bool;
  processing_completed : bool;
  processing_halted : bool;
  current_step : Z;
  completed_steps : list Z;
  processing_status : option ProcessingStatus;
  processing_results : option Results
}.

(** The surroundings of one execution: what each stage runner returns,
    the seconds measured around it, and whether the handler of the
    Stop button changed the session while the stage was running. *)
Record Environment := {
  run_dcne_detection : Result D;
  run_hexagon_extraction : Result E;
  run_hexagon_validation : E -> Result V;
  run_enhanced_mapping : V -> D -> Result M;
  seconds : Step -> float;
  stop_during : Step -> bool
}.

(** The local variables of [main] that hold stage results, unbound at
    the start of every execution, and the stages invoked so far. *)
Record Locals := {
  detection_result : option (Result D);
  extraction_result : option (Result E);
  validation_result : option (Result V);
  mapping_result : option (Result M);
  invoked : list Step
}.

Definition no_locals : Locals :=
  {| detection_result := None; extraction_result := None;
     validation_result := None; mapping_result := None; invoked := [] |}.

(** The end of an execution. *)
Record Run := {
  session : SessionState;
  stages : list Step;
  exit : Exit
}.

Definition set_flags (s : SessionState) (started completed_ halted : bool)
    : SessionState :=
  {| processing_started := started;
     processing_completed := completed_;
     processing_halted := halted;
     current_step := current_step s;
     completed_steps := completed_steps s;
     processing_status := processing_status s;
     processing_results := processing_results s |}.

(** The handler of the Stop button. *)
Definition stop_processing (s : SessionState) : SessionState :=
  set_flags s false false true.

(** [processing_halted = True]. *)
Definition set_halted (s : SessionState) : SessionState :=
  set_flags s (processing_started s) (processing_completed s) true.

(** The bookkeeping of a successful stage. *)
Definition record_completed (s : SessionState) (step : Step) (t : float)
    : SessionState :=
  {| processing_started := processing_started s;
     processing_completed := processing_completed s;
     processing_halted := processing_halted s;
     current_step := current_step s;
     completed_steps := completed_steps s ++ [step_number step];
     processing_status :=
       Some (set_status (get (processing_status s) initial_status) step
               {| completed := true; time := t |});
     processing_results := processing_results s |}.

Definition is_completed (s : SessionState) (step : Step) : bool :=
  existsb (Z.eqb (step_number step)) (completed_steps s).

Variable env : Environment.

(** What follows the call of a stage runner: the check for a stop, then
    the success or the failure of the stage.  [inl] continues the
    script, [inr] leaves it by [st.rerun()]. *)
Definition after_stage (step : Step) (ok : bool) (s : SessionState)
    : SessionState + SessionState :=
  let s := if stop_during env step then stop_processing s else s in
  if negb (processing_started s) then inr (set_halted s)
  else if ok then inl (record_completed s step (seconds env step))
  else inr (set_flags s false false true).

Definition leave (s : SessionState) (l : Locals) (e : Exit) : Run :=
  {| session := s; stages := invoked l; exit := e |}.

(** The closing block: all four steps recorded. *)
Definition finish (s : SessionState) (l : Locals) : Run :=
  if (Z.of_nat (List.length (completed_steps s)) =? 4) then
    let s := set_flags s false true (processing_halted s) in
    match detection_result l, extraction_result l,
          validation_result l, mapping_result l with
    | Some d, Some e, Some v, Some m =>
        leave {| processing_started := processing_started s;
                 processing_completed := processing_completed s;
                 processing_halted := processing_halted s;
                 current_step := current_step s;
                 completed_steps := completed_steps s;
                 processing_status := processing_status s;
                 processing_results :=
                   Some {| res_detection := d; res_extraction := e;
                           res_validation := v; res_mapping := m |} |}
          l Rerun
    | _, _, _, _ => leave s l Crashed
    end
  else leave s l Finished.

(** Step 4. *)
Definition step_mapping (s : SessionState) (l : Locals) : Run :=
  if is_completed s Validation && negb (is_completed s Mapping) then
    match validation_result l, detection_result l with
    | Some (Success v), Some (Success d) =>
        let r := run_enhanced_mapping env v d in
        let l := {| detection_result := detection_result l;
                    extraction_result := extraction_result l;
                    validation_result := validation_result l;
                    mapping_result := Some r;
                    invoked := invoked l ++ [Mapping] |} in
        match after_stage Mapping (success r) s with
        | inl s => finish s l
        | inr s => leave s l Rerun
        end
    | _, _ => leave s l Crashed
    end
  else finish s l.

(** Step 3. *)
Definition step_validation (s : SessionState) (l : Locals) : Run :=
  if is_completed s Extraction && negb (is_completed s Validation) then
    match extraction_result l with
    | Some (Success e) =>
        let r := run_hexagon_validation env e in
        let l := {| detection_result := detection_result l;
                    extraction_result := extraction_result l;
                    validation_result := Some r;
                    mapping_result := mapping_result l;
                    invoked := invoked l ++ [Validation] |} in
        match after_stage Validation (success r) s with
        | inl s => step_mapping s l
        | inr s => leave s l Rerun
        end
    | _ => leave s l Crashed
    end
  else step_mapping s l.

(** Step 2. *)
Definition step_extraction (s : SessionState) (l : Locals) : Run :=
  if is_completed s Detection && negb (is_completed s Extraction) then
    let r := run_hexagon_extraction env in
    let l := {| detection_result := detection_result l;
                extraction_result := Some r;
                validation_result := validation_result l;
                mapping_result := mapping_result l;
                invoked := invoked l ++ [Extraction] |} in
    match after_stage Extraction (success r) s with
    | inl s => step_validation s l
    | inr s => leave s l Rerun
    end
  else step_validation s l.

(** Step 1. *)
Definition step_detection (s : SessionState) (l : Locals) : Run :=
  if negb (is_completed s Detection) then
    let r := run_dcne_detection env in
    let l := {| detection_result := Some r;
                extraction_result := extraction_result l;
                validation_result := validation_result l;
                mapping_result := mapping_result l;
                invoked := invoked l ++ [Detection] |} in
    match after_stage Detection (success r) s with
    | inl s => step_extraction s l
    | inr s => leave s l Rerun
    end
  else step_extraction s l.

(** [processing_status] is given its initial value when the key is not
    in the session yet. *)
Definition init_status (s : SessionState) : SessionState :=
  {| processing_started := processing_started s;
     processing_completed := processing_completed s;
     processing_halted := processing_halted s;
     current_step := current_step s;
     completed_steps := completed_steps s;
     processing_status := Some (get (processing_status s) initial_status);
     processing_results := processing_results s |}.

(** The branch taken while processing is under way. *)
Definition processing (click : Click) (s : SessionState) : Run :=
  match click with
  | StopProcessing => leave (stop_processing s) no_locals Rerun
  | _ =>
      let s := init_status s in
      if negb (processing_started s) then leave (set_halted s) no_locals Rerun
      else step_detection s no_locals
  end.

(** One execution of [main] with an image uploaded. *)
Definition main (click : Click) (s : SessionState) : Run :=
  if negb (processing_started s) && negb (processing_completed s)
     && negb (processing_halted s) then
    match click with
    | StartProcessing =>
        leave (set_flags s true (processing_completed s) (processing_halted s))
          no_locals Rerun
    | _ => leave s no_locals Finished
    end
  else if processing_started s && negb (processing_completed s) then
    processing click s
  else if processing_halted s then
    match click with
    | StartAgain => leave (set_flags s true false false) no_locals Rerun
    | _ => leave s no_locals Finished
    end
  else leave s no_locals Finished.

End Script.

Arguments processing_started {D E V M} _.
Arguments processing_completed {D E V M} _.
Arguments processing_halted {D E V M} _.
Arguments current_step {D E V M} _.
Arguments completed_steps {D E V M} _.
Arguments processing_status {D E V M} _.
Arguments processing_results {D E V M} _.
Arguments run_dcne_detection {D E V M} _.
Arguments run_hexagon_extraction {D E V M} _.
Arguments run_hexagon_validation {D E V M} _ _.
Arguments run_enhanced_mapping {D E V M} _ _ _.
Arguments seconds {D E V M} _ _.
Arguments stop_during {D E V M} _ _.
Arguments detection_result {D E V M} _.
Arguments extraction_result {D E V M} _.
Arguments validation_result {D E V M} _.
Arguments mapping_result {D E V M} _.
Arguments invoked {D E V M} _.
Arguments no_locals {D E V M}.
Arguments session {D E V M} _.
Arguments stages {D E V M} _.
Arguments exit {D E V M} _.
Arguments set_flags {D E V M} _ _ _ _.
Arguments stop_processing {D E V M} _.
Arguments set_halted {D E V M} _.
Arguments record_completed {D E V M} _ _ _.
Arguments is_completed {D E V M} _ _.
Arguments after_stage {D E V M} _ _ _ _.
Arguments leave {D E V M} _ _ _.
Arguments finish {D E V M} _ _.
Arguments step_mapping {D E V M} _ _ _.
Arguments step_validation {D E V M} _ _ _.
Arguments step_extraction {D E V M} _ _ _.
Arguments step_detection {D E V M} _ _ _.
Arguments init_status {D E V M} _.
Arguments processing {D E V M} _ _ _.
Arguments main {D E V M} _ _ _.

(** The session before anything was clicked. *)
Definition fresh_session (D E V M : Type) : SessionState D E V M :=
  {| processing_started := false;
     processing_completed := false;
     processing_halted := false;
     current_step := 0;
     completed_steps := [];
     processing_status := None;
     processing_results := None |}.

End Orchestrator.

(** ** The four stage runners of the application *)

Module Pipeline.

Import Orchestrator.

(** What lies outside the sources for one uploaded image: the image, the
    presence of a readable [config.json], the detector's answers to the
    two scripts that query it, the surroundings of each validation call,
    and what an earlier run left in the output folder of an image of
    this name ([None]: no folder; [Some None]: a folder without the two
    files; [Some (Some record)]: the annotated image and this detection
    record). *)
Record World := {
  image : Image;
  image_name : string;
  config_found : bool;
  detection_response : option Response;
  extraction_response : option Response;
  calls : string -> Validator.Call;
  json_loads : string -> option Hexagon;
  previous_output : option (option DCNE.DetectionRecord)
}.

(** The truth value of the response dictionary. *)
Definition nonempty (r : Response) : bool := 0 <? response_len r.

(** What [DCNE.py --upscale 4.0 --threshold 0.5] leaves in the output
    folder of the image: [None] when it does not create the folder (no
    configuration, no answer or an empty one), [Some None] when the
    annotation raises after the folder was created, [Some (Some record)]
    when the two files are written. *)
Definition dcne_output (w : World) : option (option DCNE.DetectionRecord) :=
  if config_found w then
    match detection_response w with
    | Some predictions =>
        if nonempty predictions then
          Some (option_map DCNE.detection_record
                  (DCNE.visualize_detections (Some (image w)) (image_name w)
                     predictions 0.5 4.0))
        else None
    | None => None
    end
  else None.

(** [run_dcne_detection]: the script ends with status 0 in all these
    cases, and the runner succeeds when the annotated image and the
    detection record exist in the output folder afterwards, written by
    this run or left there by an earlier one. *)
Definition run_dcne_detection (w : World) : Result DCNE.DetectionRecord :=
  match dcne_output w, previous_output w with
  | Some (Some record), _ => Success record
  | _, Some (Some record) => Success record
  | None, None => Failure "Output folder not found"
  | _, _ => Failure "Output files not found"
  end.

(** The payload of the extraction runner: the folder of the image, known
    by the names of the files in it, and the number of its PNG files. *)
Record ExtractedFolder := {
  hexagons_folder : list string;
  hexagon_count : Z
}.

(** [run_hexagon_extraction]: [extract_hexagons.py --threshold 0.70];
    the runner succeeds when the folder of the image exists afterwards,
    which the extractor creates before it queries the detector. *)
Definition run_hexagon_extraction (w : World) : Result ExtractedFolder :=
  if config_found w then
    let folder :=
      map Extractor.hexagon_filename
        (Extractor.saved_artifacts
           (Extractor.extract_hexagons (Some (image w))
              (extraction_response w) 0.70)) in
    Success
      {| hexagons_folder := folder;
         hexagon_count :=
           Z.of_nat (List.length
                       (filter (fun f => PyStr.endswith f ".png") folder)) |}
  else Failure "Hexagons folder not found".

(** The files [process_hexagon_folder] writes. *)
Definition written_files (output_file : string) (o : Validator.Outcome)
    : list (string * list Hexagon) :=
  match o with
  | Validator.Saved results true_hexagons =>
      [(output_file, results);
       (PyStr.replace output_file ".json" "_true_hexagons.json", true_hexagons)]
  | _ => []
  end.

(** The content of a file after the writes, the last one prevailing. *)
Fixpoint read_file (files : list (string * list Hexagon)) (name : string)
    : option (list Hexagon) :=
  match files with
  | [] => None
  | (n, content) :: rest =>
      match read_file rest name with
      | Some c => Some c
      | None => if (n =? name)%string then Some content else None
      end
  end.

(** [run_hexagon_validation] on the folder of the extracted PNG files:
    the runner succeeds when a file of true hexagons is found in the
    folder afterwards. *)
Definition run_hexagon_validation (w : World) (extraction : ExtractedFolder)
    : Result (list Hexagon) :=
  let hexagon_pngs := hexagons_folder extraction in
  let folder_name := image_name w in
  let validation_json :=
    ("hexagon_validation_" ++ folder_name ++ ".json")%string in
  let written :=
    written_files validation_json
      (Validator.process_hexagon_folder PyStr.posix_basename PyStr.posix_join
         (json_loads w) folder_name hexagon_pngs (calls w)) in
  let created_files := (hexagon_pngs ++ map fst written)%list in
  match find (fun file => PyStr.contains "true_hexagons" file
                          && PyStr.endswith file ".json") created_files with
  | Some true_hexagons_file =>
      match read_file written true_hexagons_file with
      | Some true_hexagons => Success true_hexagons
      | None => Failure "Exception occurred"
      end
  | None => Failure "True hexagons file not found"
  end.

(** [run_enhanced_mapping]: the script ends with status 0 whatever
    [map_true_hexagons_to_image] returns, so the runner succeeds; its
    payload is what the call wrote, if anything. *)
Definition run_enhanced_mapping (w : World) (true_hexagons : list Hexagon)
    (detection_json : DCNE.DetectionRecord) : Result (option Mapper.Written) :=
  Success (Mapper.map_true_hexagons_to_image (Some (image w))
             (Some true_hexagons) (Some detection_json)).

Definition D := DCNE.DetectionRecord.
Definition E := ExtractedFolder.
Definition V := list Hexagon.
Definition M := option Mapper.Written.

(** The surroundings of an execution of the script in a given world. *)
Definition environment (w : World) (seconds : Step -> float)
    (stop_during : Step -> bool) : Environment D E V M :=
  {| Orchestrator.run_dcne_detection := run_dcne_detection w;
     Orchestrator.run_hexagon_extraction := run_hexagon_extraction w;
     Orchestrator.run_hexagon_validation := run_hexagon_validation w;
     Orchestrator.run_enhanced_mapping := run_enhanced_mapping w;
     Orchestrator.seconds := seconds;
     Orchestrator.stop_during := stop_during |}.

End Pipeline.

(** * Vocabulary of the statements *)

(** [start, start+1, ..., start+len-1]. *)
Fixpoint zseq (start : Z) (len : nat) : list Z :=
  match len with
  | O => []
  | S n => start :: zseq (start + 1) n
  end.

(** Artifact [a] is the one saved for the survivor [p] met at position
    [k] (from 0) of the extractor's loop. *)
Definition saved_from (W H : Z) (k : Z) (p : Prediction) (a : Extractor.Artifact)
    : Prop :=
  Extractor.sequence_index a = k + 1
  /\ Extractor.hexagon_filename a = Extractor.filename_of k (probability p)
  /\ Extractor.crop_region W H (boundingBox p) = Some (Extractor.crop a).

(** ** Sample inputs *)

(** The box of the spec's worked example. *)
Definition example_box : BoundingBox :=
  {| left := 0.1; top := 0.2; width := 0.05; height := 0.05 |}.

(** A provider answer whose first detection is below the extraction
    threshold 0.70 and above the display threshold 0.5. *)
Definition example_predictions : list Prediction :=
  [ {| tagName := "hexagon"; probability := 0.55; boundingBox := example_box |};
    {| tagName := "hexagon"; probability := 0.9;
       boundingBox := {| left := 0.5; top := 0.5; width := 0.1; height := 0.1 |} |};
    {| tagName := "hexagon"; probability := 0.75;
       boundingBox := {| left := 0.7; top := 0.1; width := 0.1; height := 0.2 |} |} ].

Definition example_response : Response :=
  {| other_keys := ["id"; "project"; "iteration"; "created"]%string;
     predictions := Some example_predictions |}.

(** A provider answer with one detection below the display threshold
    0.5. *)
Definition faint_prediction : Prediction :=
  {| tagName := "hexagon"; probability := 0.3; boundingBox := example_box |}.

Definition faint_response : Response :=
  {| other_keys := ["id"; "project"; "iteration"; "created"]%string;
     predictions :=
       Some [ faint_prediction;
              {| tagName := "hexagon"; probability := 0.9;
                 boundingBox := {| left := 0.5; top := 0.5;
                                   width := 0.1; height := 0.1 |} |} ] |}.

(** The detections at or above a threshold, in the provider's order. *)
Definition at_or_above (threshold : float) (preds : list Prediction)
    : list Prediction :=
  filter (fun p => PyFloat.ge (probability p) threshold) preds.

(** The members recorded under a key in the grouping dictionary, none
    when the key is absent. *)
Fixpoint members (key : string) (groups : list (string * list Hexagon))
    : list Hexagon :=
  match groups with
  | [] => []
  | (k, hexagons) :: rest =>
      if (k =? key)%string then hexagons else members key rest
  end.

(** The count the report's [summary] gives for a key, 0 when absent. *)
Fixpoint summary_count (key : string) (summary : list (string * Z)) : Z :=
  match summary with
  | [] => 0
  | (k, c) :: rest => if (k =? key)%string then c else summary_count key rest
  end.

(** The artifacts of a validated set whose grouping key is [key]. *)
Definition with_key (key : string) (true_hexagons : list Hexagon) : list Hexagon :=
  filter (fun h => (Mapper.key_of h =? key)%string) true_hexagons.

(** A validated artifact with the given two lines and file name. *)
Definition validated (upper lower file : string) : Hexagon :=
  {| is_hexagon := Some true;
     upper_line := Some upper;
     lower_line := Some lower;
     reason := None;
     image_file := Some file;
     confidence := Some "100%"%string;
     raw_response := None |}.

(** Three validated artifacts whose pairs of lines differ two by two,
    the first two of which concatenate to the same key. *)
Definition slash_upper : Hexagon := validated "a/b" "c" "hexagon_001_conf_95%.png".
Definition slash_lower : Hexagon := validated "a" "b/c" "hexagon_002_conf_93%.png".
Definition plain : Hexagon := validated "x" "y" "hexagon_003_conf_90%.png".

(** The pair of lines of an artifact, as the report reads them. *)
Definition lines_of (h : Hexagon) : string * string :=
  (get (upper_line h) ""%string, get (lower_line h) ""%string).


(** The detection record of the sample answer, as the annotation stage
    writes it. *)
Definition example_record : DCNE.DetectionRecord :=
  {| DCNE.image_path := "plan.jpg";
     DCNE.record_predictions := example_response;
     DCNE.total_detections := 5 |}.

(** The first artifact the extractor saves for the sample answer at the
    threshold 0.70: it is cropped from the second detection. *)
Definition first_artifact : Extractor.Artifact :=
  {| Extractor.sequence_index := 1;
     Extractor.hexagon_filename := "hexagon_001_conf_90%.png";
     Extractor.crop := (490, 392, 610, 488) |}.

(** A validated artifact without a number in its file name. *)
Definition unnumbered : Hexagon := validated "A1" "B2" "crop_of_marker.png".

(** Session [s1] extends session [s]: the steps recorded in [s] are still
    recorded, first and in the same order, with the status entries they
    had, and the stored results are the same. *)
Definition extends {D E V M : Type} (s s1 : Orchestrator.SessionState D E V M)
    : Prop :=
  (exists more,
      Orchestrator.completed_steps s1
      = (Orchestrator.completed_steps s ++ more)%list)
  /\ (forall step,
        Orchestrator.is_completed s step = true ->
        Orchestrator.get_status
          (get (Orchestrator.processing_status s1) Orchestrator.initial_status)
          step
        = Orchestrator.get_status
            (get (Orchestrator.processing_status s) Orchestrator.initial_status)
            step)
  /\ Orchestrator.processing_results s1 = Orchestrator.processing_results s.

(** A session in which the Start button has just been clicked. *)
Definition started_session (D E V M : Type) : Orchestrator.SessionState D E V M :=
  Orchestrator.set_flags (Orchestrator.fresh_session D E V M) true false false.

(** Surroundings in which detection and extraction succeed and the Stop
    button is clicked while validation is running. *)
Definition stop_in_validation : Orchestrator.Environment unit unit unit unit :=
  {| Orchestrator.run_dcne_detection := Orchestrator.Success tt;
     Orchestrator.run_hexagon_extraction := Orchestrator.Success tt;
     Orchestrator.run_hexagon_validation := fun _ => Orchestrator.Success tt;
     Orchestrator.run_enhanced_mapping := fun _ _ => Orchestrator.Success tt;
     Orchestrator.seconds :=
       fun step =>
         match step with
         | Orchestrator.Detection => 2.5%float
         | Orchestrator.Extraction => 1.25%float
         | Orchestrator.Validation => 7%float
         | Orchestrator.Mapping => 0.5%float
         end;
     Orchestrator.stop_during :=
       fun step => Orchestrator.step_eqb step Orchestrator.Validation |}.

(** The run invoked no mapping after the stages in [already], and, if it
    invoked validation, it left by a rerun in a session that differs by
    the three flags only from an extension [s1] of [s], the session in
    which validation began: extraction recorded, validation not. *)
Definition halts_before_mapping {D E V M : Type}
    (s : Orchestrator.SessionState D E V M) (already : list Orchestrator.Step)
    (r : Orchestrator.Run D E V M) : Prop :=
  exists new,
    Orchestrator.stages r = (already ++ new)%list
    /\ ~ In Orchestrator.Mapping new
    /\ (In Orchestrator.Validation new ->
        Orchestrator.exit r = Orchestrator.Rerun
        /\ exists s1, extends s s1
                      /\ Orchestrator.is_completed s1 Orchestrator.Extraction = true
                      /\ Orchestrator.is_completed s1 Orchestrator.Validation = false
                      /\ Orchestrator.session r
                         = Orchestrator.set_flags s1 false false true).

(** The session a fresh run is left in when the Stop button is clicked
    during validation, after detection and extraction were recorded with
    the seconds [t0] and [t1]. *)
Definition halted_after_extraction (D E V M : Type) (t0 t1 : float)
    : Orchestrator.SessionState D E V M :=
  {| Orchestrator.processing_started := false;
     Orchestrator.processing_completed := false;
     Orchestrator.processing_halted := true;
     Orchestrator.current_step := 0;
     Orchestrator.completed_steps := [0; 1];
     Orchestrator.processing_status :=
       Some {| Orchestrator.status_Detection :=
                 {| Orchestrator.completed := true; Orchestrator.time := t0 |};
               Orchestrator.status_Extraction :=
                 {| Orchestrator.completed := true; Orchestrator.time := t1 |};
               Orchestrator.status_Validation :=
                 {| Orchestrator.completed := false; Orchestrator.time := 0 |};
               Orchestrator.status_Mapping :=
                 {| Orchestrator.completed := false; Orchestrator.time := 0 |} |};
     Orchestrator.processing_results := None |}.

(** The detections of the extractor's query that reach a threshold. *)
Definition survivors (response : option Response) (threshold : float)
    : list Prediction :=
  match response with
  | Some r => at_or_above threshold (get_predictions r)
  | None => []
  end.

(** Surroundings in which the Stop button is never clicked. *)
Definition never_stopped : Orchestrator.Step -> bool := fun _ => false.

(** A folder with one artifact, for which the endpoint answers in prose. *)
Definition prose_reply : string := "I cannot read any text in this image.".

Definition prose_call : Validator.Call :=
  {| Validator.encoded := Some "iVBORw0KGgo="%string;
     Validator.reply := Validator.Content prose_reply |}.

(** A parser that rejects every text. *)
Definition rejects_all : string -> option Hexagon := fun _ => None.

(** A world in which the detector finds nothing on the image. *)
Definition empty_answer : Response :=
  {| other_keys := ["id"; "project"; "iteration"; "created"]%string;
     predictions := Some [] |}.


Definition one_second : Orchestrator.Step -> float := fun _ => 1%float.


(** Whether a character occurs in a string. *)
Fixpoint has_char (c : ascii) (s : string) : bool :=
  match s with
  | EmptyString => false
  | String x s' => Ascii.eqb x c || has_char c s'
  end.

(** Whether the annotation stage draws a detection in green. *)
Definition is_green (p : Prediction) : bool :=
  match DCNE.get_color_by_confidence (probability p) with
  | DCNE.Green => true
  | DCNE.Red => false
  end.

(** The sum of the counts of a breakdown. *)
Definition sum_counts (counts : list (string * Z)) : Z :=
  fold_right (fun entry acc => snd entry + acc) 0 counts.

(** The names of a folder listing that [process_hexagon_folder] takes
    for hexagon images. *)
Definition png_names (listing : list string) : list string :=
  filter (fun filename => PyStr.endswith (PyStr.lower filename) ".png") listing.

(** Whether a judgment goes to the file of the true hexagons. *)
Definition counted_true (result : Hexagon) : bool := get (is_hexagon result) false.

(** The distinct keys of a list, in the order of their first appearance,
    after the keys already seen. *)
Fixpoint first_seen_from (seen keys : list string) : list string :=
  match keys with
  | [] => seen
  | k :: rest =>
      first_seen_from
        (if existsb (String.eqb k) seen then seen else seen ++ [k]) rest
  end.

Definition first_seen (keys : list string) : list string :=
  first_seen_from [] keys.

(** Whether the reconciler reads a hexagon number from the image_file of
    a validated artifact. *)
Definition has_number (h : Hexagon) : bool :=
  match Mapper.extract_hexagon_number (get (image_file h) ""%string) with
  | Some _ => true
  | None => false
  end.

(** Rectangle [d] is the one the reconciler draws for the artifact [h]:
    at the pixel corners of the box resolved for its number, with the
    label of that number and of its two lines. *)
Definition drawn_for (W H : Z) (detections : list (Z * BoundingBox))
    (d : Mapper.Drawn) (h : Hexagon) : Prop :=
  exists n bbox,
    Mapper.extract_hexagon_number (get (image_file h) ""%string) = Some n
    /\ Mapper.resolve_bbox detections n = Some bbox
    /\ Mapper.pixel_box W H bbox = Some (Mapper.rectangle d)
    /\ Mapper.label_text d = Mapper.label_of n h.

(** The boxes of a detection record, none without a record. *)
Definition record_boxes (detection_json : option DCNE.DetectionRecord)
    : list BoundingBox :=
  match detection_json with
  | Some detection_data =>
      map boundingBox (get_predictions (DCNE.record_predictions detection_data))
  | None => []
  end.

(** Each detection has a confidence at or above that of the next one. *)
Fixpoint descending (preds : list Prediction) : bool :=
  match preds with
  | p :: (q :: _) as rest =>
      PyFloat.ge (probability p) (probability q) && descending rest
  | _ => true
  end.

(** A provider answer in descending order of confidence, and the record
    the annotation stage writes for it. *)
Definition ordered_response : Response :=
  {| other_keys := ["id"; "project"; "iteration"; "created"]%string;
     predictions :=
       Some [ {| tagName := "hexagon"; probability := 0.9;
                 boundingBox := {| left := 0.5; top := 0.5;
                                   width := 0.1; height := 0.1 |} |};
              {| tagName := "hexagon"; probability := 0.75;
                 boundingBox := {| left := 0.7; top := 0.1;
                                   width := 0.1; height := 0.2 |} |};
              {| tagName := "hexagon"; probability := 0.55;
                 boundingBox := example_box |} ] |}.

Definition ordered_record : DCNE.DetectionRecord :=
  {| DCNE.image_path := "plan.jpg";
     DCNE.record_predictions := ordered_response;
     DCNE.total_detections := 5 |}.

(** The number of artifacts held by the groups of a grouping
    dictionary. *)
Definition total_members (groups : list (string * list Hexagon)) : nat :=
  fold_right (fun g acc => (List.length (snd g) + acc)%nat) 0%nat groups.

(** At most one of the three flags of the session is set: the session is
    idle, under way, halted or completed. *)
Definition one_mode {D E V M : Type} (s : Orchestrator.SessionState D E V M)
    : bool :=
  negb (Orchestrator.processing_started s && Orchestrator.processing_completed s)
  && negb (Orchestrator.processing_started s && Orchestrator.processing_halted s)
  && negb (Orchestrator.processing_completed s && Orchestrator.processing_halted s).

(** The steps recorded are the first ones of the pipeline, in its
    order. *)
Definition recorded_in_order {D E V M : Type}
    (s : Orchestrator.SessionState D E V M) : Prop :=
  exists k : nat, Orchestrator.completed_steps s = firstn k [0; 1; 2; 3].

(** The status entry of a step says completed exactly when the step is
    recorded. *)
Definition status_agrees {D E V M : Type}
    (s : Orchestrator.SessionState D E V M) : Prop :=
  forall step,
    Orchestrator.completed
      (Orchestrator.get_status
         (get (Orchestrator.processing_status s) Orchestrator.initial_status)
         step)
    = Orchestrator.is_completed s step.

Definition consistent {D E V M : Type}
    (s : Orchestrator.SessionState D E V M) : Prop :=
  one_mode s = true /\ recorded_in_order s /\ status_agrees s.

(** Processing is under way in a consistent session. *)
Definition under_way {D E V M : Type}
    (s : Orchestrator.SessionState D E V M) : Prop :=
  Orchestrator.processing_started s = true
  /\ Orchestrator.processing_completed s = false
  /\ Orchestrator.processing_halted s = false
  /\ recorded_in_order s /\ status_agrees s.

(** The session after a sequence of executions of the script, each in
    its own surroundings and triggered by its own click. *)
Definition after_executions {D E V M : Type}
    (trace : list (Orchestrator.Environment D E V M * Orchestrator.Click))
    (s : Orchestrator.SessionState D E V M) : Orchestrator.SessionState D E V M :=
  fold_left (fun s x => Orchestrator.session (Orchestrator.main (fst x) (snd x) s))
    trace s.

(** The runner of a step returned success, on the payloads the script
    hands to it. *)
Definition succeeded {D E V M : Type} (env : Orchestrator.Environment D E V M)
    (step : Orchestrator.Step) : Prop :=
  match step with
  | Orchestrator.Detection =>
      Orchestrator.success (Orchestrator.run_dcne_detection env) = true
  | Orchestrator.Extraction =>
      Orchestrator.success (Orchestrator.run_hexagon_extraction env) = true
  | Orchestrator.Validation =>
      exists e,
        Orchestrator.run_hexagon_extraction env = Orchestrator.Success e
        /\ Orchestrator.success (Orchestrator.run_hexagon_validation env e) = true
  | Orchestrator.Mapping =>
      exists d e v,
        Orchestrator.run_dcne_detection env = Orchestrator.Success d
        /\ Orchestrator.run_hexagon_extraction env = Orchestrator.Success e
        /\ Orchestrator.run_hexagon_validation env e = Orchestrator.Success v
        /\ Orchestrator.success (Orchestrator.run_enhanced_mapping env v d) = true
  end.

(** The stage results bound in an execution are the ones the runners
    returned in it. *)
Definition bound_by {D E V M : Type} (env : Orchestrator.Environment D E V M)
    (l : Orchestrator.Locals D E V M) : Prop :=
  (forall r, Orchestrator.detection_result l = Some r ->
             r = Orchestrator.run_dcne_detection env)
  /\ (forall r, Orchestrator.extraction_result l = Some r ->
               r = Orchestrator.run_hexagon_extraction env)
  /\ (forall r, Orchestrator.validation_result l = Some r ->
               exists e,
                 Orchestrator.run_hexagon_extraction env = Orchestrator.Success e
                 /\ r = Orchestrator.run_hexagon_validation env e).

(** The steps recorded in [s] and not in [s0] were invoked among [inv],
    not stopped, and their runners succeeded. *)
Definition justified {D E V M : Type} (env : Orchestrator.Environment D E V M)
    (s0 s : Orchestrator.SessionState D E V M) (inv : list Orchestrator.Step)
    : Prop :=
  forall step,
    Orchestrator.is_completed s step = true ->
    Orchestrator.is_completed s0 step = true
    \/ (In step inv /\ Orchestrator.stop_during env step = false
        /\ succeeded env step).

Definition justified_run {D E V M : Type}
    (env : Orchestrator.Environment D E V M)
    (s0 : Orchestrator.SessionState D E V M) (r : Orchestrator.Run D E V M)
    : Prop :=
  justified env s0 (Orchestrator.session r) (Orchestrator.stages r).

(** A step is recorded and the session is not completed: a run was
    interrupted after its first stage, by a failure or by the Stop
    button. *)
Definition interrupted {D E V M : Type}
    (s : Orchestrator.SessionState D E V M) : Prop :=
  Orchestrator.processing_completed s = false
  /\ Orchestrator.completed_steps s <> []
  /\ Orchestrator.is_completed s Orchestrator.Mapping = false
  /\ recorded_in_order s.

(** Surroundings in which every stage succeeds and the Stop button is
    never clicked. *)
Definition all_succeed : Orchestrator.Environment unit unit unit unit :=
  {| Orchestrator.run_dcne_detection := Orchestrator.Success tt;
     Orchestrator.run_hexagon_extraction := Orchestrator.Success tt;
     Orchestrator.run_hexagon_validation := fun _ => Orchestrator.Success tt;
     Orchestrator.run_enhanced_mapping := fun _ _ => Orchestrator.Success tt;
     Orchestrator.seconds := fun _ => 1%float;
     Orchestrator.stop_during := fun _ => false |}.

(** A world in which the detector answers in descending order of
    confidence and the endpoint takes every crop for a hexagon marked
    A1 over B2. *)
Definition accepting_call : Validator.Call :=
  {| Validator.encoded := Some "iVBORw0KGgo="%string;
     Validator.reply :=
       Validator.Content "{ is_hexagon: true, upper_line: A1, lower_line: B2 }" |}.

Definition reads_A1_B2 : string -> option Hexagon :=
  fun _ => Some {| is_hexagon := Some true;
                   upper_line := Some "A1"%string;
                   lower_line := Some "B2"%string;
                   reason := None;
                   image_file := None;
                   confidence := None;
                   raw_response := None |}.

Definition two_hexagons : Pipeline.World :=
  {| Pipeline.image := rgb_image 1000 800;
     Pipeline.image_name := "plan";
     Pipeline.config_found := true;
     Pipeline.detection_response := Some ordered_response;
     Pipeline.extraction_response := Some ordered_response;
     Pipeline.calls := fun _ => accepting_call;
     Pipeline.json_loads := reads_A1_B2;
     Pipeline.previous_output := None |}.

(** The crop of a detection can be saved: its box converts to pixels
    and its region has pixels in it. *)
Definition savable (W H : Z) (p : Prediction) : bool :=
  match Extractor.crop_region W H (boundingBox p) with
  | Some region => Extractor.has_pixels region
  | None => false
  end.

(** The number the reconciler reads from the file name of an artifact. *)
Definition number_in_name (a : Extractor.Artifact) : option Z :=
  Mapper.extract_hexagon_number (Extractor.hexagon_filename a).

(** A provider answer whose first detection is half a pixel wide on a
    1000x800 image. *)
Definition narrow_box : BoundingBox :=
  {| left := 0.5; top := 0.5; width := 0.0005; height := 0.1 |}.

Definition narrow_response : Response :=
  {| other_keys := ["id"; "project"; "iteration"; "created"]%string;
     predictions :=
       Some [ {| tagName := "hexagon"; probability := 0.9;
                 boundingBox := narrow_box |};
              {| tagName := "hexagon"; probability := 0.8;
                 boundingBox := {| left := 0.7; top := 0.1;
                                   width := 0.1; height := 0.2 |} |} ] |}.

(** * Properties *)

(** ** Tactics for the exception monad *)

Lemma bind_Some {A B : Type} (m : option A) (k : A -> option B) (b : B) :
  bind m k = Some b -> exists a, m = Some a /\ k a = Some b.
Proof.
  destruct m as [a|]; simpl; intros H; [exists a; auto | discriminate].
Qed.

Ltac bind_inv H :=
  repeat match type of H with
         | bind _ _ = Some _ =>
             let a := fresh "v" in
             let E := fresh "E" in
             apply bind_Some in H; destruct H as [a [E H]]
         end.

(** ** The extractor *)

Section ExtractorFacts.

Import Extractor.

(** The clamping alone: whatever the pixel box and the padding, the
    region stays inside the image. *)
Lemma crop_coordinates_in_bounds (W H l t w h px py : Z) :
  let '(crop_left, crop_top, crop_right, crop_bottom) :=
    crop_coordinates W H l t w h px py in
  0 <= crop_left /\ 0 <= crop_top /\ crop_right <= W /\ crop_bottom <= H.
Proof. unfold crop_coordinates. lia. Qed.

(** A pixel box inside the image with non-negative size and padding
    yields a region whose corners are in order. *)
Lemma crop_coordinates_ordered (W H l t w h px py : Z) :
  0 <= l <= W -> 0 <= t <= H -> 0 <= w -> 0 <= h -> 0 <= px -> 0 <= py ->
  let '(crop_left, crop_top, crop_right, crop_bottom) :=
    crop_coordinates W H l t w h px py in
  crop_left <= crop_right /\ crop_top <= crop_bottom.
Proof. unfold crop_coordinates. lia. Qed.



(** C5, as the spec states it: the region from (95,155) to (155,215).
    The extractor does not compute that region. *)
Lemma crop_region_example_not_as_stated :
  crop_region 1000 800 example_box <> Some (95, 155, 155, 215).
Proof. vm_compute. discriminate. Qed.

(** C5, amended: the box {left 0.1, top 0.2, width 0.05, height 0.05} on
    a 1000x800 image is the 50x40 pixel box at (100,160); with 5 and 4
    pixels of padding the crop region runs from (95,156) to (155,204). *)
Theorem crop_region_example :
  crop_region 1000 800 example_box = Some (95, 156, 155, 204).
Proof. vm_compute. reflexivity. Qed.

Lemma extract_loop_spec (saves : bool) (W H : Z) (preds : list Prediction) :
  forall i : Z,
  let saved := fst (extract_loop saves W H i preds) in
  let finished := snd (extract_loop saves W H i preds) in
  map sequence_index saved = zseq (i + 1) (List.length saved)
  /\ (forall k a, nth_error saved k = Some a ->
        exists p, nth_error preds k = Some p
                  /\ saved_from W H (i + Z.of_nat k) p a
                  /\ saves = true /\ savable W H p = true)
  /\ (finished = true -> List.length saved = List.length preds)
  /\ (finished = false -> (List.length saved < List.length preds)%nat)
  /\ (finished = true <->
      forall p, In p preds -> saves = true /\ savable W H p = true).
Proof.
  assert (Hstop : forall (p : Prediction) (rest : list Prediction),
             (saves = true /\ savable W H p = true -> False) ->
             map sequence_index (@nil Artifact) = []
             /\ (forall k a, nth_error (@nil Artifact) k = Some a ->
                   exists q, nth_error (p :: rest) k = Some q
                             /\ saved_from W H (0 + Z.of_nat k) q a
                             /\ saves = true /\ savable W H q = true)
             /\ (false = true -> 0%nat = S (List.length rest))
             /\ (false = false -> (0 < S (List.length rest))%nat)
             /\ (false = true <->
                 forall q, In q (p :: rest) ->
                           saves = true /\ savable W H q = true)).
  { intros p rest Hno. split; [reflexivity|].
    split; [intros [|k] a Hk; discriminate|].
    split; [discriminate|]. split; [intros _; lia|].
    split; [discriminate|].
    intros Hall. exfalso. apply Hno. apply Hall. left. reflexivity. }
  induction preds as [|p rest IH]; intros i; simpl.
  - split; [reflexivity|]. split; [intros [|k] a Hk; discriminate|].
    split; [reflexivity|]. split; [discriminate|].
    split; [intros _ p []|reflexivity].
  - destruct (crop_region W H (boundingBox p)) as [region|] eqn:Hr; simpl.
    + destruct (saves && has_pixels region) eqn:Hs; simpl.
      * apply andb_prop in Hs. destruct Hs as [Hsaves Hpix].
        assert (Hp : saves = true /\ savable W H p = true).
        { split; [exact Hsaves|]. unfold savable. rewrite Hr. exact Hpix. }
        specialize (IH (i + 1)).
        destruct (extract_loop saves W H (i + 1) rest)
          as [saved finished] eqn:Hl.
        simpl in *. destruct IH as (Hseq & Hnth & Hlen & Hshort & Hfin).
        split; [rewrite Hseq; reflexivity|].
        split; [|split; [|split; [|split]]].
        -- intros [|k] a Hk; simpl in Hk.
           ++ injection Hk as <-. exists p. split; [reflexivity|].
              split; [|exact Hp].
              unfold saved_from; simpl. rewrite Z.add_0_r. auto.
           ++ destruct (Hnth k a Hk) as (q & Hq & Hfrom & Hrest).
              exists q. split; [exact Hq|]. split; [|exact Hrest].
              replace (i + Z.of_nat (S k)) with (i + 1 + Z.of_nat k) by lia.
              exact Hfrom.
        -- intros Hf. rewrite (Hlen Hf). reflexivity.
        -- intros Hf. specialize (Hshort Hf). lia.
        -- intros Hf q [<-|Hq]; [exact Hp | apply Hfin; assumption].
        -- intros Hall. apply Hfin. intros q Hq. apply Hall. right. exact Hq.
      * destruct (Hstop p rest) as (_ & H2 & H3 & H4 & H5).
        { intros [Hsaves Hpix]. unfold savable in Hpix. rewrite Hr in Hpix.
          rewrite Hsaves, Hpix in Hs. discriminate. }
        split; [reflexivity|]. split; [intros [|k] a Hk; discriminate|].
        split; [exact H3|]. split; [exact H4 | exact H5].
    + destruct (Hstop p rest) as (_ & H2 & H3 & H4 & H5).
      { intros [_ Hpix]. unfold savable in Hpix. rewrite Hr in Hpix.
        discriminate. }
      split; [reflexivity|]. split; [intros [|k] a Hk; discriminate|].
      split; [exact H3|]. split; [exact H4 | exact H5].
Qed.

(** Every artifact saved by a call comes from the survivor at its
    position. *)
Lemma saved_artifact_from_survivor (image : Image) (W H : Z) (r : Response)
    (preds : list Prediction) (confidence_threshold : float) (k : nat)
    (a : Artifact) :
  size image = (W, H) ->
  predictions r = Some preds ->
  nth_error (saved_artifacts
               (extract_hexagons (Some image) (Some r) confidence_threshold)) k
  = Some a ->
  exists p,
    nth_error (high_confidence_predictions preds confidence_threshold) k = Some p
    /\ saved_from W H (Z.of_nat k) p a.
Proof.
  intros Hsize Hp. unfold extract_hexagons. rewrite Hp, Hsize.
  pose proof (extract_loop_spec (png image) W H
                (high_confidence_predictions preds confidence_threshold) 0)
    as Hspec.
  destruct (extract_loop (png image) W H 0
              (high_confidence_predictions preds confidence_threshold))
    as [saved finished].
  simpl in Hspec. destruct Hspec as (_ & Hnth & _).
  intros Hk.
  assert (Hk' : nth_error saved k = Some a) by (destruct finished; exact Hk).
  destruct (Hnth k a Hk') as (p & Hq & Hfrom & _).
  exists p. auto.
Qed.

End ExtractorFacts.

(** ** Annotation and the detection record *)

Section DCNEFacts.

Import DCNE.

Lemma draw_loop_spec (ink : float * float * float * float -> bool) (w h : Z)
    (up thr : float) (preds : list Prediction) :
  forall rects, draw_loop ink w h up thr preds = Some rects ->
  Forall2 (fun rect p => draw_prediction w h up p = Some rect)
    rects (at_or_above thr preds).
Proof.
  induction preds as [|p rest IH]; simpl; intros rects Hd.
  - injection Hd as <-. constructor.
  - destruct (PyFloat.ge (probability p) thr).
    + bind_inv Hd. destruct (ink (xy v)); [|discriminate].
      bind_inv Hd. injection Hd as <-. constructor; auto.
    + auto.
Qed.

Lemma visualize_detections_inv (image : option Image) (path : string)
    (response : Response) (confidence_threshold upscale_factor : float)
    (out : Output) :
  visualize_detections image path response confidence_threshold upscale_factor
  = Some out ->
  exists opened img_width img_height,
    image = Some opened
    /\ enhanced_jpeg opened = true
    /\ draw_loop (rgb_ink opened) img_width img_height upscale_factor
         confidence_threshold (get_predictions response)
       = Some (annotated out)
    /\ detection_record out
       = {| image_path := path;
            record_predictions := response;
            total_detections := response_len response |}.
Proof.
  unfold visualize_detections. intros Hv.
  destruct image as [opened|]; [|discriminate]. cbn [bind] in Hv.
  bind_inv Hv. destruct v as [img_width img_height]. bind_inv Hv.
  destruct (enhanced_jpeg opened) eqn:He; [|discriminate].
  injection Hv as <-. exists opened, img_width, img_height. simpl. auto.
Qed.

(** C4, as the spec states it: the persisted record holds exactly the
    detections at or above the display threshold.  With a detection of
    confidence 0.3 and the threshold 0.5 the record written still holds
    that detection. *)
Lemma detection_record_keeps_low_confidence :
  exists out,
    visualize_detections (Some (rgb_image 1000 800)) "plan.jpg" faint_response 0.5 4.0
    = Some out
    /\ In faint_prediction
         (get_predictions (record_predictions (detection_record out)))
    /\ PyFloat.ge (probability faint_prediction) 0.5 = false
    /\ get_predictions (record_predictions (detection_record out))
       <> at_or_above 0.5 (get_predictions faint_response).
Proof.
  eexists. split; [vm_compute; reflexivity|].
  split; [left; reflexivity|].
  split; [vm_compute; reflexivity|].
  vm_compute. discriminate.
Qed.

(** C4, amended: the rectangles on the annotated image are those of the
    detections at or above the display threshold, one each and in the
    provider's order, so that no detection below it is drawn; the
    detection record written holds the provider's answer as received,
    with every detection, whatever its confidence. *)
Theorem drawn_above_threshold_record_unfiltered (image : option Image)
    (path : string) (response : Response)
    (confidence_threshold upscale_factor : float) (out : Output) :
  visualize_detections image path response confidence_threshold upscale_factor
  = Some out ->
  (exists img_width img_height,
      Forall2 (fun rect p =>
                 draw_prediction img_width img_height upscale_factor p = Some rect)
        (annotated out)
        (at_or_above confidence_threshold (get_predictions response)))
  /\ record_predictions (detection_record out) = response
  /\ get_predictions (record_predictions (detection_record out))
     = get_predictions response.
Proof.
  intros Hv.
  destruct (visualize_detections_inv _ _ _ _ _ _ Hv)
    as (opened & img_width & img_height & _ & _ & Hd & Hr).
  rewrite Hr. simpl. repeat split.
  exists img_width, img_height. eapply draw_loop_spec. exact Hd.
Qed.

Lemma drawn_above_threshold_record_unfiltered_witness :
  exists out,
    visualize_detections (Some (rgb_image 1000 800)) "plan.jpg" faint_response 0.5 4.0
    = Some out
    /\ List.length (annotated out) = 1%nat
    /\ record_predictions (detection_record out) = faint_response.
Proof.
  eexists. split; [vm_compute; reflexivity|].
  split; [reflexivity|].
  refine (proj1 (proj2 (drawn_above_threshold_record_unfiltered
            (Some (rgb_image 1000 800)) "plan.jpg" faint_response 0.5 4.0 _ _))).
  vm_compute. reflexivity.
Defined.

End DCNEFacts.

(** ** The instance reconciler *)

Section MapperFacts.

Import Mapper.

Lemma members_append_to (key k : string) (h : Hexagon)
    (groups : list (string * list Hexagon)) :
  members key (append_to k h groups)
  = if (k =? key)%string then (members key groups ++ [h])%list
    else members key groups.
Proof.
  induction groups as [|[k0 hs] rest IH]; simpl.
  - destruct (String.eqb_spec k key); reflexivity.
  - destruct (String.eqb_spec k0 k) as [->|Hk0]; simpl.
    + destruct (String.eqb_spec k key); reflexivity.
    + destruct (String.eqb_spec k0 key) as [->|Hk0'].
      * destruct (String.eqb_spec k key); [congruence | reflexivity].
      * exact IH.
Qed.

Lemma members_fold (key : string) (l : list Hexagon) :
  forall groups,
    members key (fold_left (fun acc h => append_to (key_of h) h acc) l groups)
    = (members key groups ++ with_key key l)%list.
Proof.
  induction l as [|h l IH]; intros groups; simpl.
  - rewrite app_nil_r. reflexivity.
  - rewrite IH, members_append_to.
    destruct (String.eqb_spec (key_of h) key); simpl.
    + rewrite <- app_assoc. reflexivity.
    + reflexivity.
Qed.

(** The group of a key holds exactly the artifacts with that key, in the
    order of the validated set. *)
Lemma members_group_hexagons (key : string) (l : list Hexagon) :
  members key (group_hexagons l) = with_key key l.
Proof. unfold group_hexagons. rewrite members_fold. reflexivity. Qed.

Lemma keys_append_to (k : string) (h : Hexagon)
    (groups : list (string * list Hexagon)) :
  NoDup (map fst groups) ->
  NoDup (map fst (append_to k h groups))
  /\ (forall k', In k' (map fst (append_to k h groups)) <->
                 k' = k \/ In k' (map fst groups)).
Proof.
  induction groups as [|[k0 hs] rest IH]; simpl; intros Hnd.
  - split; [repeat constructor; auto | intros k'; intuition].
  - inversion Hnd as [|? ? Hnotin Hrest]; subst.
    destruct (String.eqb_spec k0 k) as [->|Hk0]; simpl.
    + split; [exact Hnd | intros k'; intuition].
    + destruct (IH Hrest) as [IHnd IHin]. split.
      * constructor; [|exact IHnd].
        intros Hin. apply IHin in Hin. destruct Hin; [congruence | contradiction].
      * intros k'. rewrite IHin. intuition.
Qed.

(** No key heads two groups. *)
Lemma keys_group_hexagons (l : list Hexagon) :
  NoDup (map fst (group_hexagons l)).
Proof.
  unfold group_hexagons.
  assert (Hgen : forall groups, NoDup (map fst groups) ->
            NoDup (map fst (fold_left
                      (fun acc h => append_to (key_of h) h acc) l groups))).
  { induction l as [|h l IH]; simpl; intros groups Hnd; [exact Hnd|].
    apply IH. apply keys_append_to. exact Hnd. }
  apply Hgen. constructor.
Qed.

Lemma summary_count_members (key : string)
    (groups : list (string * list Hexagon)) :
  summary_count key
    (map (fun '(key, info) => (key, count info)) (all_instances_of groups))
  = Z.of_nat (List.length (members key groups)).
Proof.
  induction groups as [|[k hs] rest IH]; simpl; [reflexivity|].
  destruct (String.eqb_spec k key); [reflexivity | exact IH].
Qed.

(** The count reported for a key is the number of artifacts with that
    key. *)
Lemma summary_count_report (key : string) (l : list Hexagon) :
  summary_count key (summary (report_of l))
  = Z.of_nat (List.length (with_key key l)).
Proof.
  unfold report_of; simpl.
  rewrite summary_count_members, members_group_hexagons. reflexivity.
Qed.

(** C7, as the spec states it: three artifacts whose pairs of lines are
    pairwise distinct give three groups of one.  The pairs ("a/b","c") and
    ("a","b/c") are distinct and fall into the one group "a/b/c". *)
Lemma distinct_lines_can_share_a_group :
  lines_of slash_upper <> lines_of slash_lower
  /\ lines_of slash_upper <> lines_of plain
  /\ lines_of slash_lower <> lines_of plain
  /\ summary (report_of [slash_upper; slash_lower; plain])
     = [("a/b/c"%string, 2); ("x/y"%string, 1)].
Proof.
  repeat split; try (vm_compute; discriminate).
Qed.

(** C7, amended: the grouping partitions the validated set by the key
    upper_line + "/" + lower_line: each key heads one group, whose members
    are exactly the artifacts with that key and whose count is their
    number.  Two artifacts with upper_line "A1" and lower_line "B2" give
    exactly one group, with count 2; three artifacts whose keys are
    pairwise distinct give exactly three groups, each with count 1. *)
Theorem grouping_partitions_by_key :
  (forall (l : list Hexagon) (key : string),
      members key (group_hexagons l) = with_key key l
      /\ summary_count key (summary (report_of l))
         = Z.of_nat (List.length (with_key key l)))
  /\ (forall l : list Hexagon, NoDup (map fst (all_instances (report_of l))))
  /\ (forall h1 h2 : Hexagon,
        upper_line h1 = Some "A1"%string -> lower_line h1 = Some "B2"%string ->
        upper_line h2 = Some "A1"%string -> lower_line h2 = Some "B2"%string ->
        all_instances (report_of [h1; h2])
        = [("A1/B2"%string, {| count := 2; hexagons := [h1; h2] |})]
        /\ count_duplicate_hexagons (Some [h1; h2])
           = [("A1/B2"%string, {| count := 2; hexagons := [h1; h2] |})])
  /\ (forall h1 h2 h3 : Hexagon,
        key_of h1 <> key_of h2 -> key_of h1 <> key_of h3 ->
        key_of h2 <> key_of h3 ->
        all_instances (report_of [h1; h2; h3])
        = [(key_of h1, {| count := 1; hexagons := [h1] |});
           (key_of h2, {| count := 1; hexagons := [h2] |});
           (key_of h3, {| count := 1; hexagons := [h3] |})]
        /\ count_duplicate_hexagons (Some [h1; h2; h3]) = []).
Proof.
  split; [|split; [|split]].
  - intros l key. split.
    + apply members_group_hexagons.
    + apply summary_count_report.
  - intros l. unfold report_of; simpl. unfold all_instances_of.
    rewrite map_map.
    rewrite (map_ext _ fst); [apply keys_group_hexagons|].
    intros [k hs]; reflexivity.
  - intros h1 h2 U1 L1 U2 L2.
    unfold count_duplicate_hexagons, duplicates_of, report_of, group_hexagons,
      key_of; simpl.
    rewrite U1, L1, U2, L2. simpl. split; reflexivity.
  - intros h1 h2 h3 H12 H13 H23.
    apply String.eqb_neq in H12, H13, H23.
    unfold count_duplicate_hexagons, duplicates_of, report_of, group_hexagons;
      simpl.
    rewrite H12. simpl. rewrite H13, H23. simpl. split; reflexivity.
Qed.

Lemma grouping_partitions_by_key_witness :
  all_instances
    (report_of [validated "A1" "B2" "hexagon_001_conf_99%.png";
                validated "A1" "B2" "hexagon_002_conf_98%.png"])
  = [("A1/B2"%string,
      {| count := 2;
         hexagons := [validated "A1" "B2" "hexagon_001_conf_99%.png";
                      validated "A1" "B2" "hexagon_002_conf_98%.png"] |})]
  /\ map fst (all_instances (report_of [slash_upper; plain;
                                        validated "A1" "B2" "hexagon_004.png"]))
     = ["a/b/c"; "x/y"; "A1/B2"]%string.
Proof.
  split.
  - exact (proj1 (proj1 (proj2 (proj2 grouping_partitions_by_key))
                    (validated "A1" "B2" "hexagon_001_conf_99%.png")
                    (validated "A1" "B2" "hexagon_002_conf_98%.png")
                    eq_refl eq_refl eq_refl eq_refl)).
  - rewrite (proj1 (proj2 (proj2 (proj2 grouping_partitions_by_key))
                      slash_upper plain (validated "A1" "B2" "hexagon_004.png")
                      ltac:(vm_compute; discriminate)
                      ltac:(vm_compute; discriminate)
                      ltac:(vm_compute; discriminate))).
    reflexivity.
Defined.

Lemma map_loop_skip (ink : Z * Z * Z * Z -> string -> bool) (W H : Z)
    (detections : list (Z * BoundingBox))
    (h : Hexagon) (before after : list Hexagon) :
  extract_hexagon_number (get (image_file h) ""%string) = None ->
  map_loop ink W H detections (before ++ h :: after)
  = map_loop ink W H detections (before ++ after).
Proof.
  intros Hn. induction before as [|x before IH]; simpl.
  - rewrite Hn. reflexivity.
  - rewrite IH. reflexivity.
Qed.

Lemma with_key_insert (h : Hexagon) (before after : list Hexagon) :
  List.length (with_key (key_of h) (before ++ h :: after))
  = S (List.length (with_key (key_of h) (before ++ after))).
Proof.
  unfold with_key. rewrite !filter_app. simpl.
  rewrite String.eqb_refl. rewrite !length_app. simpl. lia.
Qed.

(** C10: a validated artifact whose image_file holds no 'hexagon_<digits>'
    is left out of the visual map and still counted in the report: with or
    without it the call succeeds or fails alike and draws the same
    rectangles, with the same mapped total; with it, total_hexagons and
    the count of its group are one higher, and it is a member of its
    group.  The mapping runner of the application reports success for a
    validated set that holds it. *)
Theorem unnumbered_artifact_skipped_yet_counted (image : option Image)
    (before after : list Hexagon) (h : Hexagon)
    (detection_json : option DCNE.DetectionRecord) :
  extract_hexagon_number (get (image_file h) ""%string) = None ->
  match map_true_hexagons_to_image image (Some (before ++ h :: after))
          detection_json,
        map_true_hexagons_to_image image (Some (before ++ after))
          detection_json with
  | Some w, Some w' =>
      annotated_image w = annotated_image w'
      /\ mapped_count w = mapped_count w'
      /\ total_hexagons (duplicate_analysis w)
         = total_hexagons (duplicate_analysis w') + 1
      /\ summary_count (key_of h) (summary (duplicate_analysis w))
         = summary_count (key_of h) (summary (duplicate_analysis w')) + 1
      /\ In h (members (key_of h) (group_hexagons (before ++ h :: after)))
  | None, None => True
  | _, _ => False
  end
  /\ forall (w : Pipeline.World) (d : DCNE.DetectionRecord),
      Orchestrator.success
        (Pipeline.run_enhanced_mapping w (before ++ h :: after) d) = true.
Proof.
  intros Hn. split; [|reflexivity]. unfold map_true_hexagons_to_image.
  destruct image as [opened|]; cbn [bind]; [|exact I].
  destruct (size opened) as [W H].
  rewrite (map_loop_skip (labels opened) W H _ h before after Hn).
  destruct (map_loop (labels opened) W H (detections_of detection_json)
              (before ++ after))
    as [drawn|]; cbn [bind]; [|exact I].
  destruct (jpeg opened);
    cbn [annotated_image mapped_count duplicate_analysis]; [|exact I].
  split; [reflexivity|]. split; [reflexivity|]. split; [|split].
  - unfold report_of; cbn [total_hexagons]. rewrite !length_app. simpl. lia.
  - rewrite !summary_count_report, with_key_insert. lia.
  - rewrite members_group_hexagons. unfold with_key.
    apply filter_In. split.
    + apply in_or_app. right. left. reflexivity.
    + apply String.eqb_refl.
Qed.

Lemma unnumbered_artifact_skipped_yet_counted_witness :
  exists w w',
    map_true_hexagons_to_image (Some (rgb_image 1000 800))
      (Some [validated "A1" "B2" "hexagon_002_conf_75%.png"; unnumbered])
      (Some example_record) = Some w
    /\ map_true_hexagons_to_image (Some (rgb_image 1000 800))
         (Some [validated "A1" "B2" "hexagon_002_conf_75%.png"])
         (Some example_record) = Some w'
    /\ mapped_count w = 1 /\ mapped_count w' = 1
    /\ total_hexagons (duplicate_analysis w)
       = total_hexagons (duplicate_analysis w') + 1.
Proof.
  eexists. eexists.
  split; [vm_compute; reflexivity|].
  split; [vm_compute; reflexivity|].
  split; [reflexivity|]. split; [reflexivity|].
  exact (proj1 (proj2 (proj2 (proj1
           (unnumbered_artifact_skipped_yet_counted (Some (rgb_image 1000 800))
              [validated "A1" "B2" "hexagon_002_conf_75%.png"] [] unnumbered
              (Some example_record) eq_refl))))).
Defined.



Lemma lookup_enumerate (l : list BoundingBox) :
  forall start k : Z,
    start <= k ->
    lookup (enumerate l start) k = nth_error l (Z.to_nat (k - start)).
Proof.
  induction l as [|b l IH]; intros start k Hk; simpl.
  - destruct (Z.to_nat (k - start)); reflexivity.
  - destruct (Z.eqb_spec start k) as [->|Hne].
    + rewrite Z.sub_diag. reflexivity.
    + rewrite IH by lia.
      replace (Z.to_nat (k - start)) with (S (Z.to_nat (k - (start + 1)))) by lia.
      reflexivity.
Qed.

(** The box the reconciler takes for the number k is the box of the k-th
    detection of the record, whatever the confidences. *)
Lemma resolve_by_record_position (detection_data : DCNE.DetectionRecord)
    (k : Z) (p : Prediction) :
  1 <= k ->
  nth_error (get_predictions (DCNE.record_predictions detection_data))
    (Z.to_nat (k - 1)) = Some p ->
  resolve_bbox (detections_of (Some detection_data)) k = Some (boundingBox p).
Proof.
  intros Hk Hp. unfold resolve_bbox, detections_of.
  rewrite lookup_enumerate by exact Hk.
  rewrite nth_error_map, Hp. reflexivity.
Qed.

(** C1, at the sample answer (confidences 0.55, 0.9, 0.75) and the
    extraction threshold 0.70: the annotation stage writes the record with
    the three detections; the artifact of index 1 is cropped from the
    second detection, the first at or above the threshold, and its file is
    hexagon_001_conf_90%.png; for the judgment of that file the reconciler
    draws the box of the first detection of the record, (100,160)-(150,200),
    and not the box (500,400)-(600,480) of the detection the artifact came
    from. *)
Theorem reconciler_indexes_unfiltered_record :
  option_map DCNE.detection_record
    (DCNE.visualize_detections (Some (rgb_image 1000 800)) "plan.jpg"
       example_response 0.5 4.0)
  = Some example_record
  /\ Extractor.saved_artifacts
    (Extractor.extract_hexagons (Some (rgb_image 1000 800))
       (Some example_response) 0.70)
  = [first_artifact;
     {| Extractor.sequence_index := 2;
        Extractor.hexagon_filename := "hexagon_002_conf_75%.png";
        Extractor.crop := (690, 64, 810, 256) |}]
  /\ (exists p, nth_error (at_or_above 0.70 example_predictions) 0 = Some p
                /\ saved_from 1000 800 0 p first_artifact
                /\ pixel_box 1000 800 (boundingBox p) = Some (500, 400, 600, 480))
  /\ (exists w,
        map_true_hexagons_to_image (Some (rgb_image 1000 800))
          (Some [validated "A1" "B2" (Extractor.hexagon_filename first_artifact)])
          (Some example_record) = Some w
        /\ map rectangle (annotated_image w) = [(100, 160, 150, 200)])
  /\ (exists q, nth_error example_predictions 0 = Some q
                /\ PyFloat.ge (probability q) 0.70 = false
                /\ pixel_box 1000 800 (boundingBox q) = Some (100, 160, 150, 200)).
Proof.
  split; [vm_compute; reflexivity|].
  split; [vm_compute; reflexivity|].
  split; [eexists; split; [reflexivity|]; split;
          [unfold saved_from; repeat split; vm_compute; reflexivity
          | vm_compute; reflexivity]|].
  split; [eexists; split; [vm_compute; reflexivity | reflexivity]|].
  eexists; split; [reflexivity|]. split; vm_compute; reflexivity.
Qed.

End MapperFacts.

(** ** The orchestrator *)

Section OrchestratorFacts.

Import Orchestrator.

Context {D E V M : Type}.

Implicit Types (s : SessionState D E V M) (l : Locals D E V M).

Lemma extends_refl s : extends s s.
Proof.
  split; [exists []; rewrite app_nil_r; reflexivity | split; auto].
Qed.

Lemma is_completed_app s step more :
  is_completed s step = true ->
  existsb (Z.eqb (step_number step)) (completed_steps s ++ more) = true.
Proof.
  unfold is_completed. intros Hc. rewrite existsb_app, Hc. reflexivity.
Qed.

Lemma extends_trans s s1 s2 : extends s s1 -> extends s1 s2 -> extends s s2.
Proof.
  intros ([m1 H1] & St1 & R1) ([m2 H2] & St2 & R2). split; [|split].
  - exists (m1 ++ m2)%list. rewrite H2, H1, app_assoc. reflexivity.
  - intros step Hc. rewrite St2, St1; auto.
    unfold is_completed. rewrite H1. apply is_completed_app. exact Hc.
  - congruence.
Qed.

Lemma step_eqb_completed s step step' :
  is_completed s step' = true -> is_completed s step = false ->
  step_eqb step step' = false.
Proof.
  intros H1 H2. unfold step_eqb.
  destruct (Z.eqb_spec (step_number step) (step_number step')) as [e|]; auto.
  unfold is_completed in *. rewrite e in H2. congruence.
Qed.

Lemma extends_record_completed s step t :
  is_completed s step = false -> extends s (record_completed s step t).
Proof.
  intros Hn. split; [|split].
  - eexists. reflexivity.
  - intros step' Hc. simpl.
    pose proof (step_eqb_completed s step step' Hc Hn) as Hne.
    destruct step, step'; simpl in *; try discriminate; reflexivity.
  - reflexivity.
Qed.

Variable env : Environment D E V M.

Hypothesis stop_pressed : stop_during env Validation = true.

Lemma halts_no_stage s s' l e :
  halts_before_mapping s (invoked l) (leave s' l e).
Proof.
  exists []. rewrite app_nil_r. simpl. repeat split; auto; contradiction.
Qed.

Lemma stages_finish s l : stages (finish s l) = invoked l.
Proof.
  unfold finish. destruct (_ =? 4); [|reflexivity].
  destruct (detection_result l), (extraction_result l), (validation_result l),
    (mapping_result l); reflexivity.
Qed.

Lemma halts_finish s s' l : halts_before_mapping s (invoked l) (finish s' l).
Proof.
  exists []. rewrite app_nil_r, stages_finish. repeat split; auto; contradiction.
Qed.

Lemma halts_step_mapping s s' l :
  validation_result l = None ->
  halts_before_mapping s (invoked l) (step_mapping env s' l).
Proof.
  intros Hv. unfold step_mapping.
  destruct (_ && _); [|apply halts_finish].
  rewrite Hv. apply halts_no_stage.
Qed.

Lemma halts_weaken s s' already x r :
  extends s s' ->
  x <> Mapping ->
  (x = Validation -> False) ->
  halts_before_mapping s' (already ++ [x]) r ->
  halts_before_mapping s already r.
Proof.
  intros Hext Hx Hxv (new & Hst & Hm & Hv).
  exists (x :: new). rewrite Hst, <- app_assoc. split; [reflexivity|]. split.
  - intros [e|Hin]; [congruence | contradiction].
  - intros [e|Hin]; [exfalso; auto|].
    destruct (Hv Hin) as (He & s1 & Hs1 & Hr).
    split; [exact He|]. exists s1. split; [|exact Hr].
    eapply extends_trans; eauto.
Qed.

Lemma halts_step_validation s l :
  validation_result l = None ->
  halts_before_mapping s (invoked l) (step_validation env s l).
Proof.
  intros Hv. unfold step_validation.
  destruct (is_completed s Extraction && negb (is_completed s Validation))
    eqn:Hc; [|apply halts_step_mapping; exact Hv].
  apply andb_prop in Hc. destruct Hc as [Hce Hcv]. apply negb_true_iff in Hcv.
  destruct (extraction_result l) as [[e|err]|]; try apply halts_no_stage.
  unfold after_stage. rewrite stop_pressed. simpl.
  exists [Validation]. simpl. split; [reflexivity|]. split.
  - intros [e'|[]]; discriminate.
  - intros _. split; [reflexivity|]. exists s.
    split; [apply extends_refl|]. auto.
Qed.

Lemma after_stage_inl step ok s s' :
  after_stage env step ok s = inl s' ->
  s' = record_completed s step (seconds env step).
Proof.
  unfold after_stage. destruct (stop_during env step); simpl.
  - discriminate.
  - destruct (processing_started s); simpl; [|discriminate].
    destruct ok; [|discriminate]. intros H; injection H as <-. reflexivity.
Qed.

Lemma halts_step_extraction s l :
  validation_result l = None ->
  halts_before_mapping s (invoked l) (step_extraction env s l).
Proof.
  intros Hv. unfold step_extraction.
  destruct (is_completed s Detection && negb (is_completed s Extraction)) eqn:Hc;
    [|apply halts_step_validation; exact Hv].
  apply andb_prop in Hc. destruct Hc as [_ Hc]. apply negb_true_iff in Hc.
  destruct (after_stage env Extraction _ s) as [s'|s'] eqn:Ha.
  - apply after_stage_inl in Ha. subst s'.
    eapply (halts_weaken s _ (invoked l) Extraction).
    + apply extends_record_completed. exact Hc.
    + discriminate.
    + discriminate.
    + apply (halts_step_validation _ {| invoked := invoked l ++ [Extraction] |}).
      exact Hv.
  - exists [Extraction]. simpl. split; [reflexivity|]. split.
    + intros [e'|[]]; discriminate.
    + intros [e'|[]]; discriminate.
Qed.

Lemma halts_step_detection s l :
  validation_result l = None ->
  halts_before_mapping s (invoked l) (step_detection env s l).
Proof.
  intros Hv. unfold step_detection.
  destruct (negb (is_completed s Detection)) eqn:Hc;
    [|apply halts_step_extraction; exact Hv].
  apply negb_true_iff in Hc.
  destruct (after_stage env Detection _ s) as [s'|s'] eqn:Ha.
  - apply after_stage_inl in Ha. subst s'.
    eapply (halts_weaken s _ (invoked l) Detection).
    + apply extends_record_completed. exact Hc.
    + discriminate.
    + discriminate.
    + apply (halts_step_extraction _ {| invoked := invoked l ++ [Detection] |}).
      exact Hv.
  - exists [Detection]. simpl. split; [reflexivity|]. split.
    + intros [e'|[]]; discriminate.
    + intros [e'|[]]; discriminate.
Qed.

Lemma halts_main click s : halts_before_mapping s [] (main env click s).
Proof.
  unfold main.
  destruct (_ && _).
  { destruct click; apply (halts_no_stage s _ no_locals). }
  destruct (_ && _).
  2:{ destruct (processing_halted s); [destruct click|];
      apply (halts_no_stage s _ no_locals). }
  unfold processing.
  assert (Hext : extends s (init_status s)).
  { split; [exists []; simpl; rewrite app_nil_r; reflexivity|].
    split; [|reflexivity]. intros step _. reflexivity. }
  assert (Hrun : halts_before_mapping s []
            (if negb (processing_started (init_status s))
             then leave (set_halted (init_status s)) no_locals Rerun
             else step_detection env (init_status s) no_locals)).
  { destruct (negb (processing_started (init_status s))).
    - apply (halts_no_stage s _ no_locals).
    - destruct (halts_step_detection (init_status s) no_locals eq_refl)
        as (new & Hst & Hm & Hval).
      exists new. split; [exact Hst|]. split; [exact Hm|].
      intros Hin. destruct (Hval Hin) as (He & s1 & Hs1 & Hr).
      split; [exact He|]. exists s1. split; [|exact Hr].
      exact (extends_trans _ _ _ Hext Hs1). }
  destruct click; try exact Hrun.
  apply (halts_no_stage s _ no_locals).
Qed.

End OrchestratorFacts.

Section CancellationFacts.

Import Orchestrator.

Context {D E V M : Type}.

(** A fresh run in which detection and extraction succeed and the Stop
    button is clicked during validation: the three stages were invoked,
    the first two are recorded with their seconds, and the session is
    halted. *)
Lemma cancel_in_fresh_run (env : Environment D E V M) (d : D) (e : E) :
  run_dcne_detection env = Success d ->
  run_hexagon_extraction env = Success e ->
  stop_during env Detection = false ->
  stop_during env Extraction = false ->
  stop_during env Validation = true ->
  main env NoClick (started_session D E V M)
  = {| session := halted_after_extraction D E V M
                    (seconds env Detection) (seconds env Extraction);
       stages := [Detection; Extraction; Validation];
       exit := Rerun |}.
Proof.
  intros Hd He S0 S1 S2.
  unfold main, processing, step_detection, after_stage; simpl.
  rewrite Hd, S0; simpl.
  unfold step_extraction, after_stage; simpl.
  rewrite He, S1; simpl.
  unfold step_validation, after_stage; simpl.
  rewrite S2; simpl. reflexivity.
Qed.

(** C8: when the Stop button is clicked while the validation stage is
    running, the execution of the script never invokes the mapping stage;
    once validation has returned it leaves by a rerun with the session
    halted, neither started nor completed; the session is the one in
    which validation began but for these three flags, so that the steps
    recorded before, extraction among them, their status entries and the
    stored results are kept, and validation is not recorded; and the next
    execution finds the session halted and invokes no stage. *)
Theorem cancel_during_validation_halts (env : Environment D E V M)
    (click : Click) (s : SessionState D E V M) :
  stop_during env Validation = true ->
  let r := main env click s in
  ~ In Mapping (stages r)
  /\ (In Validation (stages r) ->
      exit r = Rerun
      /\ processing_halted (session r) = true
      /\ processing_started (session r) = false
      /\ processing_completed (session r) = false
      /\ is_completed (session r) Extraction = true
      /\ is_completed (session r) Validation = false
      /\ (exists s1, extends s s1 /\ session r = set_flags s1 false false true)
      /\ main env NoClick (session r)
         = {| session := session r; stages := []; exit := Finished |}).
Proof.
  intros Hstop r.
  destruct (halts_main env Hstop click s) as (new & Hst & Hm & Hv).
  fold r in Hst, Hv. simpl in Hst. rewrite Hst. split; [exact Hm|].
  intros Hin. destruct (Hv Hin) as (He & s1 & Hs1 & Hce & Hcv & Hr).
  rewrite Hr. repeat split; auto.
  exists s1. split; [exact Hs1 | reflexivity].
Qed.

End CancellationFacts.

Lemma cancel_during_validation_halts_witness :
  let r := Orchestrator.main stop_in_validation Orchestrator.NoClick
             (started_session unit unit unit unit) in
  Orchestrator.stages r
  = [Orchestrator.Detection; Orchestrator.Extraction; Orchestrator.Validation]
  /\ Orchestrator.completed_steps (Orchestrator.session r) = [0; 1]
  /\ ~ In Orchestrator.Mapping (Orchestrator.stages r)
  /\ Orchestrator.processing_halted (Orchestrator.session r) = true.
Proof.
  split; [reflexivity|]. split; [reflexivity|].
  pose proof (cancel_during_validation_halts stop_in_validation
                Orchestrator.NoClick (started_session unit unit unit unit)
                eq_refl) as [Hm Hv].
  split; [exact Hm|].
  apply Hv. right. right. left. reflexivity.
Defined.

(** ** The validation wrapper *)

Section ValidatorFacts.

Import Validator.

Variable basename : string -> string.
Variable json_loads : string -> option Hexagon.

(** A judgment the wrapper returns for a file of the folder is among the
    results of the loop. *)
Lemma process_loop_keeps (calls : string -> Call) (files : list string)
    (image_path : string) (j : Hexagon) :
  In image_path files ->
  extract_info_from_hexagon basename json_loads image_path (calls image_path)
  = Some j ->
  In j (process_loop basename json_loads calls files).
Proof.
  intros Hin Hj. induction files as [|f files IH]; [contradiction|].
  simpl. destruct Hin as [->|Hin].
  - rewrite Hj. left. reflexivity.
  - destruct (extract_info_from_hexagon basename json_loads f (calls f));
      [right|]; auto.
Qed.

(** C3: for a reply in which no JSON object is found or parsed, the
    wrapper returns the raw judgment, with the reply kept under
    raw_response and no is_hexagon key, and the loop of the folder keeps
    it among its results.  The loop reads the missing key with the
    default true; the file of the true hexagons is filtered with the
    default false, so the judgment is never among the true hexagons
    handed to the mapping stage. *)
Theorem raw_judgment_dropped_from_true_hexagons (image_path content b : string)
    (call : Call) :
  encoded call = Some b -> b <> ""%string -> reply call = Content content ->
  (PyStr.find content "{" = -1
   \/ PyStr.rfind content "}" = -1
   \/ json_loads (PyStr.slice content (PyStr.find content "{")
                    (PyStr.rfind content "}" + 1)) = None) ->
  let j := raw_judgment basename image_path content in
  extract_info_from_hexagon basename json_loads image_path call = Some j
  /\ raw_response j = Some content
  /\ get (is_hexagon j) true = true
  /\ (forall (calls : string -> Call) (files : list string),
        In image_path files -> calls image_path = call ->
        In j (process_loop basename json_loads calls files))
  /\ (forall results, ~ In j (true_hexagons_of results)).
Proof.
  intros He Hb Hr Hparse j.
  assert (Hj : extract_info_from_hexagon basename json_loads image_path call
               = Some j).
  { unfold extract_info_from_hexagon. rewrite He, Hr.
    destruct b as [|c b']; [congruence|].
    destruct Hparse as [Hf|[Hf|Hf]].
    - rewrite Hf. reflexivity.
    - rewrite Hf. simpl. rewrite andb_false_r. reflexivity.
    - rewrite Hf. destruct (_ && _); reflexivity. }
  split; [exact Hj|]. split; [reflexivity|]. split; [reflexivity|]. split.
  - intros calls files Hin Hc. apply (process_loop_keeps calls files image_path).
    + exact Hin.
    + rewrite Hc. exact Hj.
  - intros results Hin. unfold true_hexagons_of in Hin.
    apply filter_In in Hin. destruct Hin as [_ Hin]. discriminate.
Qed.

End ValidatorFacts.

Lemma raw_judgment_dropped_from_true_hexagons_witness :
  Validator.process_hexagon_folder PyStr.posix_basename PyStr.posix_join
    rejects_all "plan" ["hexagon_001_conf_90%.png"]%string (fun _ => prose_call)
  = Validator.Saved
      [Validator.raw_judgment PyStr.posix_basename
         "plan/hexagon_001_conf_90%.png" prose_reply]
      []
  /\ raw_response
       (Validator.raw_judgment PyStr.posix_basename
          "plan/hexagon_001_conf_90%.png" prose_reply)
     = Some prose_reply.
Proof.
  split; [vm_compute; reflexivity|].
  refine (proj1 (proj2 (raw_judgment_dropped_from_true_hexagons
            PyStr.posix_basename rejects_all "plan/hexagon_001_conf_90%.png"
            prose_reply "iVBORw0KGgo=" prose_call eq_refl _ eq_refl _))).
  - discriminate.
  - left. vm_compute. reflexivity.
Defined.

(** ** The pipeline on an answer without survivors *)

Section PipelineFacts.

Import Orchestrator Pipeline.



(** An artifact folder without files yields no file of true hexagons,
    and the validation runner fails. *)
Lemma validation_fails_on_empty_folder (w : World) (extraction : ExtractedFolder) :
  hexagons_folder extraction = [] ->
  run_hexagon_validation w extraction = Failure "True hexagons file not found".
Proof.
  intros Hf. unfold run_hexagon_validation. rewrite Hf. reflexivity.
Qed.

(** The mapping runner reports success whatever the reconciler returns. *)
Lemma mapping_runner_succeeds (w : World) (true_hexagons : list Hexagon)
    (detection_json : DCNE.DetectionRecord) :
  success (run_enhanced_mapping w true_hexagons detection_json) = true.
Proof. reflexivity. Qed.

End PipelineFacts.

(** ** The index travels in the file name *)

Section FilenameFacts.


Lemma take_digits_string_of_uint (d : Decimal.uint) (rest : string) :
  PyStr.take_digits (NilEmpty.string_of_uint d ++ rest)
  = (NilEmpty.string_of_uint d ++ PyStr.take_digits rest)%string.
Proof. induction d; simpl; rewrite ?IHd; reflexivity. Qed.

Lemma take_digits_zeros (k : nat) (rest : string) :
  PyStr.take_digits (PyStr.zeros k ++ rest) = (PyStr.zeros k ++ PyStr.take_digits rest)%string.
Proof. induction k; simpl; rewrite ?IHk; reflexivity. Qed.

Lemma int_of_digits_zeros (k : nat) (s : string) :
  PyStr.int_of_digits (PyStr.zeros k ++ s) = PyStr.int_of_digits s.
Proof.
  induction k; simpl; [reflexivity|].
  rewrite <- IHk. unfold PyStr.int_of_digits. simpl.
  destruct (NilEmpty.uint_of_string (PyStr.zeros k ++ s)); reflexivity.
Qed.

Lemma str_of_int_pos (p : positive) :
  PyStr.str_of_int (Zpos p) = NilEmpty.string_of_uint (Pos.to_uint p).
Proof.
  unfold PyStr.str_of_int. simpl.
  pose proof (Unsigned.to_uint_nonnil p) as Hn.
  destruct (Pos.to_uint p); [congruence | reflexivity ..].
Qed.

Lemma int_of_digits_pos (p : positive) :
  PyStr.int_of_digits (NilEmpty.string_of_uint (Pos.to_uint p)) = Some (Zpos p).
Proof.
  unfold PyStr.int_of_digits. rewrite NilEmpty.usu. simpl.
  unfold Z.of_uint. rewrite Unsigned.of_to. reflexivity.
Qed.

Lemma string_of_uint_pos_nonempty (p : positive) :
  exists c s, NilEmpty.string_of_uint (Pos.to_uint p) = String c s.
Proof.
  pose proof (Unsigned.to_uint_nonnil p) as Hn.
  destruct (Pos.to_uint p); [congruence | simpl; eauto ..].
Qed.

Lemma append_empty (s : string) : (s ++ "")%string = s.
Proof. induction s; simpl; rewrite ?IHs; reflexivity. Qed.

Lemma append_assoc (a b c : string) :
  ((a ++ b) ++ c)%string = (a ++ (b ++ c))%string.
Proof. induction a; simpl; rewrite ?IHa; reflexivity. Qed.

Lemma search_hexagon_digits_head (c : ascii) (ds rest : string) :
  PyStr.take_digits (String c ds ++ rest) = String c ds ->
  Mapper.search_hexagon_digits ("hexagon_" ++ String c ds ++ rest)
  = Some (String c ds).
Proof.
  intros Ht.
  change ("hexagon_" ++ String c ds ++ rest)%string
    with (String "h" ("exagon_" ++ String c ds ++ rest)).
  unfold Mapper.search_hexagon_digits; fold Mapper.search_hexagon_digits.
  assert (Hp : prefix "hexagon_" (String "h" ("exagon_" ++ String c ds ++ rest))
               = true) by reflexivity.
  rewrite Hp.
  change (PyStr.drop 8 (String "h" ("exagon_" ++ String c ds ++ rest)))
    with (String c ds ++ rest)%string.
  rewrite Ht. reflexivity.
Qed.

(** The number read back from an artifact's file name is the index it was
    saved under. *)
Lemma index_travels_in_filename (i : Z) (p : float) :
  0 <= i ->
  Mapper.extract_hexagon_number (Extractor.filename_of i p) = Some (i + 1).
Proof.
  intros Hi. destruct (i + 1) as [|q|q] eqn:Hq; try lia.
  unfold Mapper.extract_hexagon_number, Extractor.filename_of. rewrite Hq.
  unfold PyStr.format_03d. simpl Z.abs. rewrite str_of_int_pos.
  change (Z.pos q <? 0) with false. cbv iota.
  set (k := (3 - String.length (NilEmpty.string_of_uint (Pos.to_uint q)))%nat).
  set (tail := ("_conf_" ++ format_percent0 p ++ ".png")%string).
  set (digits := (PyStr.zeros k ++ NilEmpty.string_of_uint (Pos.to_uint q))%string).
  assert (Hd : PyStr.take_digits (digits ++ tail) = digits).
  { unfold digits. rewrite append_assoc.
    rewrite take_digits_zeros, take_digits_string_of_uint.
    unfold tail. simpl PyStr.take_digits. rewrite append_empty. reflexivity. }
  assert (Hne : exists c ds, digits = String c ds).
  { unfold digits. destruct k; simpl; [|eauto].
    apply string_of_uint_pos_nonempty. }
  destruct Hne as (c & ds & Hne). rewrite Hne in Hd.
  assert (Hs : Mapper.search_hexagon_digits ("hexagon_" ++ digits ++ tail)
               = Some digits).
  { rewrite Hne. apply search_hexagon_digits_head. exact Hd. }
  rewrite Hs. simpl bind. unfold digits.
  rewrite int_of_digits_zeros. apply int_of_digits_pos.
Qed.

End FilenameFacts.

(** ** Correspondence between artifacts and boxes *)

Section CorrespondenceFacts.

(** When the detections up to position [k] all reach the threshold, the
    [k]-th survivor is the [k]-th detection. *)
Lemma at_or_above_prefix (threshold : float) (preds : list Prediction) :
  forall k : nat,
    (forall i q, (i <= k)%nat -> nth_error preds i = Some q ->
                 PyFloat.ge (probability q) threshold = true) ->
    nth_error (at_or_above threshold preds) k = nth_error preds k.
Proof.
  induction preds as [|p rest IH]; intros k Hall.
  - reflexivity.
  - unfold at_or_above. simpl.
    rewrite (Hall 0%nat p (Nat.le_0_l k) eq_refl).
    destruct k as [|k]; [reflexivity|]. simpl.
    apply IH. intros i q Hi Hq. apply (Hall (S i) q); [lia | exact Hq].
Qed.

(** The judgment of the artifact saved at position [k] carries the number
    [k+1], for which the reconciler takes the box of the detection at
    position [k] of the record, whether or not that detection reaches the
    extraction threshold. *)
Lemma reconciler_takes_record_position (image : Image) (r : Response)
    (preds : list Prediction) (threshold : float) (k : nat)
    (a : Extractor.Artifact) (detection_data : DCNE.DetectionRecord)
    (q : Prediction) :
  predictions r = Some preds ->
  nth_error (Extractor.saved_artifacts
               (Extractor.extract_hexagons (Some image) (Some r) threshold)) k
  = Some a ->
  nth_error (get_predictions (DCNE.record_predictions detection_data)) k
  = Some q ->
  Mapper.extract_hexagon_number (Extractor.hexagon_filename a)
  = Some (Z.of_nat k + 1)
  /\ Mapper.resolve_bbox (Mapper.detections_of (Some detection_data))
       (Z.of_nat k + 1)
     = Some (boundingBox q).
Proof.
  intros Hp Ha Hq.
  destruct (size image) as [W H] eqn:Hsize.
  destruct (saved_artifact_from_survivor image W H r preds threshold k a
              Hsize Hp Ha)
    as (p & _ & _ & Hname & _).
  split.
  - rewrite Hname. apply index_travels_in_filename. lia.
  - apply resolve_by_record_position; [lia|].
    replace (Z.to_nat (Z.of_nat k + 1 - 1)) with k by lia. exact Hq.
Qed.

End CorrespondenceFacts.

(** ** Order of the confidences *)

Lemma SFleb_trans (a b c : spec_float) :
  SFleb a b = true -> SFleb b c = true -> SFleb a c = true.
Proof.
  unfold SFleb, SFcompare.
  destruct a as [sa|sa| |sa ma ea], b as [sb|sb| |sb mb eb],
    c as [sc|sc| |sc mc ec];
    try (destruct sa); try (destruct sb); try (destruct sc);
    try discriminate; try reflexivity; intros Hab Hbc.
  all: destruct (Z.compare_spec ea eb) as [Eab|Lab|Gab]; try discriminate;
       destruct (Z.compare_spec eb ec) as [Ebc|Lbc|Gbc]; try discriminate;
       destruct (Z.compare_spec ea ec) as [Eac|Lac|Gac]; try lia;
       try reflexivity; subst.
  all: fold (Pos.compare ma mb) in *; fold (Pos.compare mb mc) in *;
       fold (Pos.compare ma mc) in *.
  all: destruct (Pos.compare_spec ma mb); try discriminate;
       destruct (Pos.compare_spec mb mc); try discriminate;
       destruct (Pos.compare_spec ma mc); try lia; try reflexivity;
       subst; try lia.
Qed.

(** [x >= y] and [y >= z] give [x >= z]. *)
Lemma ge_trans (x y z : float) :
  PyFloat.ge x y = true -> PyFloat.ge y z = true -> PyFloat.ge x z = true.
Proof.
  unfold PyFloat.ge. rewrite !leb_spec. intros Hxy Hyz.
  exact (SFleb_trans _ _ _ Hyz Hxy).
Qed.

(** ** Characters of the generated file names *)

Section CharacterFacts.

Ltac other_char c :=
  repeat match goal with
         | |- context [Ascii.eqb ?a c] =>
             destruct (Ascii.eqb_spec a c) as [<-|];
             [exfalso;
              match goal with
              | H : _ = false |- _ => vm_compute in H; discriminate H
              | H : _ <> _ |- _ => apply H; reflexivity
              end|]
         end.

Lemma has_char_append (c : ascii) (a b : string) :
  has_char c (a ++ b) = has_char c a || has_char c b.
Proof.
  induction a as [|x a IH]; simpl; [reflexivity|].
  rewrite IH. destruct (Ascii.eqb x c); reflexivity.
Qed.

Lemma has_char_string_of_uint (c : ascii) (d : Decimal.uint) :
  PyStr.is_digit c = false -> has_char c (NilEmpty.string_of_uint d) = false.
Proof.
  intros Hc. induction d; cbn [has_char NilEmpty.string_of_uint]; rewrite ?IHd;
    other_char c; reflexivity.
Qed.

Lemma has_char_zeros (c : ascii) (k : nat) :
  PyStr.is_digit c = false -> has_char c (PyStr.zeros k) = false.
Proof.
  intros Hc. induction k; cbn [has_char PyStr.zeros]; rewrite ?IHk;
    other_char c; reflexivity.
Qed.

Lemma has_char_str_of_int (c : ascii) (n : Z) :
  PyStr.is_digit c = false -> c <> "-"%char ->
  has_char c (PyStr.str_of_int n) = false.
Proof.
  intros Hc Hm. unfold PyStr.str_of_int.
  assert (Hu : forall d, has_char c (NilZero.string_of_uint d) = false).
  { intros d. destruct d; try apply (has_char_string_of_uint c _ Hc).
    cbn [has_char NilZero.string_of_uint]. other_char c. reflexivity. }
  destruct (Z.to_int n) as [d|d]; cbn [has_char NilZero.string_of_int];
    [apply Hu|].
  rewrite Hu. other_char c. reflexivity.
Qed.

Lemma has_char_format_03d (c : ascii) (n : Z) :
  PyStr.is_digit c = false -> c <> "-"%char ->
  has_char c (PyStr.format_03d n) = false.
Proof.
  intros Hc Hm. unfold PyStr.format_03d.
  destruct (n <? 0); rewrite ?has_char_append, has_char_zeros,
    has_char_str_of_int by assumption; cbn [has_char orb]; [|reflexivity].
  other_char c. reflexivity.
Qed.

Lemma has_char_format_percent0 (c : ascii) (p : float) :
  PyStr.is_digit c = false ->
  has_char c "-%nanif" = false ->
  has_char c (format_percent0 p) = false.
Proof.
  intros Hc Hs. unfold format_percent0.
  assert (Hm : c <> "-"%char).
  { intros ->. discriminate Hs. }
  destruct (PyFloat.round_half_even (p * 100)) as [[s n]|].
  - rewrite !has_char_append, has_char_str_of_int by assumption.
    destruct s; cbn [has_char append]; other_char c; reflexivity.
  - destruct (is_nan (p * 100)); [|destruct (_ <? _)%float];
      cbn [has_char]; other_char c; reflexivity.
Qed.

End CharacterFacts.

(** ** Searching and splitting the generated file names *)

Section SplitFacts.

Lemma prefix_append (sub rest : string) : prefix sub (sub ++ rest) = true.
Proof.
  induction sub as [|a sub IH]; simpl; [destruct rest; reflexivity|].
  destruct (ascii_dec a a); [exact IH | congruence].
Qed.

Lemma find_from_skip (c : ascii) (sub' s1 rest : string) :
  has_char c s1 = false ->
  forall i : Z,
    PyStr.find_from (String c sub') (s1 ++ rest) i
    = PyStr.find_from (String c sub') rest (i + Z.of_nat (String.length s1)).
Proof.
  induction s1 as [|x s1 IH]; intros Hc i.
  - simpl. rewrite Z.add_0_r. reflexivity.
  - cbn [has_char] in Hc. apply orb_false_iff in Hc. destruct Hc as [Hx Hc].
    apply Ascii.eqb_neq in Hx.
    cbn [append PyStr.find_from prefix].
    destruct (ascii_dec c x) as [e|_]; [congruence|].
    rewrite (IH Hc). f_equal. cbn [String.length]. lia.
Qed.

Lemma find_from_absent (c : ascii) (sub' s : string) :
  has_char c s = false ->
  forall i : Z, PyStr.find_from (String c sub') s i = -1.
Proof.
  induction s as [|x s IH]; intros Hc i; [reflexivity|].
  cbn [has_char] in Hc. apply orb_false_iff in Hc. destruct Hc as [Hx Hc].
  apply Ascii.eqb_neq in Hx.
  cbn [PyStr.find_from prefix].
  destruct (ascii_dec c x) as [e|_]; [congruence|]. apply IH. exact Hc.
Qed.

Lemma find_first (c : ascii) (sub' s1 rest : string) :
  has_char c s1 = false ->
  PyStr.find (s1 ++ String c sub' ++ rest) (String c sub')
  = Z.of_nat (String.length s1).
Proof.
  intros Hc. unfold PyStr.find. rewrite (find_from_skip c sub' s1 _ Hc).
  destruct (String c sub' ++ rest)%string eqn:E; [discriminate|].
  cbn [PyStr.find_from]. rewrite <- E, prefix_append. reflexivity.
Qed.

Lemma substring_head (a b : string) :
  substring 0 (String.length a) (a ++ b) = a.
Proof.
  induction a as [|x a IH]; simpl; [destruct b; reflexivity|].
  rewrite IH. reflexivity.
Qed.

Lemma drop_append (a b : string) : PyStr.drop (String.length a) (a ++ b) = b.
Proof. induction a as [|x a IH]; simpl; [destruct b; reflexivity | exact IH]. Qed.

Lemma length_append (a b : string) :
  String.length (a ++ b) = (String.length a + String.length b)%nat.
Proof. induction a as [|x a IH]; simpl; [reflexivity | rewrite IH; reflexivity]. Qed.

Lemma split_fuel_absent (c : ascii) (sub' s : string) (fuel : nat) :
  has_char c s = false ->
  PyStr.split_fuel fuel (String c sub') s = [s].
Proof.
  intros Hc. destruct fuel; [reflexivity|].
  cbn [PyStr.split_fuel]. unfold PyStr.find.
  rewrite (find_from_absent c sub' s Hc). reflexivity.
Qed.

(** A separator that occurs once splits the string in two. *)
Lemma split_once (c : ascii) (sub' s1 rest : string) :
  has_char c s1 = false -> has_char c rest = false ->
  PyStr.split (s1 ++ String c sub' ++ rest) (String c sub') = [s1; rest].
Proof.
  intros H1 H2. unfold PyStr.split.
  rewrite length_append. cbn [append String.length].
  rewrite Nat.add_succ_r. cbn [PyStr.split_fuel].
  change (s1 ++ String c (sub' ++ rest))%string
    with (s1 ++ String c sub' ++ rest)%string.
  rewrite (find_first c sub' s1 rest H1).
  destruct (Z.ltb_spec (Z.of_nat (String.length s1)) 0) as [Hneg|_]; [lia|].
  unfold PyStr.slice. rewrite Z.sub_0_r, Nat2Z.id. cbn [Z.to_nat].
  rewrite substring_head. f_equal.
  replace (String.length s1 + String.length (String c sub'))%nat
    with (String.length (s1 ++ String c sub')) by apply length_append.
  rewrite <- append_assoc, drop_append.
  apply (split_fuel_absent c sub'). exact H2.
Qed.

End SplitFacts.

(** ** What the file name carries from the extractor to the later stages *)

Section FileNameRoundTrip.

Variable basename : string -> string.

Lemma filename_shape (i : Z) (p : float) :
  Extractor.filename_of i p
  = (("hexagon_" ++ PyStr.format_03d (i + 1) ++ "_")
       ++ "conf_" ++ (format_percent0 p ++ "." ++ "png"))%string.
Proof.
  unfold Extractor.filename_of. rewrite !append_assoc. reflexivity.
Qed.

Lemma confidence_of_filename (image_path : string) (i : Z) (p : float) :
  basename image_path = Extractor.filename_of i p ->
  Validator.extract_confidence_from_filename basename image_path
  = format_percent0 p.
Proof.
  intros Hb. unfold Validator.extract_confidence_from_filename.
  rewrite Hb, filename_shape.
  assert (H1 : has_char "c" ("hexagon_" ++ PyStr.format_03d (i + 1) ++ "_")
               = false).
  { rewrite !has_char_append, has_char_format_03d; try reflexivity.
    discriminate. }
  assert (H2 : has_char "c" (format_percent0 p ++ "." ++ "png") = false).
  { rewrite !has_char_append, has_char_format_percent0; reflexivity. }
  assert (H3 : has_char "." (format_percent0 p) = false).
  { apply has_char_format_percent0; reflexivity. }
  unfold PyStr.contains. rewrite (find_first "c" "onf_" _ _ H1).
  destruct (Z.leb_spec 0 (Z.of_nat (String.length
              ("hexagon_" ++ PyStr.format_03d (i + 1) ++ "_")))) as [_|Hn];
    [|lia].
  rewrite (split_once "c" "onf_" _ _ H1 H2).
  rewrite (split_once "." "" (format_percent0 p) "png" H3 eq_refl).
  reflexivity.
Qed.

End FileNameRoundTrip.

(** ** More on the extractor *)

Section ExtractorMore.

Import Extractor.

(** The file name an artifact is saved under carries its index and the
    confidence of its detection to the later stages: the reconciler reads
    the index back as the hexagon number, and the validation wrapper reads
    the confidence tag back as the percentage the extractor printed. *)
Theorem file_name_carries_index_and_confidence (basename : string -> string)
    (image_path : string) (i : Z) (p : float) :
  0 <= i ->
  basename image_path = filename_of i p ->
  Mapper.extract_hexagon_number (basename image_path) = Some (i + 1)
  /\ Validator.extract_confidence_from_filename basename image_path
     = format_percent0 p.
Proof.
  intros Hi Hb. split.
  - rewrite Hb. apply index_travels_in_filename. exact Hi.
  - apply (confidence_of_filename basename image_path i p Hb).
Qed.

Lemma file_name_carries_index_and_confidence_witness :
  Mapper.extract_hexagon_number
    (PyStr.posix_basename "extracted_hexagons/plan/hexagon_003_conf_96%.png")
  = Some 3
  /\ Validator.extract_confidence_from_filename PyStr.posix_basename
       "extracted_hexagons/plan/hexagon_003_conf_96%.png"
     = "96%"%string.
Proof.
  apply (file_name_carries_index_and_confidence PyStr.posix_basename
           "extracted_hexagons/plan/hexagon_003_conf_96%.png" 2 0.955).
  - lia.
  - vm_compute. reflexivity.
Defined.

Lemma extract_loop_names (saves : bool) (W H : Z) (preds : list Prediction)
    (i : Z) (k : nat) (a : Artifact) :
  nth_error (fst (extract_loop saves W H i preds)) k = Some a ->
  exists p, hexagon_filename a = filename_of (i + Z.of_nat k) p.
Proof.
  intros Hk.
  destruct (extract_loop_spec saves W H preds i) as (_ & Hnth & _).
  destruct (Hnth k a Hk) as (p & _ & (_ & Hn & _) & _).
  exists (probability p). exact Hn.
Qed.

Lemma extract_loop_names_distinct (saves : bool) (W H : Z)
    (preds : list Prediction) (i : Z) :
  0 <= i ->
  NoDup (map hexagon_filename (fst (extract_loop saves W H i preds))).
Proof.
  intros Hi. apply NoDup_nth_error. intros j k Hj Hjk.
  rewrite length_map in Hj.
  rewrite !nth_error_map in Hjk.
  destruct (nth_error (fst (extract_loop saves W H i preds)) j)
    as [a|] eqn:Ha.
  2:{ apply nth_error_None in Ha. lia. }
  destruct (nth_error (fst (extract_loop saves W H i preds)) k)
    as [b|] eqn:Hb; [|discriminate].
  simpl in Hjk. injection Hjk as Hjk.
  destruct (extract_loop_names saves W H preds i j a Ha) as (p & Hp).
  destruct (extract_loop_names saves W H preds i k b Hb) as (q & Hq).
  assert (Hnum : Some (i + Z.of_nat j + 1) = Some (i + Z.of_nat k + 1)).
  { rewrite <- (index_travels_in_filename (i + Z.of_nat j) p) by lia.
    rewrite <- (index_travels_in_filename (i + Z.of_nat k) q) by lia.
    rewrite <- Hp, <- Hq, Hjk. reflexivity. }
  injection Hnum as Hnum. lia.
Qed.

(** No two artifacts of a call are saved under the same file name, so no
    crop overwrites another. *)
Theorem saved_file_names_distinct (image : option Image)
    (response : option Response) (confidence_threshold : float) :
  NoDup (map hexagon_filename
           (saved_artifacts (extract_hexagons image response confidence_threshold))).
Proof.
  unfold extract_hexagons.
  destruct response as [r|]; [|constructor].
  destruct (predictions r) as [preds|]; [|constructor].
  destruct image as [opened|]; [|constructor].
  destruct (size opened) as [W H].
  pose proof (extract_loop_names_distinct (png opened) W H
                (high_confidence_predictions preds confidence_threshold) 0
                (Z.le_refl 0)) as Hnd.
  destruct (extract_loop (png opened) W H 0
              (high_confidence_predictions preds confidence_threshold))
    as [saved finished].
  destruct finished; exact Hnd.
Qed.

(** Every artifact a call saves is cropped from a detection of the answer
    whose confidence is at or above the threshold; there are never more
    artifacts than such detections. *)
Theorem saved_only_from_survivors (image : Image) (W H : Z) (r : Response)
    (preds : list Prediction) (confidence_threshold : float) :
  size image = (W, H) ->
  predictions r = Some preds ->
  let saved :=
    saved_artifacts
      (extract_hexagons (Some image) (Some r) confidence_threshold) in
  (forall a, In a saved ->
     exists p,
       In p preds
       /\ PyFloat.ge (probability p) confidence_threshold = true
       /\ crop_region W H (boundingBox p) = Some (crop a))
  /\ (List.length saved
      <= List.length (high_confidence_predictions preds confidence_threshold))%nat.
Proof.
  intros Hsize Hp saved. split.
  - intros a Ha. apply In_nth_error in Ha. destruct Ha as [k Hk].
    destruct (saved_artifact_from_survivor image W H r preds
                confidence_threshold k a Hsize Hp Hk)
      as (p & Hn & _ & _ & Hc).
    apply nth_error_In in Hn. unfold high_confidence_predictions in Hn.
    apply filter_In in Hn. destruct Hn as [Hin Hge].
    exists p. auto.
  - destruct (Nat.le_gt_cases (List.length saved)
                (List.length (high_confidence_predictions preds
                                confidence_threshold))) as [Hle|Hgt];
      [exact Hle|].
    exfalso.
    destruct (nth_error saved
                (List.length (high_confidence_predictions preds
                                confidence_threshold))) as [a|] eqn:Ha.
    + destruct (saved_artifact_from_survivor image W H r preds
                  confidence_threshold _ a Hsize Hp Ha) as (p & Hn & _).
      assert (Hlt : nth_error (high_confidence_predictions preds
                                 confidence_threshold)
                      (List.length (high_confidence_predictions preds
                                      confidence_threshold)) <> None)
        by (rewrite Hn; discriminate).
      apply nth_error_Some in Hlt. lia.
    + apply nth_error_None in Ha. lia.
Qed.

Lemma saved_only_from_survivors_witness :
  (List.length
     (saved_artifacts
        (extract_hexagons (Some (rgb_image 1000 800)) (Some example_response)
           0.70))
   <= 2)%nat.
Proof.
  exact (proj2 (saved_only_from_survivors (rgb_image 1000 800) 1000 800
                  example_response example_predictions 0.70 eq_refl eq_refl)).
Defined.

(** Raising the threshold only removes detections: the detections kept at
    the higher threshold are, in the same order, those kept at the lower
    one that also reach the higher one. *)
Theorem raising_threshold_only_removes (preds : list Prediction)
    (lower higher : float) :
  PyFloat.ge higher lower = true ->
  high_confidence_predictions preds higher
  = high_confidence_predictions (high_confidence_predictions preds lower) higher
  /\ incl (high_confidence_predictions preds higher)
       (high_confidence_predictions preds lower).
Proof.
  intros Hle.
  assert (Heq : high_confidence_predictions preds higher
                = high_confidence_predictions
                    (high_confidence_predictions preds lower) higher).
  { unfold high_confidence_predictions.
    induction preds as [|p preds IH]; [reflexivity|]. simpl.
    destruct (PyFloat.ge (probability p) higher) eqn:Hh.
    - rewrite (ge_trans _ _ _ Hh Hle). simpl. rewrite Hh, IH. reflexivity.
    - destruct (PyFloat.ge (probability p) lower); simpl; rewrite ?Hh; exact IH. }
  split; [exact Heq|].
  rewrite Heq. intros p Hin. unfold high_confidence_predictions in Hin.
  apply filter_In in Hin. apply Hin.
Qed.

Lemma raising_threshold_only_removes_witness :
  incl (high_confidence_predictions example_predictions 0.70)
    (high_confidence_predictions example_predictions 0.5).
Proof.
  apply (raising_threshold_only_removes example_predictions 0.5 0.70).
  vm_compute. reflexivity.
Defined.

(** The detections the extractor keeps at its threshold 0.70 are exactly
    the detections the annotation stage draws in green, whenever the
    display threshold is at most 0.70. *)
Theorem extracted_are_the_green_boxes (preds : list Prediction)
    (display_threshold : float) :
  PyFloat.ge 0.70 display_threshold = true ->
  high_confidence_predictions preds 0.70
  = filter is_green (at_or_above display_threshold preds).
Proof.
  intros Hle. unfold high_confidence_predictions, at_or_above, is_green,
    DCNE.get_color_by_confidence.
  induction preds as [|p preds IH]; [reflexivity|]. simpl.
  destruct (PyFloat.ge (probability p) 0.70) eqn:Hh.
  - rewrite (ge_trans _ _ _ Hh Hle). simpl. rewrite Hh, IH. reflexivity.
  - destruct (PyFloat.ge (probability p) display_threshold); simpl;
      rewrite ?Hh; exact IH.
Qed.

Lemma extracted_are_the_green_boxes_witness :
  high_confidence_predictions example_predictions 0.70
  = filter is_green (at_or_above 0.5 example_predictions).
Proof.
  apply (extracted_are_the_green_boxes example_predictions 0.5).
  vm_compute. reflexivity.
Defined.

(** A pixel box that lies inside the image, with padding that is not
    negative, is contained in its crop region, and the region exceeds the
    box by at most the padding on each side. *)
Theorem crop_contains_the_box (W H l t w h px py : Z) :
  0 <= l -> 0 <= t -> 0 <= w -> 0 <= h -> l + w <= W -> t + h <= H ->
  0 <= px -> 0 <= py ->
  exists crop_left crop_top crop_right crop_bottom,
    crop_coordinates W H l t w h px py
    = (crop_left, crop_top, crop_right, crop_bottom)
    /\ crop_left <= l /\ l + w <= crop_right
    /\ crop_top <= t /\ t + h <= crop_bottom
    /\ l - px <= crop_left /\ crop_right <= l + w + px
    /\ t - py <= crop_top /\ crop_bottom <= t + h + py.
Proof.
  intros. unfold crop_coordinates. do 4 eexists.
  split; [reflexivity|]. lia.
Qed.

Lemma crop_contains_the_box_witness :
  exists crop_left crop_top crop_right crop_bottom,
    crop_coordinates 1000 800 100 160 50 40 5 4
    = (crop_left, crop_top, crop_right, crop_bottom)
    /\ crop_left <= 100 /\ 100 + 50 <= crop_right
    /\ crop_top <= 160 /\ 160 + 40 <= crop_bottom
    /\ 100 - 5 <= crop_left /\ crop_right <= 100 + 50 + 5
    /\ 160 - 4 <= crop_top /\ crop_bottom <= 160 + 40 + 4.
Proof.
  apply (crop_contains_the_box 1000 800 100 160 50 40 5 4); lia.
Defined.

End ExtractorMore.

(** ** More on the annotation stage *)

Section DCNEMore.

Import DCNE.

Lemma sum_counts_count_tag (tag : string) (counts : list (string * Z)) :
  sum_counts (count_tag tag counts) = sum_counts counts + 1.
Proof.
  induction counts as [|[t n] counts IH]; simpl; [reflexivity|].
  destruct (t =? tag)%string; simpl; [|rewrite IH]; lia.
Qed.

Lemma summary_loop_spec (thr : float) (preds : list Prediction) :
  forall (counts : list (string * Z)) (total : Z),
    let '(counts', total') := summary_loop thr preds counts total in
    total' = total + Z.of_nat (List.length (at_or_above thr preds))
    /\ sum_counts counts'
       = sum_counts counts + Z.of_nat (List.length (at_or_above thr preds)).
Proof.
  induction preds as [|p preds IH]; intros counts total; simpl.
  - lia.
  - unfold at_or_above in *. simpl.
    destruct (PyFloat.ge (probability p) thr).
    + specialize (IH (count_tag (tagName p) counts) (total + 1)).
      destruct (summary_loop thr preds _ _) as [c t].
      rewrite sum_counts_count_tag in IH. simpl List.length. lia.
    + apply IH.
Qed.

Lemma Forall2_length {A B : Type} (R : A -> B -> Prop) (l : list A)
    (l' : list B) :
  Forall2 R l l' -> List.length l = List.length l'.
Proof. induction 1; simpl; congruence. Qed.

(** The total the summary prints is the number of rectangles the
    annotation draws at the same threshold, and the counts of the
    breakdown by object type add up to it; the summary reports nothing
    above the threshold exactly when no rectangle is drawn. *)
Theorem summary_total_is_number_drawn (image : option Image) (path : string)
    (response : Response) (preds : list Prediction)
    (confidence_threshold upscale_factor : float) (out : Output) :
  predictions response = Some preds ->
  visualize_detections image path response confidence_threshold upscale_factor
  = Some out ->
  match print_detection_summary (Some response) confidence_threshold with
  | Breakdown total_objects object_counts =>
      total_objects = Z.of_nat (List.length (annotated out))
      /\ sum_counts object_counts = total_objects
      /\ 0 < total_objects
  | NothingAboveThreshold => annotated out = []
  | NoPredictionsFound => False
  end.
Proof.
  intros Hp Hv.
  assert (Hlen : List.length (annotated out)
                 = List.length (at_or_above confidence_threshold preds)).
  { destruct (visualize_detections_inv _ _ _ _ _ _ Hv)
      as (opened & img_width & img_height & _ & _ & E1 & _).
    apply draw_loop_spec in E1. unfold get_predictions in E1.
    rewrite Hp in E1. apply (Forall2_length _ _ _ E1). }
  unfold print_detection_summary. rewrite Hp.
  pose proof (summary_loop_spec confidence_threshold preds [] 0) as Hs.
  destruct (summary_loop confidence_threshold preds [] 0) as [counts total].
  destruct Hs as [Ht Hc]. simpl in Hc.
  destruct (Z.eqb_spec total 0) as [H0|Hn0].
  - destruct (annotated out); [reflexivity | simpl in Hlen; lia].
  - rewrite Hlen. repeat split; lia.
Qed.

Lemma summary_total_is_number_drawn_witness :
  match print_detection_summary (Some faint_response) 0.5 with
  | Breakdown total_objects object_counts =>
      total_objects = 1 /\ sum_counts object_counts = total_objects
  | _ => False
  end.
Proof.
  pose proof (summary_total_is_number_drawn (Some (rgb_image 1000 800))
                "plan.jpg" faint_response _ 0.5 4.0 _ eq_refl eq_refl) as Hs.
  destruct (print_detection_summary (Some faint_response) 0.5);
    [exact Hs | discriminate Hs |].
  destruct Hs as (Ht & Hc & _). split; [exact Ht | exact Hc].
Defined.

(** Every rectangle is green exactly when its detection has confidence at
    or above 0.70 and red otherwise, and all rectangles of an image have
    the same line width, never below 3. *)
Theorem rectangles_colored_by_confidence (image : option Image) (path : string)
    (response : Response) (confidence_threshold upscale_factor : float)
    (out : Output) :
  visualize_detections image path response confidence_threshold upscale_factor
  = Some out ->
  Forall2 (fun rect p =>
             (outline rect = Green <-> PyFloat.ge (probability p) 0.70 = true)
             /\ (outline rect = Red <-> PyFloat.ge (probability p) 0.70 = false))
    (annotated out)
    (at_or_above confidence_threshold (get_predictions response))
  /\ exists w, 3 <= w /\ Forall (fun rect => line_width rect = w) (annotated out).
Proof.
  intros Hv.
  destruct (visualize_detections_inv _ _ _ _ _ _ Hv)
    as (opened & img_width & img_height & _ & _ & E1 & _).
  apply draw_loop_spec in E1.
  assert (Hrect : forall rect p,
             draw_prediction img_width img_height upscale_factor p = Some rect ->
             ((outline rect = Green <-> PyFloat.ge (probability p) 0.70 = true)
              /\ (outline rect = Red <-> PyFloat.ge (probability p) 0.70 = false))
             /\ exists n, PyFloat.to_int (3 * upscale_factor) = Some n
                          /\ line_width rect = Z.max 3 n).
  { intros rect p Hd. unfold draw_prediction in Hd. bind_inv Hd.
    injection Hd as <-. simpl. unfold get_color_by_confidence.
    split; [|eauto].
    destruct (PyFloat.ge (probability p) 0.70); split; split;
      congruence. }
  split.
  - induction E1 as [|rect p rects ps Hd _ IH]; constructor; [|exact IH].
    apply (Hrect rect p Hd).
  - destruct (PyFloat.to_int (3 * upscale_factor)) as [n|] eqn:Hn.
    + exists (Z.max 3 n). split; [lia|].
      induction E1 as [|rect p rects ps Hd _ IH]; constructor; [|exact IH].
      destruct (Hrect rect p Hd) as (_ & m & Hm & Hw). congruence.
    + exists 3. split; [lia|].
      destruct E1 as [|rect p rects ps Hd _]; [constructor|].
      destruct (Hrect rect p Hd) as (_ & m & Hm & _). discriminate.
Qed.

Lemma rectangles_colored_by_confidence_witness :
  exists out,
    visualize_detections (Some (rgb_image 1000 800)) "plan.jpg"
      example_response 0.5 4.0
    = Some out
    /\ map outline (annotated out) = [Red; Green; Green]
    /\ exists w, 3 <= w /\ Forall (fun rect => line_width rect = w) (annotated out).
Proof.
  eexists. split; [vm_compute; reflexivity|]. split; [reflexivity|].
  refine (proj2 (rectangles_colored_by_confidence (Some (rgb_image 1000 800))
                   "plan.jpg" example_response 0.5 4.0 _ _)).
  vm_compute. reflexivity.
Defined.

(** The field total_detections of the record is the number of top-level
    keys of the provider's answer, not the number of detections: two
    answers with the same keys give the same value whatever detections
    they hold. *)
Theorem total_detections_counts_keys (image image' : option Image)
    (path path' : string) (response response' : Response)
    (preds preds' : list Prediction) (threshold threshold' up up' : float)
    (out out' : Output) :
  other_keys response = other_keys response' ->
  predictions response = Some preds -> predictions response' = Some preds' ->
  visualize_detections image path response threshold up = Some out ->
  visualize_detections image' path' response' threshold' up' = Some out' ->
  total_detections (detection_record out)
  = Z.of_nat (List.length (other_keys response)) + 1
  /\ total_detections (detection_record out)
     = total_detections (detection_record out').
Proof.
  intros Hk Hp Hp' Hv Hv'.
  destruct (visualize_detections_inv _ _ _ _ _ _ Hv)
    as (? & ? & ? & _ & _ & _ & Hr).
  destruct (visualize_detections_inv _ _ _ _ _ _ Hv')
    as (? & ? & ? & _ & _ & _ & Hr').
  rewrite Hr, Hr'. simpl.
  unfold response_len. rewrite Hp, Hp', Hk. split; reflexivity.
Qed.

Lemma total_detections_counts_keys_witness :
  exists out out',
    visualize_detections (Some (rgb_image 1000 800)) "plan.jpg"
      example_response 0.5 4.0
    = Some out
    /\ visualize_detections (Some (rgb_image 1000 800)) "plan.jpg"
         empty_answer 0.5 4.0
       = Some out'
    /\ total_detections (detection_record out) = 5
    /\ total_detections (detection_record out') = 5.
Proof.
  eexists. eexists.
  split; [vm_compute; reflexivity|]. split; [vm_compute; reflexivity|].
  pose proof (total_detections_counts_keys (Some (rgb_image 1000 800))
                (Some (rgb_image 1000 800))
                "plan.jpg" "plan.jpg" example_response empty_answer _ _
                0.5 0.5 4.0 4.0 _ _ eq_refl eq_refl eq_refl eq_refl eq_refl)
    as [H1 H2].
  split; [exact H1 | exact (eq_trans (eq_sym H2) H1)].
Defined.

End DCNEMore.

(** ** More on the validation wrapper *)

Section ValidatorMore.

Import Validator.

Variable basename : string -> string.
Variable join : string -> string -> string.
Variable json_loads : string -> option Hexagon.

Lemma judgment_image_file (image_path : string) (call : Call) (j : Hexagon) :
  extract_info_from_hexagon basename json_loads image_path call = Some j ->
  image_file j = Some (basename image_path).
Proof.
  unfold extract_info_from_hexagon. intros Hj.
  destruct (encoded call) as [[|c b]|]; try discriminate.
  destruct (reply call) as [| |content]; try discriminate.
  destruct (_ && _); [destruct (json_loads _)|];
    injection Hj as <-; reflexivity.
Qed.

(** A judgment is returned only for an image that could be encoded and a
    reply with content; its image_file and confidence always come from
    the path of the image, whatever the reply holds; its other fields are
    those of the parsed object, or, when no object is found or parsed, the
    stripped reply as upper_line with the whole reply as raw_response. *)
Theorem judgment_provenance (image_path : string) (call : Call) (j : Hexagon) :
  extract_info_from_hexagon basename json_loads image_path call = Some j ->
  (exists b content,
      encoded call = Some b /\ b <> ""%string /\ reply call = Content content
      /\ (j = raw_judgment basename image_path content
          \/ exists parsed,
               json_loads (PyStr.slice content (PyStr.find content "{")
                             (PyStr.rfind content "}" + 1)) = Some parsed
               /\ is_hexagon j = is_hexagon parsed
               /\ upper_line j = upper_line parsed
               /\ lower_line j = lower_line parsed
               /\ reason j = reason parsed
               /\ raw_response j = raw_response parsed))
  /\ image_file j = Some (basename image_path)
  /\ confidence j
     = Some (extract_confidence_from_filename basename image_path).
Proof.
  unfold extract_info_from_hexagon. intros Hj.
  destruct (encoded call) as [b|] eqn:He; [|discriminate].
  destruct b as [|c b']; [discriminate|].
  destruct (reply call) as [| |content] eqn:Hr; try discriminate.
  assert (Hraw : forall j0, Some (raw_judgment basename image_path content)
                            = Some j0 ->
                 j0 = raw_judgment basename image_path content)
    by (intros j0 H; injection H as <-; reflexivity).
  destruct (negb (PyStr.find content "{" =? -1)
            && negb (PyStr.rfind content "}" + 1 =? 0)).
  - destruct (json_loads _) as [parsed|] eqn:Hl.
    + injection Hj as <-. simpl. split; [|split; reflexivity].
      exists (String c b'), content. repeat split; try discriminate.
      right. exists parsed. repeat split. exact Hl.
    + apply Hraw in Hj. subst j. split; [|split; reflexivity].
      exists (String c b'), content. repeat split; try discriminate.
      left. reflexivity.
  - apply Hraw in Hj. subst j. split; [|split; reflexivity].
    exists (String c b'), content. repeat split; try discriminate.
    left. reflexivity.
Qed.

Lemma in_insert_sorted (x s : string) (l : list string) :
  In x (PyStr.insert_sorted s l) <-> x = s \/ In x l.
Proof.
  induction l as [|y l IH]; simpl; [intuition|].
  destruct (String.leb s y); simpl; [intuition|].
  rewrite IH. intuition.
Qed.

Lemma in_sort (x : string) (l : list string) : In x (PyStr.sort l) <-> In x l.
Proof.
  unfold PyStr.sort. induction l as [|y l IH]; simpl; [reflexivity|].
  rewrite in_insert_sorted, IH. intuition.
Qed.

Lemma length_insert_sorted (s : string) (l : list string) :
  List.length (PyStr.insert_sorted s l) = S (List.length l).
Proof.
  induction l as [|y l IH]; simpl; [reflexivity|].
  destruct (String.leb s y); simpl; [reflexivity | rewrite IH; reflexivity].
Qed.

Lemma length_sort (l : list string) :
  List.length (PyStr.sort l) = List.length l.
Proof.
  unfold PyStr.sort. induction l as [|y l IH]; simpl; [reflexivity|].
  rewrite length_insert_sorted, IH. reflexivity.
Qed.

Lemma process_loop_from_files (calls : string -> Call) (files : list string) :
  (List.length (process_loop basename json_loads calls files)
   <= List.length files)%nat
  /\ forall j, In j (process_loop basename json_loads calls files) ->
       exists path, In path files
                    /\ extract_info_from_hexagon basename json_loads path
                         (calls path) = Some j.
Proof.
  induction files as [|f files [IHl IHi]]; simpl.
  - split; [lia | contradiction].
  - destruct (extract_info_from_hexagon basename json_loads f (calls f))
      as [j0|] eqn:Hf; simpl.
    + split; [lia|]. intros j [<-|Hj]; [eauto|].
      destruct (IHi j Hj) as (path & Hp & He). eauto.
    + split; [lia|]. intros j Hj.
      destruct (IHi j Hj) as (path & Hp & He). eauto.
Qed.

(** When the folder call saves its two files: the results are not empty
    and number at most the PNG files of the folder; every result is the
    judgment of one of these files, named in its image_file; the file of
    the true hexagons holds, in the same order, exactly the results whose
    is_hexagon is true, and the number of false positives printed is the
    number of the other results. *)
Theorem saved_results_and_true_hexagons (hexagon_folder : string)
    (listing : list string) (calls : string -> Call)
    (results true_hexagons : list Hexagon) :
  process_hexagon_folder basename join json_loads hexagon_folder listing calls
  = Saved results true_hexagons ->
  results <> []
  /\ (List.length results <= List.length (png_names listing))%nat
  /\ (forall j, In j results ->
        exists filename,
          In filename (png_names listing)
          /\ image_file j = Some (basename (join hexagon_folder filename)))
  /\ true_hexagons = filter counted_true results
  /\ (forall j, In j true_hexagons <-> In j results /\ is_hexagon j = Some true)
  /\ Z.of_nat (List.length results) - Z.of_nat (List.length true_hexagons)
     = Z.of_nat (List.length (filter (fun j => negb (counted_true j)) results)).
Proof.
  unfold process_hexagon_folder. intros Hs.
  destruct (hexagon_files join hexagon_folder listing) as [|f files] eqn:Hf;
    [discriminate|].
  destruct (process_loop basename json_loads calls (f :: files))
    as [|r rs] eqn:Hl; [discriminate|].
  remember (r :: rs) as l eqn:El.
  injection Hs as <- <-.
  destruct (process_loop_from_files calls (f :: files)) as [Hlen Hin].
  rewrite Hl in Hlen, Hin.
  assert (Hfiles : List.length (f :: files) = List.length (png_names listing)).
  { rewrite <- Hf. unfold hexagon_files.
    rewrite length_sort, length_map. reflexivity. }
  split; [rewrite El; discriminate|]. split; [lia|].
  split; [|split; [reflexivity|split]].
  - intros j Hj. destruct (Hin j Hj) as (path & Hp & He).
    rewrite <- Hf in Hp. unfold hexagon_files in Hp.
    apply (proj1 (in_sort _ _)) in Hp. apply in_map_iff in Hp.
    destruct Hp as (filename & <- & Hfn).
    exists filename. split; [exact Hfn|].
    apply (judgment_image_file _ _ _ He).
  - intros j. unfold true_hexagons_of. rewrite filter_In.
    split; intros [Hj Ht]; (split; [exact Hj|]).
    + destruct (is_hexagon j) as [[|]|]; try discriminate; reflexivity.
    + rewrite Ht. reflexivity.
  - unfold true_hexagons_of, counted_true. clear.
    induction l as [|x l IH]; [reflexivity|].
    cbn [filter]. destruct (get (is_hexagon x) false);
      cbn [negb List.length]; lia.
Qed.

(** Only the files whose name ends in .png, whatever the case of the
    letters, reach the endpoint: two surroundings that agree on these
    files give the same outcome, and without such a file the call ends
    before any request. *)
Theorem only_png_files_are_queried (hexagon_folder : string)
    (listing : list string) (calls calls' : string -> Call) :
  (forall filename, In filename (png_names listing) ->
     calls (join hexagon_folder filename) = calls' (join hexagon_folder filename)) ->
  process_hexagon_folder basename join json_loads hexagon_folder listing calls
  = process_hexagon_folder basename join json_loads hexagon_folder listing calls'
  /\ (png_names listing = [] ->
      process_hexagon_folder basename join json_loads hexagon_folder listing calls
      = NoPngFiles).
Proof.
  intros Hagree. split.
  - unfold process_hexagon_folder.
    assert (Hloop : forall files,
               (forall path, In path files ->
                  In path (hexagon_files join hexagon_folder listing)) ->
               process_loop basename json_loads calls files
               = process_loop basename json_loads calls' files).
    { induction files as [|f files IH]; intros Hsub; [reflexivity|]. simpl.
      assert (Hf : calls f = calls' f).
      { specialize (Hsub f (or_introl eq_refl)). unfold hexagon_files in Hsub.
        apply (proj1 (in_sort _ _)) in Hsub. apply in_map_iff in Hsub.
        destruct Hsub as (filename & <- & Hfn). apply Hagree. exact Hfn. }
      rewrite Hf, IH; [reflexivity|].
      intros path Hp. apply Hsub. right. exact Hp. }
    destruct (hexagon_files join hexagon_folder listing) as [|f files];
      [reflexivity|].
    rewrite (Hloop (f :: files)); auto.
  - intros Hnone. unfold process_hexagon_folder, hexagon_files.
    fold (png_names listing). rewrite Hnone. reflexivity.
Qed.

End ValidatorMore.

Lemma judgment_provenance_witness :
  image_file
    (Validator.raw_judgment PyStr.posix_basename
       "plan/hexagon_001_conf_90%.png" prose_reply)
  = Some "hexagon_001_conf_90%.png"%string.
Proof.
  exact (proj1 (proj2 (judgment_provenance PyStr.posix_basename rejects_all
           "plan/hexagon_001_conf_90%.png" prose_call _ eq_refl))).
Defined.

Lemma saved_results_and_true_hexagons_witness :
  (1 <= List.length (png_names ["hexagon_001_conf_90%.png"; "notes.txt"]%string))%nat.
Proof.
  exact (proj1 (proj2 (saved_results_and_true_hexagons PyStr.posix_basename
           PyStr.posix_join rejects_all "plan"
           ["hexagon_001_conf_90%.png"; "notes.txt"]%string
           (fun _ => prose_call) _ _ eq_refl))).
Defined.

Lemma only_png_files_are_queried_witness :
  Validator.process_hexagon_folder PyStr.posix_basename PyStr.posix_join
    rejects_all "plan" ["notes.txt"; "plan.JSON"]%string (fun _ => prose_call)
  = Validator.NoPngFiles.
Proof.
  apply (only_png_files_are_queried PyStr.posix_basename PyStr.posix_join
           rejects_all "plan" ["notes.txt"; "plan.JSON"]%string
           (fun _ => prose_call) (fun _ => prose_call)).
  - intros filename Hin. reflexivity.
  - reflexivity.
Defined.

(** ** More on the instance report *)

Section ReportMore.

Import Mapper.

Lemma total_members_append_to (k : string) (h : Hexagon)
    (groups : list (string * list Hexagon)) :
  total_members (append_to k h groups) = S (total_members groups).
Proof.
  induction groups as [|[k0 hs] groups IH]; simpl; [reflexivity|].
  destruct (k0 =? k)%string; simpl.
  - rewrite length_app. simpl. lia.
  - rewrite IH. lia.
Qed.

Lemma total_members_fold (l : list Hexagon) :
  forall groups,
    total_members (fold_left (fun acc h => append_to (key_of h) h acc) l groups)
    = (total_members groups + List.length l)%nat.
Proof.
  induction l as [|h l IH]; intros groups; simpl; [lia|].
  rewrite IH, total_members_append_to. lia.
Qed.

Lemma sum_counts_all_instances (groups : list (string * list Hexagon)) :
  sum_counts (map (fun '(key, info) => (key, count info))
                (all_instances_of groups))
  = Z.of_nat (total_members groups).
Proof.
  induction groups as [|[k hs] groups IH]; simpl; [reflexivity|].
  unfold sum_counts in *. simpl. rewrite IH. lia.
Qed.

Lemma nonempty_append_to (k : string) (h : Hexagon)
    (groups : list (string * list Hexagon)) :
  Forall (fun g => snd g <> []) groups ->
  Forall (fun g => snd g <> []) (append_to k h groups).
Proof.
  induction groups as [|[k0 hs] groups IH]; simpl; intros Hall.
  - constructor; [discriminate | constructor].
  - inversion Hall as [|? ? Hhs Hrest]; subst.
    destruct (k0 =? k)%string; constructor; auto.
    simpl. destruct hs; discriminate.
Qed.

Lemma nonempty_group_hexagons (l : list Hexagon) :
  Forall (fun g => snd g <> []) (group_hexagons l).
Proof.
  unfold group_hexagons.
  assert (Hgen : forall groups, Forall (fun g => snd g <> []) groups ->
            Forall (fun g => snd g <> [])
              (fold_left (fun acc h => append_to (key_of h) h acc) l groups)).
  { induction l as [|h l IH]; simpl; intros groups Hall; [exact Hall|].
    apply IH. apply nonempty_append_to. exact Hall. }
  apply Hgen. constructor.
Qed.

(** The counts of the report add up to total_hexagons, and every group
    listed has at least one member: each validated artifact is counted in
    exactly one group. *)
Theorem counts_add_up_to_total (true_hexagons : list Hexagon) :
  sum_counts (summary (report_of true_hexagons))
  = total_hexagons (report_of true_hexagons)
  /\ total_hexagons (report_of true_hexagons)
     = Z.of_nat (List.length true_hexagons)
  /\ Forall (fun entry => 1 <= snd entry) (summary (report_of true_hexagons)).
Proof.
  unfold report_of; simpl. split; [|split; [reflexivity|]].
  - rewrite sum_counts_all_instances. unfold group_hexagons.
    rewrite total_members_fold. reflexivity.
  - pose proof (nonempty_group_hexagons true_hexagons) as Hne.
    induction Hne as [|[k hs] groups Hhs _ IH]; simpl; constructor; auto.
    simpl in *. destruct hs; [congruence | simpl; lia].
Qed.

Lemma keys_of_append_to (k : string) (h : Hexagon)
    (groups : list (string * list Hexagon)) :
  map fst (append_to k h groups)
  = if existsb (String.eqb k) (map fst groups) then map fst groups
    else (map fst groups ++ [k])%list.
Proof.
  induction groups as [|[k0 hs] groups IH]; simpl; [reflexivity|].
  rewrite (String.eqb_sym k k0).
  destruct (k0 =? k)%string; simpl; [reflexivity|].
  rewrite IH. destruct (existsb _ _); reflexivity.
Qed.

Lemma keys_of_fold (l : list Hexagon) :
  forall groups,
    map fst (fold_left (fun acc h => append_to (key_of h) h acc) l groups)
    = first_seen_from (map fst groups) (map key_of l).
Proof.
  induction l as [|h l IH]; intros groups; simpl; [reflexivity|].
  rewrite IH, keys_of_append_to. reflexivity.
Qed.

Lemma in_first_seen_from (k : string) (keys : list string) :
  forall seen, In k (first_seen_from seen keys) <-> In k seen \/ In k keys.
Proof.
  induction keys as [|x keys IH]; intros seen; simpl; [intuition|].
  rewrite IH. destruct (existsb (String.eqb x) seen) eqn:Hx.
  - apply existsb_exists in Hx. destruct Hx as (y & Hy & Hxy).
    apply String.eqb_eq in Hxy. subst y. intuition (subst; auto).
  - rewrite in_app_iff. simpl. intuition.
Qed.

Lemma all_instances_keys (groups : list (string * list Hexagon)) :
  map fst (all_instances_of groups) = map fst groups.
Proof.
  unfold all_instances_of. rewrite map_map. apply map_ext.
  intros [k hs]. reflexivity.
Qed.

(** The report lists one group per distinct key, in the order in which
    the keys first appear in the validated set, and unique_combinations,
    computed apart from the grouping, is the number of these groups. *)
Theorem groups_are_first_seen_keys (true_hexagons : list Hexagon) :
  map fst (all_instances (report_of true_hexagons))
  = first_seen (map key_of true_hexagons)
  /\ map fst (summary (report_of true_hexagons))
     = first_seen (map key_of true_hexagons)
  /\ unique_combinations (report_of true_hexagons)
     = Z.of_nat (List.length (all_instances (report_of true_hexagons))).
Proof.
  assert (Hk : map fst (all_instances_of (group_hexagons true_hexagons))
               = first_seen (map key_of true_hexagons)).
  { rewrite all_instances_keys. unfold group_hexagons.
    rewrite keys_of_fold. reflexivity. }
  unfold report_of; simpl. split; [exact Hk|]. split.
  - rewrite map_map. rewrite <- Hk. apply map_ext. intros [k info]. reflexivity.
  - f_equal. rewrite <- (length_map fst (all_instances_of _)), Hk.
    apply Nat.le_antisymm.
    + apply NoDup_incl_length; [apply NoDup_nodup|].
      intros k Hin. apply nodup_In in Hin.
      apply in_first_seen_from. right. exact Hin.
    + apply NoDup_incl_length.
      * rewrite <- Hk, all_instances_keys. apply keys_group_hexagons.
      * intros k Hin. apply nodup_In.
        apply in_first_seen_from in Hin. destruct Hin as [[]|Hin]. exact Hin.
Qed.

Lemma members_of_listed (k : string) (hs : list Hexagon)
    (groups : list (string * list Hexagon)) :
  NoDup (map fst groups) -> In (k, hs) groups -> members k groups = hs.
Proof.
  induction groups as [|[k0 h0] groups IH]; simpl; intros Hnd Hin;
    [contradiction|].
  inversion Hnd as [|? ? Hnotin Hrest]; subst.
  destruct Hin as [Heq|Hin].
  - injection Heq as -> ->. rewrite String.eqb_refl. reflexivity.
  - destruct (String.eqb_spec k0 k) as [->|_].
    + exfalso. apply Hnotin. apply (in_map fst _ _ Hin).
    + apply IH; assumption.
Qed.

Lemma listed_of_members (k : string) (groups : list (string * list Hexagon)) :
  members k groups <> [] -> In (k, members k groups) groups.
Proof.
  induction groups as [|[k0 h0] groups IH]; simpl; intros Hne; [congruence|].
  destruct (String.eqb_spec k0 k) as [->|_]; [left; reflexivity|].
  right. apply IH. exact Hne.
Qed.

(** A key is reported among the duplicates exactly when at least two
    validated artifacts carry it, and then with all of them as members;
    count_duplicate_hexagons returns the same groups as the duplicates of
    the report, and none for a file it cannot read. *)
Theorem duplicates_are_keys_with_two_members (true_hexagons : list Hexagon) :
  (forall key,
      In key (map fst (duplicates (report_of true_hexagons)))
      <-> (2 <= List.length (with_key key true_hexagons))%nat)
  /\ (forall key info,
        In (key, info) (duplicates (report_of true_hexagons)) ->
        hexagons info = with_key key true_hexagons
        /\ count info = Z.of_nat (List.length (with_key key true_hexagons)))
  /\ count_duplicate_hexagons (Some true_hexagons)
     = duplicates (report_of true_hexagons)
  /\ count_duplicate_hexagons None = [].
Proof.
  assert (Hin : forall key info,
             In (key, info) (duplicates_of (group_hexagons true_hexagons)) <->
             info = instance_of (with_key key true_hexagons)
             /\ (2 <= List.length (with_key key true_hexagons))%nat).
  { intros key info. unfold duplicates_of, all_instances_of.
    rewrite in_map_iff. split.
    - intros ([k hs] & Heq & Hf). injection Heq as -> <-.
      apply filter_In in Hf. destruct Hf as [Hg Hlen].
      apply (members_of_listed _ _ _ (keys_group_hexagons true_hexagons)) in Hg.
      rewrite members_group_hexagons in Hg. subst hs.
      split; [reflexivity|]. apply Z.ltb_lt in Hlen. lia.
    - intros [-> Hlen]. exists (key, with_key key true_hexagons).
      split; [reflexivity|]. apply filter_In. split.
      + rewrite <- members_group_hexagons. apply listed_of_members.
        rewrite members_group_hexagons.
        destruct (with_key key true_hexagons); [simpl in Hlen; lia | discriminate].
      + apply Z.ltb_lt. lia. }
  unfold report_of; simpl. split; [|split; [|split; reflexivity]].
  - intros key. rewrite in_map_iff. split.
    + intros ([k info] & Heq & Hd). simpl in Heq. subst k.
      apply Hin in Hd. apply Hd.
    + intros Hlen. exists (key, instance_of (with_key key true_hexagons)).
      split; [reflexivity|]. apply Hin. auto.
  - intros key info Hd. apply Hin in Hd. destruct Hd as [-> _].
    split; reflexivity.
Qed.

End ReportMore.

(** ** More on the boxes the reconciler draws *)

Section MapperMore.

Import Mapper.

Lemma lookup_enumerate_below (l : list BoundingBox) :
  forall start k : Z, k < start -> lookup (enumerate l start) k = None.
Proof.
  induction l as [|b l IH]; intros start k Hk; simpl; [reflexivity|].
  destruct (Z.eqb_spec start k) as [->|_]; [lia|].
  apply IH. lia.
Qed.

Lemma lookup_record_boxes (detection_json : option DCNE.DetectionRecord) (k : Z) :
  lookup (detections_of detection_json) k
  = if (1 <=? k) && (k <=? Z.of_nat (List.length (record_boxes detection_json)))
    then nth_error (record_boxes detection_json) (Z.to_nat (k - 1))
    else None.
Proof.
  assert (Hen : forall l : list BoundingBox,
             lookup (enumerate l 1) k
             = if (1 <=? k) && (k <=? Z.of_nat (List.length l))
               then nth_error l (Z.to_nat (k - 1)) else None).
  { intros l. destruct (Z.leb_spec 1 k) as [H1|H1]; simpl.
    - rewrite lookup_enumerate by exact H1.
      destruct (Z.leb_spec k (Z.of_nat (List.length l))) as [H2|H2];
        [reflexivity|].
      apply nth_error_None. lia.
    - apply lookup_enumerate_below. lia. }
  destruct detection_json as [d|]; simpl.
  - apply Hen.
  - destruct ((1 <=? k) && (k <=? 0)); [|reflexivity].
    destruct (Z.to_nat (k - 1)); reflexivity.
Qed.

(** The box resolved for a hexagon number is the box at that position of
    the detection record when the number is between 1 and the number of
    recorded detections; for every other number, and for every number
    when there is no record, it is the synthetic placement computed from
    the number alone. *)
Theorem resolved_box_by_range (detection_json : option DCNE.DetectionRecord)
    (hexagon_number : Z) :
  (1 <= hexagon_number <= Z.of_nat (List.length (record_boxes detection_json)) ->
   exists bbox,
     nth_error (record_boxes detection_json) (Z.to_nat (hexagon_number - 1))
     = Some bbox
     /\ resolve_bbox (detections_of detection_json) hexagon_number = Some bbox)
  /\ (~ 1 <= hexagon_number <= Z.of_nat (List.length (record_boxes detection_json)) ->
      resolve_bbox (detections_of detection_json) hexagon_number
      = simplified_positioning hexagon_number).
Proof.
  unfold resolve_bbox. rewrite lookup_record_boxes. split.
  - intros [H1 H2].
    apply Z.leb_le in H1 as H1'. apply Z.leb_le in H2 as H2'.
    rewrite H1', H2'. cbn [andb].
    destruct (nth_error (record_boxes detection_json)
                (Z.to_nat (hexagon_number - 1))) as [bbox|] eqn:Hn.
    + exists bbox. split; reflexivity.
    + apply nth_error_None in Hn. lia.
  - intros Hout.
    destruct (Z.leb_spec 1 hexagon_number) as [H1|H1]; simpl; [|reflexivity].
    destruct (Z.leb_spec hexagon_number
                (Z.of_nat (List.length (record_boxes detection_json))))
      as [H2|H2]; [lia | reflexivity].
Qed.

Lemma map_loop_spec (ink : Z * Z * Z * Z -> string -> bool) (W H : Z)
    (detections : list (Z * BoundingBox)) (true_hexagons : list Hexagon) :
  forall drawn,
    map_loop ink W H detections true_hexagons = Some drawn ->
    Forall2 (drawn_for W H detections) drawn (filter has_number true_hexagons).
Proof.
  induction true_hexagons as [|h l IH]; simpl; intros drawn Hm.
  - injection Hm as <-. constructor.
  - unfold has_number at 1.
    destruct (extract_hexagon_number (get (image_file h) ""%string))
      as [n|] eqn:Hn.
    + bind_inv Hm. destruct (ink v0 (label_of n h)); [|discriminate].
      bind_inv Hm. injection Hm as <-.
      constructor; [|apply IH; assumption].
      exists n. eexists. simpl. repeat split; eassumption.
    + apply IH. exact Hm.
Qed.

(** A successful call draws exactly one rectangle for each validated
    artifact whose file name carries a number, in the order of the
    validated set, at the pixel corners of the box resolved for that
    number and labelled with the number and the two lines; mapped_count
    is the number of these rectangles and never exceeds total_hexagons. *)
Theorem one_rectangle_per_numbered_artifact (original_image : option Image)
    (true_hexagons_json : option (list Hexagon))
    (detection_json : option DCNE.DetectionRecord) (written : Written) :
  map_true_hexagons_to_image original_image true_hexagons_json detection_json
  = Some written ->
  exists image W H true_hexagons,
    original_image = Some image
    /\ size image = (W, H)
    /\ jpeg image = true
    /\ true_hexagons_json = Some true_hexagons
    /\ Forall2 (drawn_for W H (detections_of detection_json))
         (annotated_image written) (filter has_number true_hexagons)
    /\ mapped_count written
       = Z.of_nat (List.length (filter has_number true_hexagons))
    /\ mapped_count written <= total_hexagons (duplicate_analysis written).
Proof.
  unfold map_true_hexagons_to_image. intros Hm.
  destruct original_image as [image|]; [|discriminate]. cbn [bind] in Hm.
  destruct (size image) as [W H] eqn:Hsize.
  destruct true_hexagons_json as [l|]; [|discriminate].
  cbn [bind] in Hm. bind_inv Hm.
  destruct (jpeg image) eqn:Hjpeg; [|discriminate]. injection Hm as <-.
  match goal with Hd : map_loop _ _ _ _ _ = Some _ |- _ =>
    apply map_loop_spec in Hd; rename Hd into Hdrawn end.
  exists image, W, H, l. simpl.
  pose proof (Forall2_length _ _ _ Hdrawn) as Hlen.
  pose proof (filter_length_le has_number l) as Hle.
  repeat split; auto; lia.
Qed.

Lemma nth_error_filter_origin {A : Type} (f : A -> bool) (l : list A) :
  forall (k : nat) (x : A),
    nth_error (filter f l) k = Some x ->
    exists m, (k <= m)%nat /\ nth_error l m = Some x /\ f x = true.
Proof.
  induction l as [|y l IH]; intros k x Hk; simpl in Hk.
  - destruct k; discriminate.
  - destruct (f y) eqn:Hy.
    + destruct k as [|k]; simpl in Hk.
      * injection Hk as ->. exists 0%nat. auto.
      * apply IH in Hk. destruct Hk as (m & Hm & Hn & Hf).
        exists (S m). repeat split; [lia | exact Hn | exact Hf].
    + apply IH in Hk. destruct Hk as (m & Hm & Hn & Hf).
      exists (S m). repeat split; [lia | exact Hn | exact Hf].
Qed.

Lemma descending_pairwise (preds : list Prediction) :
  descending preds = true ->
  forall (i j : nat) (p q : Prediction),
    (i < j)%nat -> nth_error preds i = Some p -> nth_error preds j = Some q ->
    PyFloat.ge (probability p) (probability q) = true.
Proof.
  induction preds as [|x preds IH]; intros Hd i j p q Hij Hi Hj.
  - destruct i; discriminate.
  - destruct preds as [|y preds].
    + destruct j as [|[|j]]; [lia | discriminate | discriminate].
    + cbn [descending] in Hd. apply andb_prop in Hd. destruct Hd as [Hxy Hd].
      destruct i as [|i]; destruct j as [|j]; try lia.
      * simpl in Hi. injection Hi as ->. simpl in Hj.
        destruct j as [|j].
        -- simpl in Hj. injection Hj as ->. exact Hxy.
        -- apply (ge_trans _ (probability y)); [exact Hxy|].
           apply (IH Hd 0%nat (S j) y q); [lia | reflexivity | exact Hj].
      * simpl in Hi, Hj. apply (IH Hd i j p q); [lia | exact Hi | exact Hj].
Qed.

Lemma survivors_lead_when_descending (threshold : float)
    (preds : list Prediction) (k : nat) (p : Prediction) :
  descending preds = true ->
  nth_error (at_or_above threshold preds) k = Some p ->
  forall i q, (i <= k)%nat -> nth_error preds i = Some q ->
              PyFloat.ge (probability q) threshold = true.
Proof.
  intros Hd Hk i q Hik Hi.
  apply nth_error_filter_origin in Hk. destruct Hk as (m & Hkm & Hm & Hf).
  destruct (Nat.eq_dec i m) as [->|Hne].
  - rewrite Hm in Hi. injection Hi as <-. exact Hf.
  - apply (ge_trans _ (probability p)); [|exact Hf].
    apply (descending_pairwise preds Hd i m); [lia | exact Hi | exact Hm].
Qed.

(** When the detection record holds the detections the extractor read,
    and these come in descending order of confidence, the box the
    reconciler resolves for a saved artifact is the box the artifact was
    cropped from. *)
Theorem reconciler_finds_the_cropped_box (image : Image) (W H : Z)
    (r : Response) (preds : list Prediction) (threshold : float)
    (detection_data : DCNE.DetectionRecord) (k : nat)
    (a : Extractor.Artifact) :
  size image = (W, H) ->
  predictions r = Some preds ->
  get_predictions (DCNE.record_predictions detection_data) = preds ->
  descending preds = true ->
  nth_error (Extractor.saved_artifacts
               (Extractor.extract_hexagons (Some image) (Some r) threshold)) k
  = Some a ->
  exists p n,
    PyFloat.ge (probability p) threshold = true
    /\ Extractor.crop_region W H (boundingBox p) = Some (Extractor.crop a)
    /\ extract_hexagon_number (Extractor.hexagon_filename a) = Some n
    /\ resolve_bbox (detections_of (Some detection_data)) n
       = Some (boundingBox p).
Proof.
  intros Hsize Hr Hrec Hd Hk.
  destruct (saved_artifact_from_survivor image W H r preds threshold k a
              Hsize Hr Hk)
    as (p & Hp & _ & Hname & Hcrop).
  change (Extractor.high_confidence_predictions preds threshold)
    with (at_or_above threshold preds) in Hp.
  pose proof (survivors_lead_when_descending threshold preds k p Hd Hp) as Hlead.
  pose proof Hp as Hp'. rewrite (at_or_above_prefix threshold preds k Hlead) in Hp'.
  exists p, (Z.of_nat k + 1). repeat split.
  - apply nth_error_filter_origin in Hp. destruct Hp as (_ & _ & _ & Hf). exact Hf.
  - exact Hcrop.
  - rewrite Hname. apply index_travels_in_filename. lia.
  - apply resolve_by_record_position; [lia|].
    rewrite Hrec. replace (Z.to_nat (Z.of_nat k + 1 - 1)) with k by lia.
    exact Hp'.
Qed.

End MapperMore.

Lemma duplicates_are_keys_with_two_members_witness :
  In "a/b/c"%string
    (map fst (Mapper.duplicates
                (Mapper.report_of [slash_upper; slash_lower; plain])))
  /\ ~ In "x/y"%string
       (map fst (Mapper.duplicates
                   (Mapper.report_of [slash_upper; slash_lower; plain]))).
Proof.
  pose proof (duplicates_are_keys_with_two_members
                [slash_upper; slash_lower; plain]) as [Hiff _].
  split.
  - apply Hiff. vm_compute. lia.
  - intros Hin. apply Hiff in Hin. vm_compute in Hin. lia.
Defined.

Lemma resolved_box_by_range_witness :
  (exists bbox,
      nth_error (record_boxes (Some example_record)) (Z.to_nat (2 - 1))
      = Some bbox
      /\ Mapper.resolve_bbox (Mapper.detections_of (Some example_record)) 2
         = Some bbox)
  /\ Mapper.resolve_bbox (Mapper.detections_of (Some example_record)) 4
     = Mapper.simplified_positioning 4.
Proof.
  split.
  - apply (proj1 (resolved_box_by_range (Some example_record) 2)).
    vm_compute. split; discriminate.
  - apply (proj2 (resolved_box_by_range (Some example_record) 4)).
    vm_compute. intros [_ Hle]. apply Hle. reflexivity.
Defined.

Lemma one_rectangle_per_numbered_artifact_witness :
  exists written image W H true_hexagons,
    Some (rgb_image 1000 800) = Some image
    /\ size image = (W, H)
    /\ jpeg image = true
    /\ Some [validated "A1" "B2" "hexagon_002_conf_75%.png"; unnumbered]
       = Some true_hexagons
    /\ Forall2 (drawn_for W H (Mapper.detections_of (Some example_record)))
         (Mapper.annotated_image written) (filter has_number true_hexagons)
    /\ Mapper.mapped_count written
       = Z.of_nat (List.length (filter has_number true_hexagons))
    /\ Mapper.mapped_count written
       <= Mapper.total_hexagons (Mapper.duplicate_analysis written).
Proof.
  eexists.
  apply (one_rectangle_per_numbered_artifact (Some (rgb_image 1000 800))
           (Some [validated "A1" "B2" "hexagon_002_conf_75%.png"; unnumbered])
           (Some example_record)).
  vm_compute. reflexivity.
Defined.

Lemma reconciler_finds_the_cropped_box_witness :
  exists a p n,
    PyFloat.ge (probability p) 0.70 = true
    /\ Extractor.crop_region 1000 800 (boundingBox p) = Some (Extractor.crop a)
    /\ Mapper.extract_hexagon_number (Extractor.hexagon_filename a) = Some n
    /\ Mapper.resolve_bbox (Mapper.detections_of (Some ordered_record)) n
       = Some (boundingBox p).
Proof.
  eexists.
  apply (reconciler_finds_the_cropped_box (rgb_image 1000 800) 1000 800
           ordered_response (get_predictions ordered_response) 0.70
           ordered_record 1).
  - reflexivity.
  - reflexivity.
  - reflexivity.
  - vm_compute. reflexivity.
  - vm_compute. reflexivity.
Defined.

(** ** The session across executions *)

Section SessionInvariants.

Import Orchestrator.

Context {D E V M : Type}.

Implicit Types (s : SessionState D E V M) (l : Locals D E V M).

Lemma consistent_flags s s' :
  one_mode s' = true ->
  completed_steps s' = completed_steps s ->
  get (processing_status s') initial_status
  = get (processing_status s) initial_status ->
  recorded_in_order s -> status_agrees s ->
  consistent s'.
Proof.
  intros Hm Hc Hp Ho Ha. split; [exact Hm|]. split.
  - unfold recorded_in_order. rewrite Hc. exact Ho.
  - intros step. unfold is_completed. rewrite Hp, Hc. apply Ha.
Qed.

Lemma consistent_under_way s : under_way s -> consistent s.
Proof.
  intros (Hs & Hc & Hh & Ho & Ha). split; [|auto].
  unfold one_mode. rewrite Hs, Hc, Hh. reflexivity.
Qed.

Lemma record_in_order s step t :
  recorded_in_order s ->
  is_completed s step = false ->
  (forall before, step_number before + 1 = step_number step ->
                  is_completed s before = true) ->
  recorded_in_order (record_completed s step t).
Proof.
  intros [k Hk] Hn Hb. unfold recorded_in_order, is_completed in *.
  simpl. rewrite Hk in *.
  destruct step.
  - destruct k as [|k]; [exists 1%nat; reflexivity|].
    simpl in Hn. discriminate.
  - specialize (Hb Detection eq_refl).
    destruct k as [|[|k]]; simpl in *; try discriminate.
    exists 2%nat; reflexivity.
  - specialize (Hb Extraction eq_refl).
    destruct k as [|[|[|k]]]; simpl in *; try discriminate.
    exists 3%nat; reflexivity.
  - specialize (Hb Validation eq_refl).
    destruct k as [|[|[|[|k]]]]; simpl in *; try discriminate.
    exists 4%nat; reflexivity.
Qed.

Lemma record_status_agrees s step t :
  status_agrees s -> status_agrees (record_completed s step t).
Proof.
  intros Ha step'. unfold is_completed. simpl. rewrite existsb_app.
  specialize (Ha step'). unfold is_completed in Ha. rewrite <- Ha.
  destruct step, step'; simpl; rewrite ?orb_false_r, ?orb_true_r; reflexivity.
Qed.

Lemma under_way_record s step t :
  under_way s ->
  is_completed s step = false ->
  (forall before, step_number before + 1 = step_number step ->
                  is_completed s before = true) ->
  under_way (record_completed s step t).
Proof.
  intros (Hs & Hc & Hh & Ho & Ha) Hn Hb.
  repeat split; try assumption.
  - apply record_in_order; assumption.
  - apply record_status_agrees. exact Ha.
Qed.

Variable env : Environment D E V M.

Lemma after_stage_cases step ok s :
  processing_started s = true ->
  (after_stage env step ok s = inl (record_completed s step (seconds env step))
   /\ stop_during env step = false /\ ok = true)
  \/ (exists s', after_stage env step ok s = inr s'
                 /\ processing_started s' = false
                 /\ processing_completed s' = false
                 /\ processing_halted s' = true
                 /\ current_step s' = current_step s
                 /\ completed_steps s' = completed_steps s
                 /\ processing_status s' = processing_status s
                 /\ processing_results s' = processing_results s).
Proof.
  intros Hs. unfold after_stage.
  destruct (stop_during env step); simpl.
  - right. eexists. repeat split.
  - rewrite Hs. simpl. destruct ok.
    + left. auto.
    + right. eexists. repeat split.
Qed.

Lemma consistent_halted s s' :
  under_way s ->
  processing_started s' = false -> processing_completed s' = false ->
  completed_steps s' = completed_steps s ->
  processing_status s' = processing_status s ->
  consistent s'.
Proof.
  intros (_ & _ & _ & Ho & Ha) Hs Hc Hst Hp.
  apply (consistent_flags s); auto.
  - unfold one_mode. rewrite Hs, Hc. reflexivity.
  - rewrite Hp. reflexivity.
Qed.

Lemma consistent_leave s l e : consistent s -> consistent (session (leave s l e)).
Proof. auto. Qed.

Lemma consistent_finish s l : under_way s -> consistent (session (finish s l)).
Proof.
  intros Hu. pose proof Hu as (Hs & Hc & Hh & Ho & Ha). unfold finish.
  destruct (_ =? 4); [|apply consistent_under_way; exact Hu].
  assert (Hdone : forall results,
             consistent
               ({| processing_started := false;
                  processing_completed := true;
                  processing_halted := processing_halted s;
                  current_step := current_step s;
                  completed_steps := completed_steps s;
                  processing_status := processing_status s;
                  processing_results := results |}
                : SessionState D E V M)).
  { intros results. apply (consistent_flags s); auto.
    unfold one_mode. simpl. rewrite Hh. reflexivity. }
  destruct (detection_result l), (extraction_result l), (validation_result l),
    (mapping_result l); apply Hdone.
Qed.

Ltac stage_cases Hu step ok s :=
  let Hstarted := fresh "Hstarted" in
  pose proof (proj1 Hu) as Hstarted;
  let Hin := fresh "Hin" in
  let s' := fresh "s'" in
  destruct (after_stage_cases step ok s Hstarted)
    as [(Hin & _ & _)|(s' & Hin & ? & ? & ? & ? & ? & ? & ?)];
  rewrite Hin; [|apply (consistent_halted s); assumption].

Lemma consistent_step_mapping s l :
  under_way s -> consistent (session (step_mapping env s l)).
Proof.
  intros Hu. unfold step_mapping.
  destruct (is_completed s Validation && negb (is_completed s Mapping)) eqn:Hc;
    [|apply consistent_finish; exact Hu].
  apply andb_prop in Hc. destruct Hc as [Hv Hm]. apply negb_true_iff in Hm.
  destruct (validation_result l) as [[v|?]|];
    try (apply consistent_under_way; exact Hu).
  destruct (detection_result l) as [[d|?]|];
    try (apply consistent_under_way; exact Hu).
  stage_cases Hu Mapping (success (run_enhanced_mapping env v d)) s.
  apply consistent_finish. apply under_way_record; auto.
  intros [] Hb; try discriminate. exact Hv.
Qed.

Lemma consistent_step_validation s l :
  under_way s -> consistent (session (step_validation env s l)).
Proof.
  intros Hu. unfold step_validation.
  destruct (is_completed s Extraction && negb (is_completed s Validation))
    eqn:Hc; [|apply consistent_step_mapping; exact Hu].
  apply andb_prop in Hc. destruct Hc as [He Hv]. apply negb_true_iff in Hv.
  destruct (extraction_result l) as [[e|?]|];
    try (apply consistent_under_way; exact Hu).
  stage_cases Hu Validation (success (run_hexagon_validation env e)) s.
  apply consistent_step_mapping. apply under_way_record; auto.
  intros [] Hb; try discriminate. exact He.
Qed.

Lemma consistent_step_extraction s l :
  under_way s -> consistent (session (step_extraction env s l)).
Proof.
  intros Hu. unfold step_extraction.
  destruct (is_completed s Detection && negb (is_completed s Extraction))
    eqn:Hc; [|apply consistent_step_validation; exact Hu].
  apply andb_prop in Hc. destruct Hc as [Hd He]. apply negb_true_iff in He.
  stage_cases Hu Extraction (success (run_hexagon_extraction env)) s.
  apply consistent_step_validation. apply under_way_record; auto.
  intros [] Hb; try discriminate. exact Hd.
Qed.

Lemma consistent_step_detection s l :
  under_way s -> consistent (session (step_detection env s l)).
Proof.
  intros Hu. unfold step_detection.
  destruct (negb (is_completed s Detection)) eqn:Hc;
    [|apply consistent_step_extraction; exact Hu].
  apply negb_true_iff in Hc.
  stage_cases Hu Detection (success (run_dcne_detection env)) s.
  apply consistent_step_extraction. apply under_way_record; auto.
  intros [] Hb; discriminate.
Qed.

Lemma consistent_main (click : Click) s :
  consistent s -> consistent (session (main env click s)).
Proof.
  intros Hc. pose proof Hc as (Hm & Ho & Ha). unfold main.
  destruct (processing_started s) eqn:Hs, (processing_completed s) eqn:Hco,
    (processing_halted s) eqn:Hh;
    unfold one_mode in Hm; rewrite ?Hs, ?Hco, ?Hh in Hm; try discriminate;
    cbn [negb andb].
  - unfold processing. destruct click;
      try (apply (consistent_flags s); auto; reflexivity).
    all: cbn [init_status processing_started negb]; rewrite Hs; cbn [negb].
    all: apply consistent_step_detection.
    all: repeat split; simpl; auto.
  - exact Hc.
  - destruct click; try exact Hc.
    apply (consistent_flags s); auto.
  - destruct click; try exact Hc.
    apply (consistent_flags s); auto.
Qed.

End SessionInvariants.

Section Reachable.

Import Orchestrator.

Context {D E V M : Type}.

Lemma consistent_fresh : consistent (fresh_session D E V M).
Proof.
  split; [reflexivity|]. split; [exists 0%nat; reflexivity|].
  intros []; reflexivity.
Qed.

Lemma after_executions_app
    (trace more : list (Environment D E V M * Click)) (s : SessionState D E V M) :
  after_executions (trace ++ more) s
  = after_executions more (after_executions trace s).
Proof. unfold after_executions. apply fold_left_app. Qed.

Lemma consistent_after_executions
    (trace : list (Environment D E V M * Click)) :
  forall s : SessionState D E V M,
    consistent s -> consistent (after_executions trace s).
Proof.
  induction trace as [|[env click] trace IH]; intros s Hc; [exact Hc|].
  apply IH. apply consistent_main. exact Hc.
Qed.

(** Whatever was clicked and whatever the stages returned, the session is
    idle, under way, halted or completed, never two of these at once: at
    most one of processing_started, processing_completed and
    processing_halted is set after any sequence of executions. *)
Theorem session_always_in_one_mode
    (trace : list (Environment D E V M * Click)) :
  one_mode (after_executions trace (fresh_session D E V M)) = true.
Proof.
  apply (consistent_after_executions trace _ consistent_fresh).
Qed.

(** After any sequence of executions the recorded steps are the first
    steps of the pipeline in its order, none recorded twice and none
    recorded before its predecessor, and the status entry of a step says
    completed exactly when the step is recorded. *)
Theorem steps_always_recorded_in_order
    (trace : list (Environment D E V M * Click)) :
  let s := after_executions trace (fresh_session D E V M) in
  (exists k : nat, completed_steps s = firstn k [0; 1; 2; 3])
  /\ (forall step,
        completed (get_status (get (processing_status s) initial_status) step)
        = is_completed s step)
  /\ (is_completed s Mapping = true -> is_completed s Validation = true)
  /\ (is_completed s Validation = true -> is_completed s Extraction = true)
  /\ (is_completed s Extraction = true -> is_completed s Detection = true).
Proof.
  intros s.
  destruct (consistent_after_executions trace _ consistent_fresh)
    as (_ & [k Hk] & Ha).
  fold s in Hk, Ha. split; [exists k; exact Hk|]. split; [exact Ha|].
  unfold is_completed. rewrite Hk.
  destruct k as [|[|[|[|k]]]]; simpl; repeat split; auto.
Qed.

(** Completion is final: once a session is completed no click and no
    execution changes it or invokes a stage again. *)
Theorem completion_is_final
    (trace more : list (Environment D E V M * Click)) :
  processing_completed (after_executions trace (fresh_session D E V M)) = true ->
  after_executions (trace ++ more) (fresh_session D E V M)
  = after_executions trace (fresh_session D E V M)
  /\ forall env click,
       main env click (after_executions trace (fresh_session D E V M))
       = {| session := after_executions trace (fresh_session D E V M);
            stages := [];
            exit := Finished |}.
Proof.
  intros Hdone.
  pose proof (consistent_after_executions trace _ consistent_fresh)
    as (Hm & _ & _).
  set (s := after_executions trace (fresh_session D E V M)) in *.
  assert (Hmain : forall env click,
             main env click s
             = {| session := s; stages := []; exit := Finished |}).
  { intros env click. unfold main, one_mode in *. rewrite Hdone in *.
    destruct (processing_started s), (processing_halted s);
      try discriminate. reflexivity. }
  split; [|exact Hmain].
  rewrite after_executions_app. fold s.
  induction more as [|[env click] more IH]; [reflexivity|].
  simpl. rewrite Hmain. exact IH.
Qed.

End Reachable.

(** ** What an execution records, and what it cannot resume *)

Section RecordedSteps.

Import Orchestrator.

Context {D E V M : Type}.

Implicit Types (s : SessionState D E V M) (l : Locals D E V M).

Variable env : Environment D E V M.

Lemma after_stage_split (step : Step) (ok : bool) s :
  (after_stage env step ok s = inl (record_completed s step (seconds env step))
   /\ stop_during env step = false /\ ok = true)
  \/ (exists s', after_stage env step ok s = inr s'
                 /\ completed_steps s' = completed_steps s).
Proof.
  unfold after_stage. destruct (stop_during env step); simpl.
  - right. eexists. split; reflexivity.
  - destruct (processing_started s); simpl.
    + destruct ok; [left; auto | right; eexists; split; reflexivity].
    + right. eexists. split; reflexivity.
Qed.

Lemma justified_same_steps s0 s s' (inv inv' : list Step) :
  justified env s0 s inv ->
  completed_steps s' = completed_steps s ->
  incl inv inv' ->
  justified env s0 s' inv'.
Proof.
  intros Hj Hc Hi step Hs. unfold is_completed in Hs. rewrite Hc in Hs.
  destruct (Hj step Hs) as [H0|(Hin & Hrest)]; [left; exact H0|].
  right. split; [apply Hi; exact Hin | exact Hrest].
Qed.

Lemma justified_record s0 s (inv : list Step) (step : Step) (t : float) :
  justified env s0 s inv ->
  stop_during env step = false ->
  succeeded env step ->
  justified env s0 (record_completed s step t) (inv ++ [step]).
Proof.
  intros Hj Hstop Hok step' Hs. unfold is_completed in Hs. simpl in Hs.
  rewrite existsb_app in Hs. apply orb_prop in Hs. destruct Hs as [Hs|Hs].
  - destruct (Hj step' Hs) as [H0|(Hin & Hrest)]; [left; exact H0|].
    right. split; [apply in_or_app; left; exact Hin | exact Hrest].
  - right. assert (step' = step) as ->.
    { destruct step, step'; simpl in Hs; try discriminate; reflexivity. }
    split; [apply in_or_app; right; left; reflexivity | auto].
Qed.

Lemma justified_finish s0 s l :
  justified env s0 s (invoked l) -> justified_run env s0 (finish s l).
Proof.
  intros Hj. unfold justified_run. rewrite stages_finish.
  apply (justified_same_steps s0 s _ (invoked l) _ Hj); [|apply incl_refl].
  unfold finish. destruct (_ =? 4); [|reflexivity].
  destruct (detection_result l), (extraction_result l), (validation_result l),
    (mapping_result l); reflexivity.
Qed.

Lemma justified_leave s0 s l (e : Exit) :
  justified env s0 s (invoked l) -> justified_run env s0 (leave s l e).
Proof. intros Hj. exact Hj. Qed.

Lemma justified_step_mapping s0 s l :
  bound_by env l ->
  justified env s0 s (invoked l) -> justified_run env s0 (step_mapping env s l).
Proof.
  intros (Hd & He & Hv) Hj. unfold step_mapping.
  destruct (_ && _); [|apply justified_finish; exact Hj].
  destruct (validation_result l) as [[v|?]|] eqn:Hvl;
    try (apply justified_leave; exact Hj).
  destruct (detection_result l) as [[d|?]|] eqn:Hdl;
    try (apply justified_leave; exact Hj).
  destruct (Hv _ eq_refl) as (e & Hext & Hval).
  specialize (Hd _ eq_refl).
  destruct (after_stage_split Mapping (success (run_enhanced_mapping env v d)) s)
    as [(Hin & Hstop & Hok)|(s' & Hin & Hsame)]; rewrite Hin.
  - apply justified_finish. simpl. apply justified_record; auto.
    exists d, e, v. auto.
  - unfold justified_run. simpl.
    apply (justified_same_steps s0 s _ (invoked l) _ Hj Hsame).
    apply incl_appl, incl_refl.
Qed.

Lemma justified_step_validation s0 s l :
  bound_by env l ->
  justified env s0 s (invoked l) -> justified_run env s0 (step_validation env s l).
Proof.
  intros Hb Hj. pose proof Hb as (Hd & He & Hv). unfold step_validation.
  destruct (_ && _); [|apply justified_step_mapping; assumption].
  destruct (extraction_result l) as [[e|?]|] eqn:Hel;
    try (apply justified_leave; exact Hj).
  specialize (He _ eq_refl).
  destruct (after_stage_split Validation
              (success (run_hexagon_validation env e)) s)
    as [(Hin & Hstop & Hok)|(s' & Hin & Hsame)]; rewrite Hin.
  - apply justified_step_mapping.
    + repeat split; simpl; auto; intros r Hr; inversion Hr; subst; eauto.
    + simpl. apply justified_record; auto. exists e. auto.
  - unfold justified_run. simpl.
    apply (justified_same_steps s0 s _ (invoked l) _ Hj Hsame).
    apply incl_appl, incl_refl.
Qed.

Lemma justified_step_extraction s0 s l :
  bound_by env l ->
  extraction_result l = None -> validation_result l = None ->
  justified env s0 s (invoked l) -> justified_run env s0 (step_extraction env s l).
Proof.
  intros Hb Hne Hnv Hj. pose proof Hb as (Hd & He & Hv). unfold step_extraction.
  destruct (_ && _); [|apply justified_step_validation; assumption].
  destruct (after_stage_split Extraction
              (success (run_hexagon_extraction env)) s)
    as [(Hin & Hstop & Hok)|(s' & Hin & Hsame)]; rewrite Hin.
  - apply justified_step_validation.
    + repeat split; simpl; auto; intros r Hr; try rewrite Hnv in Hr;
        inversion Hr; subst; eauto.
    + simpl. apply justified_record; auto.
  - unfold justified_run. simpl.
    apply (justified_same_steps s0 s _ (invoked l) _ Hj Hsame).
    apply incl_appl, incl_refl.
Qed.

Lemma justified_step_detection s0 s :
  justified env s0 s [] -> justified_run env s0 (step_detection env s no_locals).
Proof.
  intros Hj. unfold step_detection.
  destruct (negb _).
  2:{ apply justified_step_extraction; auto.
      repeat split; simpl; intros r Hr; discriminate. }
  destruct (after_stage_split Detection (success (run_dcne_detection env)) s)
    as [(Hin & Hstop & Hok)|(s' & Hin & Hsame)]; rewrite Hin.
  - apply justified_step_extraction; auto.
    + repeat split; simpl; intros r Hr; inversion Hr; subst; eauto.
    + simpl. apply (justified_record s0 s [] Detection); auto.
  - unfold justified_run. simpl.
    apply (justified_same_steps s0 s _ [] _ Hj Hsame).
    apply incl_nil_l.
Qed.

(** A step is recorded by an execution only if the execution invoked its
    stage, the Stop button was not clicked while the stage ran, and the
    runner returned success on the payloads of the stages before it. *)
Theorem recorded_step_was_run_successfully (click : Click) s (step : Step) :
  is_completed (session (main env click s)) step = true ->
  is_completed s step = true
  \/ (In step (stages (main env click s))
      /\ stop_during env step = false
      /\ succeeded env step).
Proof.
  revert step. change (justified_run env s (main env click s)).
  assert (Hs : justified env s s []) by (intros step Hc; left; exact Hc).
  assert (Hflags : forall s' e, completed_steps s' = completed_steps s ->
                                justified_run env s (leave s' no_locals e)).
  { intros s' e Hsame. unfold justified_run. simpl.
    apply (justified_same_steps s s _ [] _ Hs Hsame). apply incl_refl. }
  unfold main.
  destruct (_ && _); [destruct click; apply Hflags; reflexivity|].
  destruct (_ && _).
  2:{ destruct (processing_halted s); [destruct click|];
      apply Hflags; reflexivity. }
  unfold processing.
  assert (Hrun : justified_run env s
            (if negb (processing_started (init_status s))
             then leave (set_halted (init_status s)) no_locals Rerun
             else step_detection env (init_status s) no_locals)).
  { destruct (negb _); [apply Hflags; reflexivity|].
    apply justified_step_detection.
    apply (justified_same_steps s s _ [] _ Hs); [reflexivity | apply incl_refl]. }
  destruct click; try exact Hrun. apply Hflags. reflexivity.
Qed.

(** A run that nothing disturbs completes: started with no step recorded,
    with four runners that succeed and no click on Stop, one execution
    invokes the four stages in order, records the four steps with their
    seconds, stores the four results and leaves the session completed. *)
Theorem undisturbed_run_completes (click : Click) s (d : D) (e : E) (v : V)
    (m : M) :
  processing_started s = true ->
  processing_completed s = false ->
  completed_steps s = [] ->
  click <> StopProcessing ->
  run_dcne_detection env = Success d ->
  run_hexagon_extraction env = Success e ->
  run_hexagon_validation env e = Success v ->
  run_enhanced_mapping env v d = Success m ->
  (forall step, stop_during env step = false) ->
  let r := main env click s in
  stages r = [Detection; Extraction; Validation; Mapping]
  /\ exit r = Rerun
  /\ processing_started (session r) = false
  /\ processing_completed (session r) = true
  /\ processing_halted (session r) = processing_halted s
  /\ completed_steps (session r) = [0; 1; 2; 3]
  /\ processing_results (session r)
     = Some {| res_detection := Success d; res_extraction := Success e;
               res_validation := Success v; res_mapping := Success m |}
  /\ forall step,
       processing_status (session r) <> None
       /\ get_status (get (processing_status (session r)) initial_status) step
          = {| completed := true; time := seconds env step |}.
Proof.
  intros Hs Hc Hn Hclick Hd He Hv Hm Hstop r.
  assert (Hr : r = step_detection env (init_status s) no_locals).
  { unfold r, main. rewrite Hs, Hc. simpl.
    unfold processing. destruct click; try contradiction;
      simpl; rewrite Hs; reflexivity. }
  rewrite Hr. clear r Hr.
  unfold step_detection, is_completed. simpl. rewrite Hn. simpl.
  unfold after_stage. rewrite Hd, (Hstop Detection). simpl. rewrite Hs. simpl.
  unfold step_extraction, is_completed. simpl. rewrite Hn. simpl.
  unfold after_stage. rewrite He, (Hstop Extraction). simpl. rewrite Hs. simpl.
  unfold step_validation, is_completed. simpl. rewrite Hn. simpl.
  unfold after_stage. rewrite Hv, (Hstop Validation). simpl. rewrite Hs. simpl.
  unfold step_mapping, is_completed. simpl. rewrite Hn. simpl.
  unfold after_stage. rewrite Hm, (Hstop Mapping). simpl. rewrite Hs. simpl.
  unfold finish. simpl. rewrite Hn. simpl.
  repeat split; try reflexivity; try discriminate.
  destruct step; reflexivity.
Qed.

End RecordedSteps.

(** ** An interrupted run cannot be resumed *)

Section Interrupted.

Import Orchestrator.

Context {D E V M : Type}.

Implicit Types (s : SessionState D E V M).

Ltac not_invoked :=
  let H := fresh "H" in
  intros H; simpl in H;
  repeat (destruct H as [H|H]; [discriminate|]); exact H.

Ltac settle :=
  simpl; repeat split;
  try reflexivity; try discriminate; try not_invoked;
  try (intros _; first [left; reflexivity | right; reflexivity]).

Lemma interrupted_main (env : Environment D E V M) (click : Click) s :
  interrupted s ->
  let r := main env click s in
  ~ In Detection (stages r)
  /\ ~ In Mapping (stages r)
  /\ processing_results (session r) = processing_results s
  /\ processing_completed (session r) = false
  /\ completed_steps (session r) <> []
  /\ is_completed (session r) Mapping = false
  /\ (processing_started s = true ->
      exit r = Crashed \/ processing_halted (session r) = true).
Proof.
  intros (Hc & Hne & Hm & [k Hk]).
  destruct s as [st co ha cur cs ps pr]. simpl in *. subst co cs.
  unfold is_completed in Hm. simpl in Hm.
  destruct k as [|[|[|[|k]]]]; simpl in *; try congruence.
  - (* detection recorded *)
    unfold main. simpl. destruct st, ha, click; settle.
    all: unfold processing, step_detection, step_extraction, is_completed,
           after_stage; simpl.
    all: destruct (stop_during env Extraction); settle.
    all: destruct (run_hexagon_extraction env) as [e|?]; settle.
    all: unfold step_validation, is_completed, after_stage; simpl.
    all: destruct (stop_during env Validation); settle.
    all: destruct (run_hexagon_validation env e) as [v|?]; settle.
  - (* detection and extraction recorded *)
    unfold main. simpl. destruct st, ha, click; settle.
  - (* detection, extraction and validation recorded *)
    unfold main. simpl. destruct st, ha, click; settle.
Qed.

(** A started execution that finds a step already recorded invokes
    neither detection nor mapping, stores no results and does not
    complete: it ends on an unbound stage result or leaves the session
    halted. *)
Theorem restarted_run_crashes_or_halts (env : Environment D E V M)
    (click : Click) s :
  processing_started s = true ->
  processing_completed s = false ->
  completed_steps s <> [] ->
  is_completed s Mapping = false ->
  recorded_in_order s ->
  let r := main env click s in
  ~ In Detection (stages r)
  /\ ~ In Mapping (stages r)
  /\ processing_results (session r) = processing_results s
  /\ processing_completed (session r) = false
  /\ (exit r = Crashed \/ processing_halted (session r) = true).
Proof.
  intros Hs Hc Hne Hm Ho r.
  destruct (interrupted_main env click s (conj Hc (conj Hne (conj Hm Ho))))
    as (Hd & Hmap & Hres & Hco & _ & _ & Hexit).
  repeat split; auto.
Qed.

(** Once a run of a session was interrupted with a step recorded, by a
    failing stage or by the Stop button, no sequence of clicks and
    executions completes the session or stores results in it. *)
Theorem interrupted_session_never_completes
    (trace : list (Environment D E V M * Click)) :
  forall s,
    consistent s -> interrupted s ->
    processing_completed (after_executions trace s) = false
    /\ processing_results (after_executions trace s) = processing_results s.
Proof.
  induction trace as [|[env click] trace IH]; intros s Hcons Hint.
  - split; [apply Hint | reflexivity].
  - destruct (interrupted_main env click s Hint)
      as (_ & _ & Hres & Hc & Hne & Hm & _).
    pose proof (consistent_main env click s Hcons) as Hcons'.
    simpl. rewrite <- Hres. apply IH; [exact Hcons'|].
    split; [exact Hc|]. split; [exact Hne|]. split; [exact Hm|].
    apply Hcons'.
Qed.

End Interrupted.

(** ** The stage runners in the application *)

Section PipelineMore.

Import Orchestrator Pipeline.

Lemma endswith_append (a b : string) : PyStr.endswith (a ++ b) b = true.
Proof.
  unfold PyStr.endswith. rewrite length_append.
  replace (String.length a + String.length b - String.length b)%nat
    with (String.length a) by lia.
  rewrite drop_append, String.eqb_refl, andb_true_r.
  apply Nat.leb_le. lia.
Qed.

Lemma filename_ends_in_png (i : Z) (p : float) :
  PyStr.endswith (Extractor.filename_of i p) ".png" = true.
Proof.
  unfold Extractor.filename_of. rewrite <- !append_assoc.
  apply endswith_append.
Qed.

Lemma saved_names_end_in_png (image : option Image)
    (response : option Response) (threshold : float) :
  Forall (fun f => PyStr.endswith f ".png" = true)
    (map Extractor.hexagon_filename
       (Extractor.saved_artifacts
          (Extractor.extract_hexagons image response threshold))).
Proof.
  apply Forall_forall. intros f Hin.
  apply in_map_iff in Hin. destruct Hin as (a & <- & Hin).
  apply In_nth_error in Hin. destruct Hin as [k Hk].
  destruct response as [r|]; [|destruct k; discriminate].
  destruct (predictions r) as [preds|] eqn:Hp.
  2:{ unfold Extractor.extract_hexagons in Hk. rewrite Hp in Hk.
      destruct k; discriminate. }
  destruct image as [opened|].
  2:{ unfold Extractor.extract_hexagons in Hk. rewrite Hp in Hk.
      destruct k; discriminate. }
  destruct (size opened) as [W H] eqn:Hsize.
  destruct (saved_artifact_from_survivor opened W H r preds threshold k a
              Hsize Hp Hk)
    as (p & _ & _ & Hname & _).
  rewrite Hname. apply filename_ends_in_png.
Qed.

Lemma filter_all {A : Type} (f : A -> bool) (l : list A) :
  Forall (fun x => f x = true) l -> filter f l = l.
Proof.
  induction 1 as [|x l Hx _ IH]; simpl; [reflexivity|].
  rewrite Hx, IH. reflexivity.
Qed.

(** The extraction runner succeeds whenever the configuration is found,
    also when the detector's answer holds no detection or the request
    failed, and the count it reports is the number of crops the extractor
    saved; without configuration it fails. *)
Theorem extraction_runner_reports_saved_crops (w : World) :
  let saved :=
    Extractor.saved_artifacts
      (Extractor.extract_hexagons (Some (image w)) (extraction_response w) 0.70)
  in
  (config_found w = true ->
   run_hexagon_extraction w
   = Success {| hexagons_folder := map Extractor.hexagon_filename saved;
                hexagon_count := Z.of_nat (List.length saved) |})
  /\ (config_found w = false -> success (run_hexagon_extraction w) = false).
Proof.
  intros saved. unfold run_hexagon_extraction. split; intros ->; [|reflexivity].
  subst saved. f_equal. f_equal.
  rewrite (filter_all _ _ (saved_names_end_in_png _ _ _)).
  rewrite length_map. reflexivity.
Qed.

(** In the application, with the Stop button never clicked, a run
    completes exactly when the detection and the validation runners
    succeed: the mapping runner never fails, so that the run completes
    and stores a mapping result also when the reconciler wrote nothing;
    otherwise the run is halted and stores no results. *)
Theorem application_completes_iff_stages_succeed (w : World)
    (seconds : Step -> float) :
  let r := main (environment w seconds never_stopped) NoClick
             (started_session D E V M) in
  (processing_completed (session r) = true <->
   exists d e v,
     run_dcne_detection w = Success d
     /\ run_hexagon_extraction w = Success e
     /\ run_hexagon_validation w e = Success v)
  /\ (forall d e v,
        run_dcne_detection w = Success d ->
        run_hexagon_extraction w = Success e ->
        run_hexagon_validation w e = Success v ->
        stages r = [Detection; Extraction; Validation; Mapping]
        /\ processing_results (session r)
           = Some {| res_detection := Success d;
                     res_extraction := Success e;
                     res_validation := Success v;
                     res_mapping :=
                       Success (Mapper.map_true_hexagons_to_image
                                  (Some (image w)) (Some v) (Some d)) |})
  /\ (processing_completed (session r) = false ->
      processing_halted (session r) = true
      /\ processing_results (session r) = None
      /\ ~ In Mapping (stages r)).
Proof.
  intros r. subst r.
  unfold main, processing, step_detection, after_stage; simpl.
  destruct (run_dcne_detection w) as [d|?] eqn:Hd; simpl.
  2:{ split; [split; [discriminate | intros (? & ? & ? & ? & _); discriminate]|].
      split; [intros; discriminate|]. intros _.
      repeat split. intros [H|[]]; discriminate. }
  unfold step_extraction, after_stage; simpl.
  destruct (run_hexagon_extraction w) as [e|?] eqn:He; simpl.
  2:{ split; [split; [discriminate | intros (? & ? & ? & _ & ? & _); discriminate]|].
      split; [intros; discriminate|]. intros _.
      repeat split. intros [H|[H|[]]]; discriminate. }
  unfold step_validation, after_stage; simpl.
  destruct (run_hexagon_validation w e) as [v|?] eqn:Hv; simpl.
  2:{ split.
      - split; [discriminate|].
        intros (? & e' & ? & _ & He' & Hv'). injection He' as <-.
        rewrite Hv in Hv'. discriminate.
      - split; [intros ? e' ? _ He' Hv'; injection He' as <-;
                rewrite Hv in Hv'; discriminate|].
        intros _. repeat split. intros [H|[H|[H|[]]]]; discriminate. }
  unfold step_mapping, after_stage; simpl.
  split; [split; [intros _; exists d, e, v; auto | reflexivity]|].
  split; [|discriminate].
  intros d' e' v' Hd' He' Hv'. injection Hd' as <-. injection He' as <-.
  rewrite Hv in Hv'. injection Hv' as <-. split; reflexivity.
Qed.

End PipelineMore.

Lemma steps_always_recorded_in_order_witness :
  let s := after_executions
             [(stop_in_validation, Orchestrator.StartProcessing);
              (stop_in_validation, Orchestrator.NoClick)]
             (Orchestrator.fresh_session unit unit unit unit) in
  Orchestrator.completed_steps s = [0; 1]
  /\ Orchestrator.is_completed s Orchestrator.Detection = true.
Proof.
  split; [reflexivity|].
  apply (steps_always_recorded_in_order
           [(stop_in_validation, Orchestrator.StartProcessing);
            (stop_in_validation, Orchestrator.NoClick)]).
  reflexivity.
Defined.

Lemma completion_is_final_witness :
  after_executions
    ([(all_succeed, Orchestrator.StartProcessing);
      (all_succeed, Orchestrator.NoClick)]
     ++ [(all_succeed, Orchestrator.StartAgain);
         (all_succeed, Orchestrator.StartProcessing)])
    (Orchestrator.fresh_session unit unit unit unit)
  = after_executions
      [(all_succeed, Orchestrator.StartProcessing);
       (all_succeed, Orchestrator.NoClick)]
      (Orchestrator.fresh_session unit unit unit unit).
Proof.
  apply (completion_is_final
           [(all_succeed, Orchestrator.StartProcessing);
            (all_succeed, Orchestrator.NoClick)]).
  reflexivity.
Defined.

Lemma recorded_step_was_run_successfully_witness :
  In Orchestrator.Extraction
    (Orchestrator.stages
       (Orchestrator.main stop_in_validation Orchestrator.NoClick
          (started_session unit unit unit unit)))
  /\ Orchestrator.stop_during stop_in_validation Orchestrator.Extraction = false
  /\ succeeded stop_in_validation Orchestrator.Extraction.
Proof.
  destruct (recorded_step_was_run_successfully stop_in_validation
              Orchestrator.NoClick (started_session unit unit unit unit)
              Orchestrator.Extraction eq_refl) as [Hbefore|Hrun].
  - discriminate Hbefore.
  - exact Hrun.
Defined.

Lemma undisturbed_run_completes_witness :
  let r := Orchestrator.main all_succeed Orchestrator.NoClick
             (started_session unit unit unit unit) in
  Orchestrator.stages r
  = [Orchestrator.Detection; Orchestrator.Extraction;
     Orchestrator.Validation; Orchestrator.Mapping]
  /\ Orchestrator.processing_completed (Orchestrator.session r) = true.
Proof.
  destruct (undisturbed_run_completes all_succeed Orchestrator.NoClick
              (started_session unit unit unit unit) tt tt tt tt
              eq_refl eq_refl eq_refl)
    as (Hst & _ & _ & Hc & _); try reflexivity.
  - discriminate.
  - split; [exact Hst | exact Hc].
Defined.

Lemma restarted_run_crashes_or_halts_witness :
  let r := Orchestrator.main all_succeed Orchestrator.NoClick
             (Orchestrator.set_flags
                (halted_after_extraction unit unit unit unit 2.5 1.25)
                true false false) in
  Orchestrator.stages r = []
  /\ Orchestrator.exit r = Orchestrator.Crashed
  /\ ~ In Orchestrator.Mapping (Orchestrator.stages r)
  /\ Orchestrator.processing_completed (Orchestrator.session r) = false.
Proof.
  split; [reflexivity|]. split; [reflexivity|].
  destruct (restarted_run_crashes_or_halts all_succeed Orchestrator.NoClick
              (Orchestrator.set_flags
                 (halted_after_extraction unit unit unit unit 2.5 1.25)
                 true false false))
    as (_ & Hm & _ & Hc & _).
  - reflexivity.
  - reflexivity.
  - discriminate.
  - reflexivity.
  - exists 2%nat. reflexivity.
  - split; [exact Hm | exact Hc].
Defined.

Lemma interrupted_session_never_completes_witness :
  Orchestrator.processing_completed
    (after_executions
       [(all_succeed, Orchestrator.StartAgain);
        (all_succeed, Orchestrator.NoClick);
        (all_succeed, Orchestrator.NoClick)]
       (halted_after_extraction unit unit unit unit 2.5 1.25)) = false.
Proof.
  apply (interrupted_session_never_completes
           [(all_succeed, Orchestrator.StartAgain);
            (all_succeed, Orchestrator.NoClick);
            (all_succeed, Orchestrator.NoClick)]
           (halted_after_extraction unit unit unit unit 2.5 1.25)).
  - split; [reflexivity|]. split; [exists 2%nat; reflexivity|].
    intros []; reflexivity.
  - split; [reflexivity|]. split; [discriminate|].
    split; [reflexivity | exists 2%nat; reflexivity].
Defined.

Lemma extraction_runner_reports_saved_crops_witness :
  exists e,
    Pipeline.run_hexagon_extraction two_hexagons = Orchestrator.Success e
    /\ Pipeline.hexagon_count e = 2.
Proof.
  eexists. split.
  - apply (proj1 (extraction_runner_reports_saved_crops two_hexagons)).
    reflexivity.
  - vm_compute. reflexivity.
Defined.

Lemma application_completes_iff_stages_succeed_witness :
  Orchestrator.processing_completed
    (Orchestrator.session
       (Orchestrator.main
          (Pipeline.environment two_hexagons one_second never_stopped)
          Orchestrator.NoClick
          (started_session Pipeline.D Pipeline.E Pipeline.V Pipeline.M)))
  = true.
Proof.
  apply (proj1 (application_completes_iff_stages_succeed two_hexagons
                  one_second)).
  eexists. eexists. eexists.
  split; [vm_compute; reflexivity|].
  split; [vm_compute; reflexivity|].
  vm_compute. reflexivity.
Defined.

(** ** The validation runner and the files of the wrapper *)

Section ValidationRunner.

Import Orchestrator Pipeline.

Lemma take_drop (n : nat) (s : string) :
  (substring 0 n s ++ PyStr.drop n s)%string = s.
Proof.
  revert s. induction n as [|n IH]; intros [|c s]; simpl; try reflexivity.
  rewrite IH. reflexivity.
Qed.

Lemma endswith_inv (s suffix : string) :
  PyStr.endswith s suffix = true -> exists a, s = (a ++ suffix)%string.
Proof.
  unfold PyStr.endswith. intros Hs. apply andb_prop in Hs.
  destruct Hs as [_ Hs]. apply String.eqb_eq in Hs.
  exists (substring 0 (String.length s - String.length suffix) s).
  rewrite <- Hs at 2. symmetry. apply take_drop.
Qed.

Lemma drop_append_more (a b : string) (k : nat) :
  PyStr.drop (String.length a + k) (a ++ b) = PyStr.drop k b.
Proof. induction a as [|x a IH]; simpl; [reflexivity | exact IH]. Qed.

Lemma png_is_not_json (f : string) :
  PyStr.endswith f ".png" = true -> PyStr.endswith f ".json" = false.
Proof.
  intros Hpng. destruct (PyStr.endswith f ".json") eqn:Hjson; [|reflexivity].
  apply endswith_inv in Hjson. destruct Hjson as [a ->].
  unfold PyStr.endswith in Hpng. rewrite length_append in Hpng.
  replace (String.length a + String.length ".json" - String.length ".png")%nat
    with (String.length a + 1)%nat in Hpng by (simpl; lia).
  rewrite drop_append_more in Hpng. simpl in Hpng.
  rewrite andb_false_r in Hpng. discriminate.
Qed.

Lemma find_from_found (sub b a : string) :
  forall i : Z, 0 <= i -> 0 <= PyStr.find_from sub (a ++ sub ++ b) i.
Proof.
  induction a as [|x a IH]; intros i Hi.
  - cbn [append]. destruct (sub ++ b)%string eqn:Hs;
      cbn [PyStr.find_from]; rewrite <- Hs, prefix_append; exact Hi.
  - cbn [append PyStr.find_from].
    destruct (prefix sub (String x (a ++ sub ++ b))); [exact Hi|].
    apply IH. lia.
Qed.

Lemma contains_infix (sub a b : string) :
  PyStr.contains sub (a ++ sub ++ b) = true.
Proof.
  unfold PyStr.contains, PyStr.find. apply Z.leb_le.
  apply find_from_found. lia.
Qed.

Lemma find_none_app {A : Type} (f : A -> bool) (l more : list A) :
  Forall (fun x => f x = false) l -> List.find f (l ++ more) = List.find f more.
Proof.
  induction 1 as [|x l Hx _ IH]; simpl; [reflexivity|].
  rewrite Hx. exact IH.
Qed.

Lemma true_hexagons_file_name (name : string) :
  has_char "." name = false ->
  PyStr.replace ("hexagon_validation_" ++ name ++ ".json") ".json"
    "_true_hexagons.json"
  = ("hexagon_validation_" ++ name ++ "_true_hexagons.json")%string.
Proof.
  intros Hdot. unfold PyStr.replace.
  assert (Hs : PyStr.split ("hexagon_validation_" ++ name ++ ".json") ".json"
               = [("hexagon_validation_" ++ name)%string; ""%string]).
  { rewrite <- append_assoc.
    apply (split_once "." "json" ("hexagon_validation_" ++ name) "").
    - rewrite has_char_append, Hdot. reflexivity.
    - reflexivity. }
  rewrite Hs. cbn [concat]. rewrite append_assoc. reflexivity.
Qed.

(** In a folder that holds the crops of the extraction runner, for an
    image whose name has no dot and does not itself read true_hexagons,
    the validation runner succeeds exactly when the wrapper saved its two
    files, and what it hands to the mapping stage is the content of the
    file of the true hexagons; when the wrapper saved nothing it fails. *)
Theorem validation_runner_reads_true_hexagons (w : World) (e : ExtractedFolder) :
  run_hexagon_extraction w = Success e ->
  has_char "." (image_name w) = false ->
  PyStr.contains "true_hexagons"
    ("hexagon_validation_" ++ image_name w ++ ".json") = false ->
  run_hexagon_validation w e
  = match Validator.process_hexagon_folder PyStr.posix_basename
            PyStr.posix_join (json_loads w) (image_name w)
            (hexagons_folder e) (calls w) with
    | Validator.Saved results true_hexagons => Success true_hexagons
    | _ => Failure "True hexagons file not found"
    end.
Proof.
  intros He Hdot Hname.
  assert (Hpng : Forall (fun f => PyStr.contains "true_hexagons" f
                                  && PyStr.endswith f ".json" = false)
                   (hexagons_folder e)).
  { unfold run_hexagon_extraction in He.
    destruct (config_found w); [|discriminate]. injection He as <-. simpl.
    eapply Forall_impl; [|apply saved_names_end_in_png].
    intros f Hf. simpl in Hf. rewrite (png_is_not_json f Hf).
    apply andb_false_r. }
  unfold run_hexagon_validation.
  destruct (Validator.process_hexagon_folder _ _ _ _ _ _)
    as [| |results true_hexagons]; cbn [written_files map fst].
  - rewrite (find_none_app _ _ [] Hpng). reflexivity.
  - rewrite (find_none_app _ _ [] Hpng). reflexivity.
  - rewrite (find_none_app _ _ _ Hpng).
    rewrite (true_hexagons_file_name _ Hdot).
    cbn [List.find]. rewrite Hname. cbn [andb].
    assert (Hfound :
              PyStr.contains "true_hexagons"
                ("hexagon_validation_" ++ image_name w ++ "_true_hexagons.json")
              && PyStr.endswith
                   ("hexagon_validation_" ++ image_name w ++ "_true_hexagons.json")
                   ".json" = true).
    { apply andb_true_intro. split.
      - change ("hexagon_validation_" ++ image_name w ++ "_true_hexagons.json")%string
          with ("hexagon_validation_"
                  ++ image_name w ++ "_" ++ "true_hexagons" ++ ".json")%string.
        rewrite <- (append_assoc (image_name w)), <- append_assoc.
        apply contains_infix.
      - change ("hexagon_validation_" ++ image_name w ++ "_true_hexagons.json")%string
          with ("hexagon_validation_"
                  ++ image_name w ++ "_true_hexagons" ++ ".json")%string.
        rewrite <- (append_assoc (image_name w)), <- append_assoc.
        apply endswith_append. }
    rewrite Hfound. cbn [read_file]. rewrite String.eqb_refl. reflexivity.
Qed.

End ValidationRunner.

Lemma validation_runner_reads_true_hexagons_witness :
  exists e true_hexagons,
    Pipeline.run_hexagon_extraction two_hexagons = Orchestrator.Success e
    /\ Pipeline.run_hexagon_validation two_hexagons e
       = Orchestrator.Success true_hexagons
    /\ List.length true_hexagons = 2%nat.
Proof.
  destruct (Pipeline.run_hexagon_extraction two_hexagons) as [e|err] eqn:He.
  2:{ vm_compute in He. discriminate He. }
  exists e.
  pose proof (validation_runner_reads_true_hexagons two_hexagons e He
                eq_refl eq_refl) as Hv.
  vm_compute in He. injection He as <-.
  vm_compute in Hv.
  eexists. split; [reflexivity|]. split; [exact Hv | reflexivity].
Defined.

(** ** The reconciler on an empty validated set *)

Section EmptySet.

Import Orchestrator Pipeline.





End EmptySet.

(** ** The numbering of the saved artifacts *)

Section Numbering.

Import Extractor.

(** C6, as the spec states it: the N detections at or above the
    threshold are numbered 1..N.  With a first such detection half a
    pixel wide the crop is empty, its saving raises, and the call ends
    with no artifact for its two such detections. *)
Lemma narrow_survivor_ends_the_numbering :
  let survivors :=
    high_confidence_predictions (get_predictions narrow_response) 0.70 in
  let saved :=
    saved_artifacts
      (extract_hexagons (Some (rgb_image 1000 800)) (Some narrow_response)
         0.70) in
  List.length survivors = 2%nat
  /\ crop_region 1000 800 narrow_box = Some (500, 392, 500, 488)
  /\ saved = []
  /\ map number_in_name saved <> map Some (zseq 1 (List.length survivors)).
Proof.
  split; [reflexivity|]. split; [vm_compute; reflexivity|].
  split; [vm_compute; reflexivity|]. vm_compute. discriminate.
Qed.


End Numbering.

